(** * Red/blue eyes puzzle: a shallow embedding of the simulation core

    The development follows the Python sources:
    - [src/puzzle.py]      : [EyeColor], [Villager], [Village]
    - [src/reasoning.py]   : the reasoning policies and the force-leave rule
    - [src/simulation.py]  : [create_village], [run_simulation]
    - [src/web_server.py]  : [_api_init], [_api_announce], [_api_next],
                             [_api_run_all] and the functions they call
    - [src/env.py]         : [load_dotenv]

    Python [int] is [Z]; a Python [str] is the list of its code points
    ([pystr]); a mutable list of objects is a list used as a store, an
    object being identified by its position. *)

From Stdlib Require Import ZArith NArith List Bool Lia Permutation.
From Stdlib Require Import Strings.String Strings.Ascii DecimalString.
From Stdlib Require Import Floats.
From stdpp Require Import base tactics option list.
Import ListNotations.

Set Warnings "-inexact-float,-register-all".

Local Open Scope Z_scope.

(** ** Python strings *)

Module PyStr.

(** A [str] is a sequence of Unicode code points. *)
Definition pystr := list N.

(** Literals are written as UTF-8 text and decoded to code points. *)
Fixpoint utf8_decode (bs : list N) : pystr :=
  match bs with
  | [] => []
  | b0 :: r0 =>
      if (b0 <? 128)%N then b0 :: utf8_decode r0
      else if (b0 <? 224)%N then
        match r0 with
        | b1 :: r1 =>
            N.lor (N.shiftl (N.land b0 31) 6) (N.land b1 63) :: utf8_decode r1
        | _ => []
        end
      else if (b0 <? 240)%N then
        match r0 with
        | b1 :: b2 :: r2 =>
            N.lor (N.shiftl (N.land b0 15) 12)
              (N.lor (N.shiftl (N.land b1 63) 6) (N.land b2 63))
              :: utf8_decode r2
        | _ => []
        end
      else
        match r0 with
        | b1 :: b2 :: b3 :: r3 =>
            N.lor (N.shiftl (N.land b0 7) 18)
              (N.lor (N.shiftl (N.land b1 63) 12)
                 (N.lor (N.shiftl (N.land b2 63) 6) (N.land b3 63)))
              :: utf8_decode r3
        | _ => []
        end
  end.

Definition u (s : string) : pystr :=
  utf8_decode (map N_of_ascii (list_ascii_of_string s)).

(** [str(n)] for an [int]. *)
Definition str_of_int (n : Z) : pystr :=
  u (NilZero.string_of_int (Z.to_int n)).

(** [str.isspace] for one character: the code points Python counts as
    whitespace ([Py_UNICODE_ISSPACE]). *)
Definition isspace (c : N) : bool :=
  ((9 <=? c) && (c <=? 13) || (28 <=? c) && (c <=? 32)
   || (c =? 133) || (c =? 160) || (c =? 5760)
   || (8192 <=? c) && (c <=? 8202)
   || (c =? 8232) || (c =? 8233) || (c =? 8239) || (c =? 8287)
   || (c =? 12288))%N.

Fixpoint lstrip (s : pystr) : pystr :=
  match s with
  | c :: r => if isspace c then lstrip r else s
  | [] => []
  end.

Definition rstrip (s : pystr) : pystr := rev (lstrip (rev s)).

(** [s.strip()] *)
Definition strip (s : pystr) : pystr := rstrip (lstrip s).

Fixpoint startswith (p s : pystr) : bool :=
  match p, s with
  | [], _ => true
  | a :: p', b :: s' => (a =? b)%N && startswith p' s'
  | _ :: _, [] => false
  end.

(** [p in s] *)
Fixpoint contains (p s : pystr) : bool :=
  startswith p s ||
  match s with
  | [] => false
  | _ :: s' => contains p s'
  end.

(** [any(p in s for p in ps)] *)
Definition any_in (ps : list pystr) (s : pystr) : bool :=
  existsb (fun p => contains p s) ps.

End PyStr.
Export PyStr.

(** ** Entity model ([src/puzzle.py]) *)

Inductive EyeColor := RED | BLUE.

#[global] Instance EyeColor_eq_dec : EqDecision EyeColor.
Proof. solve_decision. Defined.

(** [EyeColor.value] *)
Definition EyeColor_value (c : EyeColor) : pystr :=
  match c with RED => u "红色" | BLUE => u "蓝色" end.

Record Villager := mkVillager {
  id : Z;
  eye_color : EyeColor;
  name : pystr;
  villager_type : pystr;
  observed_red_eyes : Z;
  has_left : bool;
  left_on_day : option Z;
  reasoning_log : list pystr;
  observed_left_yesterday : Z;
  observed_left_total : Z
}.

(** The dataclass constructor with its defaults, followed by
    [__post_init__], which fills in a missing name. *)
Definition Villager_init (id0 : Z) (color : EyeColor) (name0 : option pystr)
    (vtype : pystr) : Villager :=
  mkVillager id0 color
    (match name0 with
     | Some n => n
     | None => u "村民" ++ str_of_int id0
     end)
    vtype 0 false None [] 0 0.

(** [__repr__] *)
Definition Villager_repr (v : Villager) : pystr :=
  name v ++ u "(" ++ EyeColor_value (eye_color v) ++ u "眼睛)".

(** Field updates. *)
Definition set_observed_red_eyes (n : Z) (v : Villager) : Villager :=
  mkVillager (id v) (eye_color v) (name v) (villager_type v) n (has_left v)
    (left_on_day v) (reasoning_log v) (observed_left_yesterday v)
    (observed_left_total v).

Definition set_group_context (yesterday total : Z) (v : Villager) : Villager :=
  mkVillager (id v) (eye_color v) (name v) (villager_type v)
    (observed_red_eyes v) (has_left v) (left_on_day v) (reasoning_log v)
    yesterday total.

(** [villager.reasoning_log.append(msg)] *)
Definition log_append (msg : pystr) (v : Villager) : Villager :=
  mkVillager (id v) (eye_color v) (name v) (villager_type v)
    (observed_red_eyes v) (has_left v) (left_on_day v)
    (reasoning_log v ++ [msg]) (observed_left_yesterday v)
    (observed_left_total v).

(** The test of the generator in [Villager.observe]. *)
Definition seen_red_by (self v : Villager) : bool :=
  negb (id v =? id self) && bool_decide (eye_color v = RED) && negb (has_left v).

(** [Villager.observe]: counts the present red-eyed villagers other than
    [self]. *)
Definition observe (self : Villager) (others : list Villager) : Villager :=
  set_observed_red_eyes
    (Z.of_nat (length (filter (fun v => seen_red_by self v = true) others))) self.

(** [Villager.leave] *)
Definition leave (v : Villager) (day : Z) : Villager :=
  mkVillager (id v) (eye_color v) (name v) (villager_type v)
    (observed_red_eyes v) true (Some day) (reasoning_log v)
    (observed_left_yesterday v) (observed_left_total v).

(** ** Reasoning policies ([src/reasoning.py]) *)

(** [ReasoningPolicy.decide(villager, day, public_announcement_made)]
    returns the decision; the villager object it was handed may have been
    mutated (its reasoning log appended to), so the villager after the call
    is returned as well. *)
Definition ReasoningPolicy := Villager -> Z -> bool -> bool * Villager.

Definition _is_blue (villager : Villager) : bool :=
  match eye_color villager with BLUE => true | RED => false end.

(** [_perfect_induction_decide_no_log] *)
Definition _perfect_induction_decide_no_log (villager : Villager) (day : Z)
    (public_announcement_made : bool) : bool :=
  if has_left villager then false
  else if negb public_announcement_made then false
  else if _is_blue villager then false
  else if observed_red_eyes villager =? 0 then day =? 1
  else
    let k := observed_red_eyes villager in
    let my_leave_day := k + 1 in
    day =? my_leave_day.

(** The texts written to the reasoning log. *)
Module Msg.

Definition day_prefix (day : Z) : pystr :=
  u "第" ++ str_of_int day ++ u "天: ".

Definition no_announcement (day : Z) : pystr :=
  day_prefix day
  ++ u "没有公开宣布。我仍会尝试推理，但缺少‘至少一人红眼’的公共知识基准，"
  ++ u "归纳链条无法闭合，所以无法确定自己是否该离开".

Definition blue (day observed : Z) : pystr :=
  day_prefix day ++ u "我看到 " ++ str_of_int observed ++ u " 个红眼睛，"
  ++ u "我不是红眼睛，所以不需要离开".

Definition base_case (day : Z) : pystr :=
  day_prefix day ++ u "[归纳基础] 我看到 0 个红眼睛，但游客说至少有一个，"
  ++ u "所以我一定是红眼睛！我必须离开。".

Definition waiting (day k : Z) : pystr :=
  day_prefix day ++ u "[归纳推理] 我看到 " ++ str_of_int k ++ u " 个红眼睛。"
  ++ u "假设我是蓝眼睛，那就只有 " ++ str_of_int k ++ u " 个红眼睛。"
  ++ u "根据归纳链条，" ++ str_of_int k ++ u " 个红眼睛会在第 "
  ++ str_of_int k ++ u " 天离开。"
  ++ u "现在才第 " ++ str_of_int day ++ u " 天，我继续等待观察...".

Definition concluded (day k : Z) : pystr :=
  day_prefix day ++ u "[归纳推理完成] 我看到的 " ++ str_of_int k
  ++ u " 个红眼睛昨天没有离开！"
  ++ u "如果只有他们 " ++ str_of_int k
  ++ u " 个是红眼睛，根据归纳链条他们应该在第 " ++ str_of_int k
  ++ u " 天离开。"
  ++ u "他们没离开，说明我的假设'我是蓝眼睛'错误！"
  ++ u "唯一的可能是：我也是红眼睛！我必须离开。".

Definition not_smart_silent (day : Z) : pystr :=
  day_prefix day ++ u "没有公开宣布，我也不会推理".

Definition not_smart (day observed : Z) : pystr :=
  day_prefix day ++ u "我看到 " ++ str_of_int observed
  ++ u " 个红眼睛，但我推理能力不足，"
  ++ u "无法确定自己是否是红眼睛，所以不离开".

Definition bounded_base (day : Z) : pystr :=
  day_prefix day
  ++ u "[有限归纳] 我看到0个红眼睛，游客说至少有一个 → 我是红眼睛，离开".

Definition bounded_base_stuck (day : Z) : pystr :=
  day_prefix day ++ u "[有限归纳] 我看到0个红眼睛，但我无法把结论落实到行动".

Definition bounded_too_deep (day k max_k : Z) : pystr :=
  day_prefix day ++ u "[有限归纳] 我看到" ++ str_of_int k
  ++ u "个红眼睛，但我只能处理到 k≤" ++ str_of_int max_k ++ u " 的归纳链条，"
  ++ u "无法得出结论，所以不离开".

Definition bounded_waiting (day k max_k : Z) : pystr :=
  day_prefix day ++ u "[有限归纳] 我看到" ++ str_of_int k
  ++ u "个红眼睛，且我能处理到 k≤" ++ str_of_int max_k ++ u "，继续等待".

Definition bounded_concluded (day k : Z) : pystr :=
  day_prefix day ++ u "[有限归纳完成] 第" ++ str_of_int k
  ++ u "天无人离开 → 我也是红眼睛，离开".

Definition max_day_reached (day max_day : Z) : pystr :=
  day_prefix day ++ u "[能力限制] 我只能推理到第" ++ str_of_int max_day
  ++ u "天，无法继续推理，所以不离开".

End Msg.

(** [PerfectInductionPolicy.decide] *)
Definition PerfectInductionPolicy : ReasoningPolicy :=
  fun villager day public_announcement_made =>
  if has_left villager then (false, villager)
  else if negb public_announcement_made then
    (false, log_append (Msg.no_announcement day) villager)
  else if _is_blue villager then
    (false, log_append (Msg.blue day (observed_red_eyes villager)) villager)
  else if observed_red_eyes villager =? 0 then
    if day =? 1 then (true, log_append (Msg.base_case day) villager)
    else (false, villager)
  else
    let k := observed_red_eyes villager in
    let my_leave_day := k + 1 in
    if day <? my_leave_day then
      (false, log_append (Msg.waiting day k) villager)
    else if day =? my_leave_day then
      (true, log_append (Msg.concluded day k) villager)
    else (false, villager).

(** [NoReasoningPolicy.decide] *)
Definition NoReasoningPolicy : ReasoningPolicy :=
  fun villager day public_announcement_made =>
  if has_left villager then (false, villager)
  else if negb public_announcement_made then
    (false, log_append (Msg.not_smart_silent day) villager)
  else
    (false, log_append (Msg.not_smart day (observed_red_eyes villager)) villager).

(** [BoundedInductionPolicy(max_k).decide] *)
Definition BoundedInductionPolicy (max_k : Z) : ReasoningPolicy :=
  fun villager day public_announcement_made =>
  if has_left villager then (false, villager)
  else if negb public_announcement_made then
    (false, log_append (Msg.no_announcement day) villager)
  else if _is_blue villager then
    (false, log_append (Msg.blue day (observed_red_eyes villager)) villager)
  else if observed_red_eyes villager =? 0 then
    if (day =? 1) && (0 <=? max_k) then
      (true, log_append (Msg.bounded_base day) villager)
    else (false, log_append (Msg.bounded_base_stuck day) villager)
  else
    let k := observed_red_eyes villager in
    if max_k <? k then
      (false, log_append (Msg.bounded_too_deep day k max_k) villager)
    else
      let my_leave_day := k + 1 in
      if day <? my_leave_day then
        (false, log_append (Msg.bounded_waiting day k max_k) villager)
      else if day =? my_leave_day then
        (true, log_append (Msg.bounded_concluded day k) villager)
      else (false, villager).

(** [MaxDayReasoningPolicy(max_day, inner).decide] *)
Definition MaxDayReasoningPolicy (max_day : Z) (inner : ReasoningPolicy)
    : ReasoningPolicy :=
  fun villager day public_announcement_made =>
  if has_left villager then (false, villager)
  else if max_day <? day then
    (false, log_append (Msg.max_day_reached day max_day) villager)
  else inner villager day public_announcement_made.

(** [PolicyByVillagerType(mapping, default).decide]; the mapping is a
    dictionary keyed by the type tag, looked up with [dict.get]. *)
Fixpoint dict_get {V} (mapping : list (pystr * V)) (key : pystr) : option V :=
  match mapping with
  | [] => None
  | (k, v) :: rest =>
      if bool_decide (k = key) then Some v else dict_get rest key
  end.

Definition PolicyByVillagerType (mapping : list (pystr * ReasoningPolicy))
    (default : option ReasoningPolicy) : ReasoningPolicy :=
  fun villager day public_announcement_made =>
  let policy :=
    match dict_get mapping (villager_type villager) with
    | Some p => p
    | None =>
        match default with
        | Some p => p
        | None => PerfectInductionPolicy
        end
    end in
  policy villager day public_announcement_made.

(** ** The village ([src/puzzle.py]) *)

Record Village := mkVillage {
  villagers : list Villager;
  reasoning_policy : ReasoningPolicy;
  announcement_made : bool;
  current_day : Z;
  knowledge_level : Z;
  daily_log : list pystr;
  left_yesterday_count : Z
}.

(** [Village(reasoning_policy=policy)] with the dataclass defaults. *)
Definition Village_init (policy : ReasoningPolicy) : Village :=
  mkVillage [] policy false 0 0 [] 0.

Definition set_villagers (vs : list Villager) (v : Village) : Village :=
  mkVillage vs (reasoning_policy v) (announcement_made v) (current_day v)
    (knowledge_level v) (daily_log v) (left_yesterday_count v).

(** [Village.add_villager] *)
Definition add_villager (v : Village) (color : EyeColor)
    (name0 : option pystr) (vtype : pystr) : Village :=
  let villager :=
    Villager_init (Z.of_nat (length (villagers v)) + 1) color name0 vtype in
  set_villagers (villagers v ++ [villager]) v.

(** A [for] loop over the objects of a list: the body is run for the
    positions [items] in turn, on the current state. *)
Definition for_each {S : Type} (items : list nat) (body : nat -> S -> S)
    (s : S) : S :=
  fold_left (fun s i => body i s) items s.

(** The positions of a list, in list order. *)
Definition positions {A} (l : list A) : list nat := seq 0 (length l).

(** One iteration of the loop of [initialize_observations], also the first
    loop of [simulate_day] when [only_present] is set: the villager at
    position [i] observes the current list. *)
Definition observe_step (only_present : bool) (i : nat)
    (vs : list Villager) : list Villager :=
  alter (fun x => if only_present && has_left x then x else observe x vs) i vs.

(** [Village.initialize_observations] *)
Definition initialize_observations (v : Village) : Village :=
  set_villagers
    (for_each (positions (villagers v)) (observe_step false) (villagers v)) v.

Module Log.

Definition announcement : pystr :=
  u "🎤 游客公开宣布: '村庄里至少有一个红眼睛的人！'".

Definition change_flag : pystr := u "💡 关键变化: announcement_made = True".

Definition change_level : pystr :=
  u "💡 关键变化: knowledge_level = -1 (公共知识，无限阶)".

Definition change_day : pystr := u "💡 关键变化: current_day 开始有意义的计时".

Definition day_header (day : Z) : pystr :=
  [10%N] ++ u "=== 第 " ++ str_of_int day ++ u " 天 ===".

Definition left (villager : Villager) : pystr :=
  u "  🚶 " ++ Villager_repr villager ++ u " 离开了村庄".

Definition nobody_left : pystr := u "  😴 今天没有人离开".

End Log.

(** [Village.make_announcement]; the returned message is
    [Log.announcement]. *)
Definition make_announcement (v : Village) : Village :=
  mkVillage (villagers v) (reasoning_policy v) true (current_day v) (-1)
    (daily_log v
       ++ [Log.announcement; Log.change_flag; Log.change_level; Log.change_day])
    (left_yesterday_count v).

(** The loops of [simulate_day]. *)

(** [sum(1 for v in self.villagers if v.has_left)] *)
Definition total_left (vs : list Villager) : Z :=
  Z.of_nat (length (filter (fun v => has_left v = true) vs)).

Definition context_step (yesterday total : Z) (i : nat)
    (vs : list Villager) : list Villager :=
  alter
    (fun x => if has_left x then x else set_group_context yesterday total x)
    i vs.

(** The state of the decision loop: the villagers and [leaving_today], a
    list of references into [villagers]. *)
Definition decide_step (policy : ReasoningPolicy) (day : Z) (announced : bool)
    (i : nat) (st : list Villager * list nat) : list Villager * list nat :=
  match st.1 !! i with
  | Some x =>
      if has_left x then st
      else
        let '(should_leave, x') := policy x day announced in
        (<[i := x']> st.1, if should_leave then st.2 ++ [i] else st.2)
  | None => st
  end.

(** The state of the departure loop: the villagers and the daily log. *)
Definition leave_step (day : Z) (i : nat)
    (st : list Villager * list pystr) : list Villager * list pystr :=
  match st.1 !! i with
  | Some x =>
      let x' := leave x day in
      (<[i := x']> st.1, st.2 ++ [Log.left x'])
  | None => st
  end.

(** [simulate_day], with the order in which the three loops over
    [self.villagers] visit the villagers as a parameter. It returns
    [leaving_today] (as positions) and the village after the round. *)
Definition simulate_day_in (order : list nat) (v : Village)
    : list nat * Village :=
  let day := current_day v + 1 in
  let log0 := daily_log v ++ [Log.day_header day] in
  let vs1 := for_each order (observe_step true) (villagers v) in
  let total_left_now := total_left vs1 in
  let vs2 :=
    for_each order (context_step (left_yesterday_count v) total_left_now) vs1 in
  let '(vs3, leaving_today) :=
    for_each order (decide_step (reasoning_policy v) day (announcement_made v))
      (vs2, []) in
  let '(vs4, log1) := for_each leaving_today (leave_step day) (vs3, log0) in
  let log2 :=
    match leaving_today with
    | [] => log1 ++ [Log.nobody_left]
    | _ => log1
    end in
  (leaving_today,
   mkVillage vs4 (reasoning_policy v) (announcement_made v) day
     (knowledge_level v) log2 (Z.of_nat (length leaving_today))).

(** [Village.simulate_day]: the loops run in list order. *)
Definition simulate_day (v : Village) : list nat * Village :=
  simulate_day_in (positions (villagers v)) v.

(** [n] rounds of [simulate_day] in a row; [leaving_on d v] is the list
    returned by the [d]-th call ([d >= 1]). *)
Fixpoint simulate_days (n : nat) (v : Village) : Village :=
  match n with
  | O => v
  | S n' => (simulate_day (simulate_days n' v)).2
  end.

Definition leaving_on (d : nat) (v : Village) : list nat :=
  (simulate_day (simulate_days (pred d) v)).1.

(** [get_remaining_villagers], [get_red_eye_count], [get_blue_eye_count] *)
Definition get_remaining_villagers (v : Village) : list Villager :=
  filter (fun x => has_left x = false) (villagers v).

Definition get_red_eye_count (v : Village) : Z :=
  Z.of_nat (length (filter (fun x => eye_color x = RED) (villagers v))).

Definition get_blue_eye_count (v : Village) : Z :=
  Z.of_nat (length (filter (fun x => eye_color x = BLUE) (villagers v))).

(** ** Population setup ([src/simulation.py], [src/web_server.py]) *)

Inductive exn :=
| ValueError (msg : pystr)
| IndexError
| JSONDecodeError.

(** A computation that returns a value or raises. *)
Definition result (A : Type) : Type := exn + A.
Definition Ok {A} (a : A) : result A := inr a.
Definition Raise {A} (e : exn) : result A := inl e.

Definition bind {A B} (m : result A) (f : A -> result B) : result B :=
  match m with
  | inl e => inl e
  | inr a => f a
  end.

Notation "'try' x <- m 'in' k" := (bind m (fun x => k))
  (at level 10, x pattern, m at level 100, k at level 200).

(** A [for i in range(...)] loop whose body may raise. *)
Fixpoint for_range {S : Type} (items : list nat)
    (body : nat -> S -> result S) (s : S) : result S :=
  match items with
  | [] => Ok s
  | i :: rest => try s' <- body i s in for_range rest body s'
  end.

(** [range(n)] for an [int] [n]: empty when [n <= 0]. *)
Definition range (n : Z) : list nat := seq 0 (Z.to_nat n).

(** The body shared by the two loops of [create_village]; the state is the
    village and the counter [idx]. *)
Definition create_step (color : EyeColor) (label : pystr)
    (villager_type : pystr) (villager_types : option (list pystr))
    (i : nat) (st : Village * nat) : result (Village * nat) :=
  try t <- match villager_types with
           | Some types =>
               match types !! st.2 with
               | Some t => Ok t
               | None => Raise IndexError
               end
           | None => Ok villager_type
           end in
  Ok (add_villager st.1 color (Some (label ++ str_of_int (Z.of_nat i + 1))) t,
      S st.2).

Definition length_error (total : Z) (got : nat) : exn :=
  ValueError (u "villager_types length must be " ++ str_of_int total
              ++ u ", got " ++ str_of_int (Z.of_nat got)).

(** [create_village] *)
Definition create_village (num_red num_blue : Z)
    (reasoning_policy0 : option ReasoningPolicy) (villager_type : pystr)
    (villager_types : option (list pystr)) : result Village :=
  let village :=
    Village_init (default PerfectInductionPolicy reasoning_policy0) in
  let total := num_red + num_blue in
  try _ <- match villager_types with
           | Some types =>
               if bool_decide (Z.of_nat (length types) = total) then Ok tt
               else Raise (length_error total (length types))
           | None => Ok tt
           end in
  try st <- for_range (range num_red)
              (create_step RED (u "红") villager_type villager_types)
              (village, O) in
  try st <- for_range (range num_blue)
              (create_step BLUE (u "蓝") villager_type villager_types) st in
  Ok (initialize_observations st.1).

(** [_build_villager_types] *)
Definition _build_villager_types (num_red num_blue : Z) (mode : pystr)
    : list pystr :=
  let total := num_red + num_blue in
  if total <=? 0 then []
  else if bool_decide (mode = u "all_openai") then
    replicate (Z.to_nat total) (u "openai")
  else if bool_decide (mode = u "all_dummy") then
    replicate (Z.to_nat total) (u "dummy")
  else
    let types := replicate (Z.to_nat total) (u "dummy") in
    let types := <[O := u "openai"]> types in
    if 1 <? total then <[pred (length types) := u "openai"]> types else types.

(** The in-memory state of the hosting service ([_AppState]). *)
Record AppState := mkAppState {
  app_village : option Village;
  app_num_red : Z;
  app_num_blue : Z;
  app_reasoning_policy : option ReasoningPolicy
}.

Module Backend.

Definition init_line (num_red num_blue : Z) (mode openai_style : pystr)
    : pystr :=
  u "[Backend] 初始化：红眼睛 " ++ str_of_int num_red ++ u " 人，蓝眼睛 "
  ++ str_of_int num_blue ++ u " 人；mode=" ++ mode ++ u "；openaiStyle="
  ++ openai_style.

End Backend.

Section Hosting.

(** The external-delegate policy is a remote call; the hosting service
    only stores it in the routing table. *)
Variable OpenAIReasoningPolicy : pystr -> bool -> ReasoningPolicy.

(** [_build_reasoning_policy] *)
Definition _build_reasoning_policy (openai_style : pystr) : ReasoningPolicy :=
  PolicyByVillagerType
    [(u "dummy", PerfectInductionPolicy);
     (u "openai",
      OpenAIReasoningPolicy openai_style
        (bool_decide (openai_style = u "absolute_rational")))]
    (Some PerfectInductionPolicy).

(** [Handler._api_init], from the parsed request fields on: the result
    is the new application state, or the error raised. *)
Definition _api_init (num_red num_blue : Z) (mode openai_style : pystr)
    (app : AppState) : result AppState :=
  if (num_red <? 0) || (num_blue <? 0) || (200 <? num_red + num_blue) then
    Raise (ValueError (u "Invalid population size"))
  else
    let policy := _build_reasoning_policy openai_style in
    let types := _build_villager_types num_red num_blue mode in
    try village <- create_village num_red num_blue (Some policy) (u "dummy")
                     (Some types) in
    let village :=
      mkVillage (villagers village) (reasoning_policy village)
        (announcement_made village) (current_day village)
        (knowledge_level village)
        (daily_log village
           ++ [Backend.init_line num_red num_blue mode openai_style])
        (left_yesterday_count village) in
    Ok (mkAppState (Some village) num_red num_blue (Some policy)).

End Hosting.


(** ** The force-leave rule of the external-delegate policy
    ([src/reasoning.py]) *)

Module Phrases.

(** Negative certainty and hedges. *)
Definition neg_phrases : list pystr :=
  map u ["不确定"; "无法确定"; "不能确定"; "没法确定"; "未能确定";
         "不能确认"; "无法确认"; "不敢确定"; "无法断定"]%string.

(** Explicit denials of being red-eyed. *)
Definition deny_red_phrases : list pystr :=
  map u ["不是红眼"; "不是红眼睛"; "我不是红眼"; "我不是红眼睛";
         "不认为自己是红眼"; "不认为自己是红眼睛";
         "我不认为自己是红眼"; "我不认为自己是红眼睛";
         "确定自己不是红眼"; "确定自己不是红眼睛";
         "我确定自己不是红眼"; "我确定自己不是红眼睛"]%string.

(** Explicit statements that the speaker is red-eyed. *)
Definition positive_red_phrases : list pystr :=
  map u ["我是红眼"; "我是红眼睛"; "我也是红眼"; "我也是红眼睛";
         "自己是红眼"; "自己是红眼睛"]%string.

Definition certainty_markers : list pystr :=
  map u ["我确定"; "能确定"; "可以确定"; "我能确定"; "我已确定"]%string.

End Phrases.
Export Phrases.

(** [_reason_implies_certain_red_eye]; [reason] is a [str], so
    [(reason or "")] is [reason]. *)
Definition _reason_implies_certain_red_eye (reason : pystr) : bool :=
  let r := strip reason in
  match r with
  | [] => false
  | _ =>
      if any_in neg_phrases r then false
      else if any_in deny_red_phrases r then false
      else if negb (any_in positive_red_phrases r) then false
      else if negb (any_in certainty_markers r) then false
      else true
  end.

(** [a >= b] on Python floats (IEEE 754 binary64; false on NaN). *)
Definition float_ge (a b : float) : bool := PrimFloat.leb b a.

(** [_should_force_leave]; it returns [(final_leave, forced)]. *)
Definition _should_force_leave (leave0 : bool) (confidence_red : option float)
    (reason : pystr) (threshold : float) : bool * bool :=
  match confidence_red with
  | Some c =>
      if float_ge c threshold && negb leave0 then (true, true)
      else (leave0, false)
  | None =>
      if _reason_implies_certain_red_eye reason && negb leave0 then (true, true)
      else (leave0, false)
  end.

(** The default of [OpenAIReasoningPolicy.certainty_threshold]. *)
Definition certainty_threshold : float := 0.95%float.

(** ** Extraction of the reply ([src/reasoning.py]) *)

(** [json.loads] of the Python standard library, with the default
    settings, after the grammar its decoder implements. A number keeps
    its integer value or, for a float, its text. *)
Module Json.

Inductive json :=
| JNull
| JBool (b : bool)
| JInt (n : Z)
| JFloat (text : pystr)
| JString (s : pystr)
| JArray (items : list json)
| JObject (members : list (pystr * json)).

(** [d[key] = value] on a dictionary kept in insertion order. *)
Fixpoint dict_set (key : pystr) (value : json) (d : list (pystr * json))
    : list (pystr * json) :=
  match d with
  | [] => [(key, value)]
  | (k, v) :: rest =>
      if bool_decide (k = key) then (k, value) :: rest
      else (k, v) :: dict_set key value rest
  end.

Definition is_ws (c : N) : bool :=
  ((c =? 32) || (c =? 9) || (c =? 10) || (c =? 13))%N.

Fixpoint skip_ws (s : pystr) : pystr :=
  match s with
  | c :: r => if is_ws c then skip_ws r else s
  | [] => []
  end.

Definition is_digit (c : N) : bool := ((48 <=? c) && (c <=? 57))%N.

Fixpoint take_digits (s : pystr) : pystr * pystr :=
  match s with
  | c :: r =>
      if is_digit c then let '(ds, rest) := take_digits r in (c :: ds, rest)
      else ([], s)
  | [] => ([], [])
  end.

Definition hex_val (c : N) : option N :=
  (if is_digit c then Some (c - 48)
   else if (97 <=? c) && (c <=? 102) then Some (c - 87)
   else if (65 <=? c) && (c <=? 70) then Some (c - 55)
   else None)%N.

Definition hex4 (a b c d : N) : option N :=
  match hex_val a, hex_val b, hex_val c, hex_val d with
  | Some x, Some y, Some z, Some w => Some (((x * 16 + y) * 16 + z) * 16 + w)%N
  | _, _, _, _ => None
  end.

Definition simple_escape (c : N) : option N :=
  (if c =? 34 then Some 34 else if c =? 92 then Some 92
   else if c =? 47 then Some 47 else if c =? 98 then Some 8
   else if c =? 102 then Some 12 else if c =? 110 then Some 10
   else if c =? 114 then Some 13 else if c =? 116 then Some 9
   else None)%N.

Definition is_high_surrogate (c : N) : bool := ((55296 <=? c) && (c <=? 56319))%N.
Definition is_low_surrogate (c : N) : bool := ((56320 <=? c) && (c <=? 57343))%N.

Definition emit (pending : option N) (r : option (pystr * pystr))
    : option (pystr * pystr) :=
  match pending, r with
  | Some hi, Some (str, rest) => Some (hi :: str, rest)
  | _, _ => r
  end.

Definition push (c : N) (r : option (pystr * pystr))
    : option (pystr * pystr) :=
  match r with
  | Some (str, rest) => Some (c :: str, rest)
  | None => None
  end.

(** The body of a string, after the opening quote; [pending] is a high
    surrogate written as an escape and waiting for its low half. *)
Fixpoint scan_string (s : pystr) (pending : option N)
    : option (pystr * pystr) :=
  match s with
  | [] => None
  | c :: r =>
      if (c =? 34)%N then emit pending (Some ([], r))
      else if (c =? 92)%N then
        match r with
        | [] => None
        | e :: r1 =>
            if (e =? 117)%N then
              match r1 with
              | h1 :: h2 :: h3 :: h4 :: r2 =>
                  match hex4 h1 h2 h3 h4 with
                  | None => None
                  | Some uni =>
                      match pending with
                      | Some hi =>
                          if is_low_surrogate uni then
                            push (65536 + N.lor (N.shiftl (hi - 55296) 10)
                                            (uni - 56320))%N
                              (scan_string r2 None)
                          else if is_high_surrogate uni then
                            push hi (scan_string r2 (Some uni))
                          else push hi (push uni (scan_string r2 None))
                      | None =>
                          if is_high_surrogate uni then
                            scan_string r2 (Some uni)
                          else push uni (scan_string r2 None)
                      end
                  end
              | _ => None
              end
            else
              match simple_escape e with
              | Some d => emit pending (push d (scan_string r1 None))
              | None => None
              end
        end
      else if (c <? 32)%N then None
      else emit pending (push c (scan_string r None))
  end.

Fixpoint digits_value (ds : pystr) (acc : Z) : Z :=
  match ds with
  | [] => acc
  | d :: r => digits_value r (acc * 10 + Z.of_N (d - 48))
  end.

(** The number at the head of [s], if any: sign, integer part, and the
    optional fraction and exponent, each taken only when complete. *)
Definition scan_number (s : pystr) : option (json * pystr) :=
  let '(neg, s1) :=
    match s with
    | 45%N :: r => (true, r)
    | _ => (false, s)
    end in
  let int_part :=
    match s1 with
    | 48%N :: r => Some ([48%N], r)
    | c :: _ =>
        if is_digit c then Some (take_digits s1) else None
    | [] => None
    end in
  match int_part with
  | None => None
  | Some (ds, s2) =>
      let '(frac, s3) :=
        match s2 with
        | 46%N :: r =>
            match take_digits r with
            | ([], _) => ([], s2)
            | (fs, r') => (46%N :: fs, r')
            end
        | _ => ([], s2)
        end in
      let '(expo, s4) :=
        match s3 with
        | e :: r =>
            if ((e =? 101) || (e =? 69))%N then
              let '(sign, r1) :=
                match r with
                | sg :: r' =>
                    if ((sg =? 43) || (sg =? 45))%N then ([sg], r') else ([], r)
                | [] => ([], r)
                end in
              match take_digits r1 with
              | ([], _) => ([], s3)
              | (es, r') => (e :: sign ++ es, r')
              end
            else ([], s3)
        | [] => ([], s3)
        end in
      match frac, expo with
      | [], [] =>
          Some (JInt (if neg then - digits_value ds 0 else digits_value ds 0),
                s4)
      | _, _ =>
          Some (JFloat ((if neg then [45%N] else []) ++ ds ++ frac ++ expo), s4)
      end
  end.

(** [s] after the literal [lit], when [s] starts with it. *)
Fixpoint after (lit s : pystr) : option pystr :=
  match lit, s with
  | [], _ => Some s
  | a :: lit', b :: s' => if (a =? b)%N then after lit' s' else None
  | _ :: _, [] => None
  end.

Definition scan_constant (s : pystr) : option (json * pystr) :=
  match after (u "null") s with
  | Some r => Some (JNull, r)
  | None =>
  match after (u "true") s with
  | Some r => Some (JBool true, r)
  | None =>
  match after (u "false") s with
  | Some r => Some (JBool false, r)
  | None =>
  match scan_number s with
  | Some res => Some res
  | None =>
  match after (u "NaN") s with
  | Some r => Some (JFloat (u "NaN"), r)
  | None =>
  match after (u "Infinity") s with
  | Some r => Some (JFloat (u "Infinity"), r)
  | None =>
  match after (u "-Infinity") s with
  | Some r => Some (JFloat (u "-Infinity"), r)
  | None => None
  end end end end end end end.

(** The recursive descent; [fuel] bounds the depth of the calls. *)
Fixpoint parse_value (fuel : nat) (s : pystr) : option (json * pystr) :=
  match fuel with
  | O => None
  | S fuel' =>
      match s with
      | 34%N :: r =>
          match scan_string r None with
          | Some (str, r') => Some (JString str, r')
          | None => None
          end
      | 123%N :: r =>
          match skip_ws r with
          | 125%N :: r' => Some (JObject [], r')
          | r' => parse_members fuel' r' []
          end
      | 91%N :: r =>
          match skip_ws r with
          | 93%N :: r' => Some (JArray [], r')
          | r' => parse_elements fuel' r' []
          end
      | _ => scan_constant s
      end
  end
with parse_elements (fuel : nat) (s : pystr) (acc : list json)
    : option (json * pystr) :=
  match fuel with
  | O => None
  | S fuel' =>
      match parse_value fuel' s with
      | None => None
      | Some (v, r) =>
          match skip_ws r with
          | 93%N :: r' => Some (JArray (acc ++ [v]), r')
          | 44%N :: r' => parse_elements fuel' (skip_ws r') (acc ++ [v])
          | _ => None
          end
      end
  end
with parse_members (fuel : nat) (s : pystr) (acc : list (pystr * json))
    : option (json * pystr) :=
  match fuel with
  | O => None
  | S fuel' =>
      match s with
      | 34%N :: r =>
          match scan_string r None with
          | None => None
          | Some (key, r1) =>
              match skip_ws r1 with
              | 58%N :: r2 =>
                  match parse_value fuel' (skip_ws r2) with
                  | None => None
                  | Some (v, r3) =>
                      match skip_ws r3 with
                      | 125%N :: r' => Some (JObject (dict_set key v acc), r')
                      | 44%N :: r' =>
                          parse_members fuel' (skip_ws r') (dict_set key v acc)
                      | _ => None
                      end
                  end
              | _ => None
              end
          end
      | _ => None
      end
  end.

End Json.
Export Json.

(** [json.loads(s)]: one value, surrounded by whitespace only. *)
Definition loads (s : pystr) : result json :=
  match parse_value (2 * length s + 2) (skip_ws s) with
  | Some (v, r) =>
      match skip_ws r with
      | [] => Ok v
      | _ => Raise JSONDecodeError
      end
  | None => Raise JSONDecodeError
  end.

(** [s.find(sub)] and [s.rfind(sub)]: the first and the last position at
    which [sub] starts, or -1. *)
Fixpoint find_from (sub s : pystr) (i : Z) : Z :=
  if startswith sub s then i
  else
    match s with
    | [] => -1
    | _ :: r => find_from sub r (i + 1)
    end.

Definition str_find (s sub : pystr) : Z := find_from sub s 0.

Fixpoint rfind_from (sub s : pystr) (i : Z) : Z :=
  let later :=
    match s with
    | [] => -1
    | _ :: r => rfind_from sub r (i + 1)
    end in
  if later =? -1 then (if startswith sub s then i else -1) else later.

Definition str_rfind (s sub : pystr) : Z := rfind_from sub s 0.

(** [s[start:stop]] for [0 <= start]. *)
Definition slice (s : pystr) (start stop : Z) : pystr :=
  take (Z.to_nat (stop - start)) (drop (Z.to_nat start) s).

Definition not_json_object : exn :=
  ValueError (u "Model output is not valid JSON object").

(** [_extract_first_json_object] *)
Definition _extract_first_json_object (text : pystr)
    : result (list (pystr * json)) :=
  let text := strip text in
  match loads text with
  | inr (JObject obj) => Ok obj
  | _ =>
      let start := str_find text (u "{") in
      let end_ := str_rfind text (u "}") in
      if negb (start =? -1) && negb (end_ =? -1) && (start <? end_) then
        let snippet := slice text start (end_ + 1) in
        match loads snippet with
        | inl e => Raise e
        | inr (JObject obj) => Ok obj
        | inr _ => Raise not_json_object
        end
      else Raise not_json_object
  end.

(** ** Sample data *)

(** A literal in which the apostrophe stands for the double quote. *)
Definition dq (s : string) : pystr :=
  map (fun c => if (c =? 39)%N then 34%N else c) (u s).

Definition sample_red : Villager :=
  mkVillager 1 RED (u "红1") (u "dummy") 2 false None [] 0 0.

(** The village of [create_village(num_red, num_blue)], after the
    announcement when [announce] is set. *)
Definition sample_village (num_red num_blue : Z) (announce : bool) : Village :=
  match create_village num_red num_blue None (u "dummy") None with
  | inr v => if announce then make_announcement v else v
  | inl _ => Village_init PerfectInductionPolicy
  end.

Definition object_in_prose : pystr :=
  dq "Sure: {'leave': true, 'confidence_red': 0.97} Done.".


(** ** Notions used in the statements *)

(** What [observe] reads of the other villagers. *)
Definition same_key (a b : Villager) : Prop :=
  id a = id b /\ eye_color a = eye_color b /\ has_left a = has_left b.

(** The villager after its turn in the observation loop, in terms of the
    list [vs0] as it was before the loop. *)
Definition observe_fn (only_present : bool) (vs0 : list Villager)
    (x : Villager) : Villager :=
  if only_present && has_left x then x else observe x vs0.

(** The villager after its turn in the decision loop. *)
Definition decide_fn (policy : ReasoningPolicy) (day : Z) (announced : bool)
    (x : Villager) : Villager :=
  if has_left x then x else (policy x day announced).2.

(** Whether the villager at position [i] of [vs] is put on
    [leaving_today]. *)
Definition decides (policy : ReasoningPolicy) (day : Z) (announced : bool)
    (vs : list Villager) (i : nat) : bool :=
  match vs !! i with
  | Some x => negb (has_left x) && (policy x day announced).1
  | None => false
  end.

(** What a present villager is handed to the policy with: the observation
    and the group statistics, all taken on the village as it was when the
    round started. *)
Definition refresh (v : Village) (x : Villager) : Villager :=
  set_group_context (left_yesterday_count v) (total_left (villagers v))
    (observe x (villagers v)).

(** Whether a villager departs in the round played on [v]. *)
Definition departs (v : Village) (x : Villager) : bool :=
  negb (has_left x)
  && (reasoning_policy v (refresh v x) (current_day v + 1)
        (announcement_made v)).1.

(** The villager after the round played on [v]. *)
Definition round_fn (v : Village) (x : Villager) : Villager :=
  if has_left x then x
  else
    let r := reasoning_policy v (refresh v x) (current_day v + 1)
               (announcement_made v) in
    if r.1 then leave r.2 (current_day v + 1) else r.2.

(** Whether the villager at position [i] departs in the round. *)
Definition departs_at (v : Village) (i : nat) : bool :=
  match villagers v !! i with
  | Some x => departs v x
  | None => false
  end.

Definition context_fn (yesterday total : Z) (x : Villager) : Villager :=
  if has_left x then x else set_group_context yesterday total x.

(** Several rounds, each with its own order of iteration; the lists
    returned by the rounds and the final village. *)
Fixpoint simulate_days_in (orders : list (list nat)) (v : Village)
    : list (list nat) * Village :=
  match orders with
  | [] => ([], v)
  | order :: rest =>
      let r := simulate_day_in order v in
      let rs := simulate_days_in rest r.2 in
      (r.1 :: rs.1, rs.2)
  end.

(** Two villages that differ at most in the text of the daily log. *)
Definition same_state (v1 v2 : Village) : Prop :=
  villagers v1 = villagers v2
  /\ reasoning_policy v1 = reasoning_policy v2
  /\ announcement_made v1 = announcement_made v2
  /\ current_day v1 = current_day v2
  /\ knowledge_level v1 = knowledge_level v2
  /\ left_yesterday_count v1 = left_yesterday_count v2.

(** The villagers appended by a creation loop that started on a list of
    [base] villagers. *)
Definition fresh (color : EyeColor) (base : nat) (news : list Villager)
    : Prop :=
  forall j y, news !! j = Some y ->
    id y = Z.of_nat (base + j) + 1 /\ eye_color y = color /\ has_left y = false.

(** The population built for [k] red-eyed and then blue-eyed villagers:
    identifiers follow the positions, the first [k] are red-eyed, all are
    present. *)
Definition standard (k : nat) (vs : list Villager) : Prop :=
  forall i x, vs !! i = Some x ->
    id x = Z.of_nat i + 1
    /\ eye_color x = (if decide (i < k)%nat then RED else BLUE)
    /\ has_left x = false.

(** A red-eyed villager that is still in the village. *)
Definition red_present (y : Villager) : bool :=
  bool_decide (eye_color y = RED) && negb (has_left y).

(** The village before the departure round: [d] rounds played, everybody
    present. *)
Definition waiting_state (k d : nat) (v : Village) : Prop :=
  reasoning_policy v = PerfectInductionPolicy
  /\ announcement_made v = true
  /\ current_day v = Z.of_nat d
  /\ standard k (villagers v)
  /\ (k <= length (villagers v))%nat.

(** The village from the departure round on. *)
Definition settled_state (k : nat) (v : Village) : Prop :=
  reasoning_policy v = PerfectInductionPolicy
  /\ announcement_made v = true
  /\ Z.of_nat k <= current_day v
  /\ (k <= length (villagers v))%nat
  /\ forall i x, villagers v !! i = Some x ->
       if decide (i < k)%nat
       then eye_color x = RED /\ has_left x = true
            /\ left_on_day x = Some (Z.of_nat k)
       else eye_color x = BLUE /\ has_left x = false.

(** [p] occurs in [s]. *)
Definition occurs_in (p s : pystr) : Prop := exists a b, s = a ++ p ++ b.

(** A text free of whitespace. *)
Definition solid (p : pystr) : Prop :=
  p <> [] /\ Forall (fun c => isspace c = false) p.

Definition solidb (p : pystr) : bool :=
  match p with
  | [] => false
  | _ => forallb (fun c => negb (isspace c)) p
  end.


(** ** More of the reasoning code ([src/puzzle.py], [src/reasoning.py]) *)

Module VillagerMsg.

(** The two texts of [Villager.reason_and_decide] that differ from those
    of [PerfectInductionPolicy]. *)
Definition waiting (day k : Z) : pystr :=
  Msg.day_prefix day ++ u "[归纳推理] 我看到 " ++ str_of_int k ++ u " 个红眼睛。"
  ++ u "假设我是蓝眼睛，那就只有 " ++ str_of_int k ++ u " 个红眼睛。"
  ++ u "根据归纳假设，" ++ str_of_int k ++ u " 个红眼睛会在第 "
  ++ str_of_int k ++ u " 天离开。"
  ++ u "现在才第 " ++ str_of_int day ++ u " 天，我继续等待观察...".

Definition concluded (day k : Z) : pystr :=
  Msg.day_prefix day ++ u "[归纳推理完成] 我看到的 " ++ str_of_int k
  ++ u " 个红眼睛昨天没有离开！"
  ++ u "如果只有他们 " ++ str_of_int k
  ++ u " 个是红眼睛，根据归纳假设他们应该在第 " ++ str_of_int k
  ++ u " 天离开。"
  ++ u "他们没离开，说明我的假设'我是蓝眼睛'错误！"
  ++ u "唯一的可能是：我也是红眼睛！我必须离开。".

Definition mistake (day : Z) : pystr :=
  Msg.day_prefix day ++ u "[犯错] 我本应离开，但我犯错/不确定，选择留下".

End VillagerMsg.

(** [Villager.reason_and_decide]: the decision and the villager after the
    call. *)
Definition reason_and_decide (self : Villager) (day : Z)
    (public_announcement_made : bool) : bool * Villager :=
  if has_left self then (false, self)
  else if negb public_announcement_made then
    (false, log_append (Msg.no_announcement day) self)
  else if bool_decide (eye_color self = BLUE) then
    (false, log_append (Msg.blue day (observed_red_eyes self)) self)
  else if observed_red_eyes self =? 0 then
    if day =? 1 then (true, log_append (Msg.base_case day) self)
    else (false, self)
  else
    let k := observed_red_eyes self in
    let my_leave_day := k + 1 in
    if day <? my_leave_day then
      (false, log_append (VillagerMsg.waiting day k) self)
    else if day =? my_leave_day then
      (true, log_append (VillagerMsg.concluded day k) self)
    else (false, self).

(** [a < b] on Python floats. *)
Definition float_lt (a b : float) : bool := PrimFloat.ltb a b.

(** [FalliblePolicy(mistake_rate, seed, inner).decide]. The draw
    [Random(s).random()] of the standard library is a function of the seed
    text [s]; it is the parameter [random_of]. *)
Definition FalliblePolicy (random_of : pystr -> float) (mistake_rate : float)
    (seed : Z) (inner : ReasoningPolicy) : ReasoningPolicy :=
  fun villager day public_announcement_made =>
  if has_left villager then (false, villager)
  else
    let '(should_leave, villager1) :=
      inner villager day public_announcement_made in
    if negb should_leave then (false, villager1)
    else
      let rnd :=
        random_of (str_of_int seed ++ u ":" ++ str_of_int (id villager1)
                   ++ u ":" ++ str_of_int day) in
      if float_lt rnd mistake_rate then
        (false, log_append (VillagerMsg.mistake day) villager1)
      else (true, villager1).

Module Summary.

Definition departed : pystr := u "我已经离开。".

Definition no_announcement : pystr :=
  u "没有公开宣布，缺少‘至少一人红眼’的公共知识基准，归纳链条无法闭合，所以我无法确定自己是红眼。".

Definition base_leave : pystr :=
  u "我看到0个红眼睛，但游客已宣布至少有一个红眼睛，只能是我，所以我确定自己是红眼，今晚必须离开。".

Definition step_leave (k left_yesterday : Z) : pystr :=
  u "我看到" ++ str_of_int k ++ u "个红眼睛。直到第" ++ str_of_int k
  ++ u "晚仍无人离开（昨晚离开人数=" ++ str_of_int left_yesterday ++ u "），"
  ++ u "若我不是红眼则总红眼应为" ++ str_of_int k ++ u "并会在第"
  ++ str_of_int k ++ u "晚离开；既然没有发生，我确定自己也是红眼，今晚离开。".

Definition base_stay : pystr :=
  u "我看到0个红眼睛，但在未到第1晚之前还无法触发归纳基础结论，因此今晚不离开。".

Definition step_stay (k my_leave_day day : Z) : pystr :=
  u "我看到" ++ str_of_int k ++ u "个红眼睛。按归纳链条，只有在第"
  ++ str_of_int my_leave_day ++ u "晚（在第" ++ str_of_int k
  ++ u "晚无人离开后）才能确定自己是红眼；"
  ++ u "今天是第" ++ str_of_int day ++ u "晚，我还不能确定，所以不离开。".

End Summary.

(** [_standard_proof_public_summary]: the decision, the confidence, the
    public reason and the key points. *)
Definition _standard_proof_public_summary (villager : Villager) (day : Z)
    (public_announcement_made : bool)
    : bool * float * pystr * list pystr :=
  let observed := observed_red_eyes villager in
  let left_yesterday := observed_left_yesterday villager in
  if has_left villager then (false, 0%float, Summary.departed, [])
  else if negb public_announcement_made then
    (false, 0%float, Summary.no_announcement,
     [u "未宣布→非公共知识"; u "无法闭合归纳链条"])
  else
    let should_leave :=
      _perfect_induction_decide_no_log villager day public_announcement_made in
    if should_leave then
      if observed =? 0 then
        (true, 1%float, Summary.base_leave,
         [u "看到0个红眼"; u "宣布=公共知识"; u "只能是我"])
      else
        let k := observed in
        (true, 1%float, Summary.step_leave k left_yesterday,
         [u "看到" ++ str_of_int k ++ u "个红眼";
          u "第" ++ str_of_int k ++ u "晚无人离开"; u "反证→我也是红眼"])
    else if observed =? 0 then
      (false, 0%float, Summary.base_stay, [u "看到0个红眼"; u "等待第1晚"])
    else
      let k := observed in
      let my_leave_day := k + 1 in
      (false, 0%float, Summary.step_stay k my_leave_day day,
       [u "看到" ++ str_of_int k ++ u "个红眼";
        u "需等到第" ++ str_of_int my_leave_day ++ u "晚才可确定"]).

(** ** Notions used in the further statements *)

(** A policy call that only appends to the reasoning log of the villager
    it was handed. *)
Definition only_logs (x y : Villager) : Prop :=
  id y = id x /\ eye_color y = eye_color x /\ name y = name x
  /\ villager_type y = villager_type x
  /\ observed_red_eyes y = observed_red_eyes x
  /\ has_left y = has_left x /\ left_on_day y = left_on_day x
  /\ observed_left_yesterday y = observed_left_yesterday x
  /\ observed_left_total y = observed_left_total x
  /\ reasoning_log x `prefix_of` reasoning_log y.

Definition frames (p : ReasoningPolicy) : Prop :=
  forall x day announced, only_logs x (p x day announced).2.

(** The type tag [create_village] gives to the villager created at
    position [i]. *)
Definition tag_at (vt : pystr) (vts : option (list pystr)) (i : nat) : pystr :=
  match vts with
  | Some ts => default vt (ts !! i)
  | None => vt
  end.

(** The villager at position [i] of the village built for [k] red-eyed
    villagers, as [create_village] leaves it. *)
Definition built_villager (k : nat) (vt : pystr) (vts : option (list pystr))
    (i : nat) : Villager :=
  if decide (i < k)%nat then
    mkVillager (Z.of_nat i + 1) RED (u "红" ++ str_of_int (Z.of_nat i + 1))
      (tag_at vt vts i) (Z.of_nat k - 1) false None [] 0 0
  else
    mkVillager (Z.of_nat i + 1) BLUE
      (u "蓝" ++ str_of_int (Z.of_nat (i - k) + 1))
      (tag_at vt vts i) (Z.of_nat k) false None [] 0 0.

(** Departures are recorded consistently: a departed villager has a
    departure round, between 1 and the current round, and a present one
    has none. *)
Definition departures_recorded (v : Village) : Prop :=
  0 <= current_day v
  /\ forall x, x ∈ villagers v ->
       match left_on_day x with
       | Some d => has_left x = true /\ 1 <= d <= current_day v
       | None => has_left x = false
       end.

(** A policy that only logs on the villagers whose type tag is in [T]. *)
Definition frames_on (T : pystr -> Prop) (p : ReasoningPolicy) : Prop :=
  forall x day announced,
    T (villager_type x) -> only_logs x (p x day announced).2.

(** Once the announcement is made, the decision of [p] on a present
    villager with a type tag in [T] is [f] of its eye colour, its observed
    count and the day. *)
Definition decides_by (T : pystr -> Prop) (p : ReasoningPolicy)
    (f : EyeColor -> Z -> Z -> bool) : Prop :=
  forall x day,
    has_left x = false -> T (villager_type x) ->
    (p x day true).1 = f (eye_color x) (observed_red_eyes x) day.

(** The rule of perfect induction as such a function. *)
Definition perfect_rule (c : EyeColor) (observed day : Z) : bool :=
  bool_decide (c = RED)
  && (if observed =? 0 then day =? 1 else day =? observed + 1).

(** The announced village of [k] red-eyed villagers run by [p], all
    present after [d] rounds, with type tags in [T]. *)
Definition waiting_for (p : ReasoningPolicy) (T : pystr -> Prop) (k d : nat)
    (v : Village) : Prop :=
  reasoning_policy v = p
  /\ announcement_made v = true
  /\ current_day v = Z.of_nat d
  /\ standard k (villagers v)
  /\ (k <= length (villagers v))%nat
  /\ Forall (fun x => T (villager_type x)) (villagers v).

(** The same village once the red-eyed villagers have departed, on round
    [D]. *)
Definition settled_for (p : ReasoningPolicy) (T : pystr -> Prop) (k D : nat)
    (v : Village) : Prop :=
  reasoning_policy v = p
  /\ announcement_made v = true
  /\ Z.of_nat D <= current_day v
  /\ (k <= length (villagers v))%nat
  /\ Forall (fun x => T (villager_type x)) (villagers v)
  /\ forall i x, villagers v !! i = Some x ->
       if decide (i < k)%nat
       then eye_color x = RED /\ has_left x = true
            /\ left_on_day x = Some (Z.of_nat D)
       else eye_color x = BLUE /\ has_left x = false.

(** The outcome of a run on a village of [k] red-eyed villagers among
    [k + n]: nobody is returned before round [D], round [D] returns the
    red-eyed villagers, nobody is returned afterwards; until round [D]
    everybody is present, from round [D] on the red-eyed villagers are
    departed, stamped with [D], and the blue-eyed ones present. *)
Definition leaves_on_round (k n D : nat) (v : Village) : Prop :=
  (forall d, (1 <= d < D)%nat -> leaving_on d v = [])
  /\ leaving_on D v = seq 0 k
  /\ (forall d, (D < d)%nat -> leaving_on d v = [])
  /\ forall d,
       length (villagers (simulate_days d v)) = (k + n)%nat
       /\ forall i x, villagers (simulate_days d v) !! i = Some x ->
            eye_color x = (if decide (i < k)%nat then RED else BLUE)
            /\ has_left x = bool_decide (i < k /\ D <= d)%nat
            /\ ((i < k)%nat -> (D <= d)%nat ->
                left_on_day x = Some (Z.of_nat D)).

(** The outcome of a run in which nobody ever departs. *)
Definition nobody_ever_leaves (k n : nat) (v : Village) : Prop :=
  forall d,
    leaving_on (S d) v = []
    /\ length (villagers (simulate_days d v)) = (k + n)%nat
    /\ forall i x, villagers (simulate_days d v) !! i = Some x ->
         eye_color x = (if decide (i < k)%nat then RED else BLUE)
         /\ has_left x = false.

(** ** The complete run ([run_simulation], [src/simulation.py]) *)

(** The dictionary returned by [run_simulation]: an entry of
    [left_villagers] is a name and a departure round, an entry of
    [daily_events] a day and the names of the villagers returned by the
    round. *)
Record SimulationResult := mkSimulationResult {
  results_num_red : Z;
  results_num_blue : Z;
  days_to_leave : Z;
  all_red_left : bool;
  left_villagers : list (pystr * option Z);
  daily_events : list (Z * list pystr)
}.

(** [range(start, stop)] *)
Definition range_from (start stop : Z) : list Z :=
  (fun i => start + Z.of_nat i) <$> seq 0 (Z.to_nat (stop - start)).

(** The villagers that a list of references into [vs] points to. *)
Definition deref (vs : list Villager) (refs : list nat) : list Villager :=
  omap (fun i => vs !! i) refs.

(** [sum(1 for v in village.villagers
         if v.eye_color == EyeColor.RED and not v.has_left)] *)
Definition remaining_red (village : Village) : Z :=
  Z.of_nat
    (length (filter (fun v => red_present v = true) (villagers village))).

(** [results["daily_events"].append(...)] *)
Definition add_event (event : Z * list pystr) (results : SimulationResult)
    : SimulationResult :=
  mkSimulationResult (results_num_red results) (results_num_blue results)
    (days_to_leave results) (all_red_left results) (left_villagers results)
    (daily_events results ++ [event]).

(** The loop over the days of [run_simulation], which stops at the first
    day after which no red-eyed villager is present. *)
Fixpoint run_days (num_red : Z) (days : list Z) (village : Village)
    (results : SimulationResult) : Village * SimulationResult :=
  match days with
  | [] => (village, results)
  | day :: rest =>
      let '(left_today, village) := simulate_day village in
      let results :=
        add_event
          (day, Villager_repr <$> deref (villagers village) left_today)
          results in
      if (remaining_red village =? 0) && (0 <? num_red) then
        (village,
         mkSimulationResult (results_num_red results)
           (results_num_blue results) day true
           ((fun v => (Villager_repr v, left_on_day v))
              <$> filter (fun v => has_left v = true) (villagers village))
           (daily_events results))
      else run_days num_red rest village results
  end.

(** [run_simulation]: the dictionary it returns. What it prints when
    [verbose] is set changes neither the village nor the dictionary. *)
Definition run_simulation (num_red num_blue : Z) (announce : bool)
    (reasoning_policy : option ReasoningPolicy) (villager_type : pystr)
    (villager_types : option (list pystr)) : result SimulationResult :=
  try village <- create_village num_red num_blue reasoning_policy
                   villager_type villager_types in
  let village := if announce then make_announcement village else village in
  let max_days := if announce then num_red + 5 else Z.max 10 (num_red + 10) in
  let results := mkSimulationResult num_red num_blue 0 false [] [] in
  Ok (run_days num_red (range_from 1 (max_days + 1)) village results).2.

(** ** The operations of the hosting service on its state
    ([src/web_server.py]) *)

Definition not_initialized : exn := ValueError (u "Not initialized").

(** [Handler._api_announce] and [Handler._api_next]: the new state; the
    response is a view of it. *)
Definition _api_announce (app : AppState) : result AppState :=
  match app_village app with
  | None => Raise not_initialized
  | Some village =>
      Ok (mkAppState (Some (make_announcement village)) (app_num_red app)
            (app_num_blue app) (app_reasoning_policy app))
  end.


(** [is_finished] of [_api_run_all] *)
Definition is_finished (num_red : Z) (village : Village) : bool :=
  if num_red =? 0 then true
  else forallb has_left
         (filter (fun v => eye_color v = RED) (villagers village)).

(** The loop [while not is_finished() and steps < cap]; [fuel] is
    [cap - steps]. *)
Fixpoint run_all_loop (num_red : Z) (fuel : nat) (village : Village)
    : Village :=
  match fuel with
  | O => village
  | S fuel' =>
      if is_finished num_red village then village
      else run_all_loop num_red fuel' (simulate_day village).2
  end.

Definition stopped_line (cap : Z) : pystr :=
  [10%N] ++ u "⏹️ 已停止：未宣布时不会收敛，已演示 " ++ str_of_int cap ++ u " 天。".

(** [Handler._api_run_all] *)
Definition _api_run_all (app : AppState) : result AppState :=
  match app_village app with
  | None => Raise not_initialized
  | Some village =>
      let num_red := app_num_red app in
      let cap :=
        if announcement_made village then Z.max 5 (num_red + 10) else 20 in
      let village := run_all_loop num_red (Z.to_nat cap) village in
      let village :=
        if negb (announcement_made village)
           && negb (is_finished num_red village)
        then
          mkVillage (villagers village) (reasoning_policy village)
            (announcement_made village) (current_day village)
            (knowledge_level village)
            (daily_log village ++ [stopped_line cap])
            (left_yesterday_count village)
        else village in
      Ok (mkAppState (Some village) (app_num_red app) (app_num_blue app)
            (app_reasoning_policy app))
  end.

(** The dictionary after [events] were appended to its [daily_events]. *)
Definition add_events (events : list (Z * list pystr))
    (results : SimulationResult) : SimulationResult :=
  mkSimulationResult (results_num_red results) (results_num_blue results)
    (days_to_leave results) (all_red_left results) (left_villagers results)
    (daily_events results ++ events).

(** The events of [m] days, from day [c] on, on which nobody left. *)
Definition quiet_events (c : Z) (m : nat) : list (Z * list pystr) :=
  (fun i => (c + Z.of_nat i, [])) <$> seq 0 m.

(** The name [str(v)] of the villager built at position [i]. *)
Definition built_repr (k : nat) (vt : pystr) (vts : option (list pystr))
    (i : nat) : pystr :=
  Villager_repr (built_villager k vt vts i).

(** The type tag [_build_villager_types] gives to position [i] of a
    population of [total] villagers. *)
Definition mode_tag (mode : pystr) (total i : nat) : pystr :=
  if bool_decide (mode = u "all_openai") then u "openai"
  else if bool_decide (mode = u "all_dummy") then u "dummy"
  else if bool_decide (i = 0 \/ i = pred total)%nat then u "openai"
  else u "dummy".

(** The cap on the rounds one call of [_api_run_all] plays. *)
Definition run_all_cap (num_red : Z) (village : Village) : Z :=
  if announcement_made village then Z.max 5 (num_red + 10) else 20.

(** The requests that act on an initialised state, and a sequence of
    them, each answered without an error. *)
Inductive request := Announce | Next | RunAll.

#[global] Instance request_eq_dec : EqDecision request.
Proof. solve_decision. Defined.




(** ** The [.env] loader ([src/env.py]) *)

(** [os.environ] on a POSIX system: a dictionary from names to values,
    kept in insertion order. *)
Definition environ : Type := list (pystr * pystr).

(** [key in os.environ] *)
Definition environ_contains (key : pystr) (env : environ) : bool :=
  match dict_get env key with
  | Some _ => true
  | None => false
  end.

Fixpoint environ_set (key value : pystr) (env : environ) : environ :=
  match env with
  | [] => [(key, value)]
  | (k, v) :: rest =>
      if bool_decide (k = key) then (k, value) :: rest
      else (k, v) :: environ_set key value rest
  end.

Definition embedded_null : exn := ValueError (u "embedded null byte").

(** [os.environ[key] = value]: [putenv] refuses a name or a value that
    holds a null character. *)
Definition environ_setitem (key value : pystr) (env : environ)
    : result environ :=
  if existsb (N.eqb 0) key || existsb (N.eqb 0) value then Raise embedded_null
  else Ok (environ_set key value env).

(** The line boundaries of [str.splitlines]. *)
Definition is_linebreak (c : N) : bool :=
  ((10 <=? c) && (c <=? 13) || (28 <=? c) && (c <=? 30)
   || (c =? 133) || (c =? 8232) || (c =? 8233))%N.

(** [s.splitlines()]; [cur] is the line being read. A carriage return
    followed by a line feed is one boundary, and a boundary at the end of
    the text opens no further line. *)
Fixpoint splitlines_from (cur s : pystr) : list pystr :=
  match s with
  | [] => match cur with [] => [] | _ => [cur] end
  | c :: r =>
      if is_linebreak c then
        cur ::
        (if (c =? 13)%N then
           match r with
           | c' :: r' =>
               if (c' =? 10)%N then splitlines_from [] r'
               else splitlines_from [] r
           | [] => []
           end
         else splitlines_from [] r)
      else splitlines_from (cur ++ [c]) r
  end.

Definition splitlines (s : pystr) : list pystr := splitlines_from [] s.

(** [s.split(sep, 1)] *)
Definition split_once (sep s : pystr) : list pystr :=
  let i := str_find s sep in
  if i =? -1 then [s]
  else [slice s 0 i; drop (Z.to_nat i + length sep) s].

(** The removal of one pair of surrounding quotes in [load_dotenv]. *)
Definition unquote (value : pystr) : pystr :=
  match value, last value with
  | c :: _, Some d =>
      if (2 <=? length value)%nat && (c =? d)%N && ((c =? 34) || (c =? 39))%N
      then slice value 1 (Z.of_nat (length value) - 1)
      else value
  | _, _ => value
  end.

Definition unpack_error : exn :=
  ValueError (u "not enough values to unpack (expected 2, got 1)").

(** The body of the loop of [load_dotenv] on one line. *)
Definition load_line (override : bool) (raw_line : pystr) (env : environ)
    : result environ :=
  let line := strip raw_line in
  if bool_decide (line = []) || startswith (u "#") line then Ok env
  else
    let line :=
      if startswith (u "export ") line
      then lstrip (drop (length (u "export ")) line) else line in
    if negb (contains (u "=") line) then Ok env
    else
      match split_once (u "=") line with
      | [key; value] =>
          let key := strip key in
          let value := unquote (strip value) in
          if bool_decide (key = []) then Ok env
          else if negb override && environ_contains key env then Ok env
          else environ_setitem key value env
      | _ => Raise unpack_error
      end.

(** The loop over the lines: the environment as the loop leaves it, and
    the error that ended it if one did. *)
Fixpoint load_lines (override : bool) (lines : list pystr) (env : environ)
    : environ * result unit :=
  match lines with
  | [] => (env, Ok tt)
  | raw_line :: rest =>
      match load_line override raw_line env with
      | inr env' => load_lines override rest env'
      | inl e => (env, Raise e)
      end
  end.

(** [load_dotenv(path, override=...)]. [file] is the text [read_text]
    returns, or [None] when the path is not an existing regular file. The
    result is the environment afterwards and the value returned or the
    error raised. *)
Definition load_dotenv (file : option pystr) (override : bool) (env : environ)
    : environ * result bool :=
  match file with
  | None => (env, Ok false)
  | Some text =>
      let '(env', r) := load_lines override (splitlines text) env in
      (env', try _ <- r in Ok true)
  end.

(** The assignment a line of the file stands for, if any. *)
Definition parse_line (raw_line : pystr) : option (pystr * pystr) :=
  let line := strip raw_line in
  if bool_decide (line = []) || startswith (u "#") line then None
  else
    let line :=
      if startswith (u "export ") line
      then lstrip (drop (length (u "export ")) line) else line in
    let i := str_find line (u "=") in
    if i =? -1 then None
    else
      let key := strip (slice line 0 i) in
      let value := unquote (strip (drop (Z.to_nat i + 1) line)) in
      if bool_decide (key = []) then None else Some (key, value).

(** * Properties *)

(** ** The decision rule of [PerfectInductionPolicy] *)

Lemma log_append_fields msg v :
  id (log_append msg v) = id v
  /\ eye_color (log_append msg v) = eye_color v
  /\ has_left (log_append msg v) = has_left v
  /\ left_on_day (log_append msg v) = left_on_day v
  /\ observed_red_eyes (log_append msg v) = observed_red_eyes v.
Proof. by destruct v. Qed.

(** The logging policy and the log-free rule take the same decision. *)
Lemma PerfectInductionPolicy_no_log villager day announced :
  (PerfectInductionPolicy villager day announced).1
  = _perfect_induction_decide_no_log villager day announced.
Proof.
  unfold PerfectInductionPolicy, _perfect_induction_decide_no_log.
  destruct (has_left villager); [done|].
  destruct announced; simpl; [|done].
  destruct (_is_blue villager); [done|].
  destruct (observed_red_eyes villager =? 0) eqn:Hobs.
  - by destruct (day =? 1).
  - destruct (day <? observed_red_eyes villager + 1) eqn:Hlt; simpl.
    + symmetry. apply Z.eqb_neq. apply Z.ltb_lt in Hlt. lia.
    + by destruct (day =? observed_red_eyes villager + 1).
Qed.

(** The policy only ever appends to the reasoning log. *)
Lemma PerfectInductionPolicy_frame villager day announced :
  let villager' := (PerfectInductionPolicy villager day announced).2 in
  id villager' = id villager
  /\ eye_color villager' = eye_color villager
  /\ has_left villager' = has_left villager
  /\ left_on_day villager' = left_on_day villager
  /\ observed_red_eyes villager' = observed_red_eyes villager.
Proof.
  unfold PerfectInductionPolicy. cbv zeta.
  repeat match goal with
         | |- context [if ?b then _ else _] => destruct b eqn:?
         end; cbn [snd]; by destruct villager.
Qed.

Lemma no_log_true_iff villager day announced :
  _perfect_induction_decide_no_log villager day announced = true <->
  has_left villager = false /\ announced = true /\ eye_color villager = RED
  /\ ((observed_red_eyes villager = 0 /\ day = 1)
      \/ (observed_red_eyes villager <> 0
          /\ day = observed_red_eyes villager + 1)).
Proof.
  unfold _perfect_induction_decide_no_log, _is_blue.
  destruct (has_left villager); [intuition congruence|].
  destruct announced; simpl; [|intuition congruence].
  destruct (eye_color villager); [|intuition congruence].
  destruct (Z.eqb_spec (observed_red_eyes villager) 0) as [->|Hobs];
    rewrite Z.eqb_eq; intuition (try congruence; lia).
Qed.

(** C2. A call [PerfectInductionPolicy.decide(villager, day, announced)] on
    a villager whose observed count is a count (not negative) returns true
    exactly when the villager has not departed, the announcement was made,
    the villager is red-eyed, and either it observes nobody and the day is
    1, or it observes [k >= 1] red-eyed villagers and the day is [k + 1];
    in every other case, later days included, it returns false. *)
Theorem perfect_induction_decide_iff villager day announced :
  0 <= observed_red_eyes villager ->
  (PerfectInductionPolicy villager day announced).1 = true <->
  has_left villager = false /\ announced = true /\ eye_color villager = RED
  /\ ((observed_red_eyes villager = 0 /\ day = 1)
      \/ (1 <= observed_red_eyes villager
          /\ day = observed_red_eyes villager + 1)).
Proof.
  intros Hcount. rewrite PerfectInductionPolicy_no_log, no_log_true_iff.
  split; intros (Hl & Ha & Hc & Hd); repeat split; try done;
    destruct Hd as [Hd|[Hk Hd]]; [by left|right|by left|right];
    split; try done; lia.
Qed.

Lemma perfect_induction_decide_iff_witness :
  0 <= observed_red_eyes sample_red
  /\ ((PerfectInductionPolicy sample_red 3 true).1 = true <->
      has_left sample_red = false /\ true = true /\ eye_color sample_red = RED
      /\ ((observed_red_eyes sample_red = 0 /\ 3 = 1)
          \/ (1 <= observed_red_eyes sample_red
              /\ 3 = observed_red_eyes sample_red + 1))).
Proof.
  split; [simpl; lia|].
  apply (perfect_induction_decide_iff sample_red 3 true). simpl. lia.
Defined.

(** The hypothesis on the count is needed: the field is an [int], and on a
    negative value the rule would fire on day [k + 1] all the same. No call
    made by [simulate_day] or [create_village] is of this kind, the count
    being refreshed by [observe] first. *)
Example perfect_induction_negative_count :
  (PerfectInductionPolicy
     (mkVillager 1 RED (u "红1") (u "dummy") (-1) false None [] 0 0) 0 true).1
  = true.
Proof. reflexivity. Qed.

(** ** Loops over the store *)

Section Loops.
Context {A : Type}.
Implicit Types (f : A -> A) (l : list A) (order : list nat).

Lemma for_each_cons {S} (body : nat -> S -> S) i order (s : S) :
  for_each (i :: order) body s = for_each order body (body i s).
Proof. done. Qed.

(** A loop that mutates each visited object in place, every object at
    most once. *)
Lemma for_each_alter_lookup f order l j :
  NoDup order ->
  for_each order (fun i l => alter f i l) l !! j
  = if decide (j ∈ order) then f <$> l !! j else l !! j.
Proof.
  intros Hnd. revert l.
  induction Hnd as [|i order Hi Hnd IH]; intros l.
  - by rewrite decide_False by apply not_elem_of_nil.
  - rewrite for_each_cons, IH.
    destruct (decide (j = i)) as [->|Hne].
    + rewrite decide_False by done.
      rewrite decide_True by left. apply list_lookup_alter_eq.
    + rewrite !(list_lookup_alter_ne f l i j) by done.
      destruct (decide (j ∈ order)).
      * rewrite decide_True; [done|by right].
      * rewrite decide_False; [done|].
        rewrite elem_of_cons. intros [?|?]; done.
Qed.

(** Visiting all the objects, in any order, maps the function over the
    list. *)
Lemma for_each_alter_all f order l :
  order ≡ₚ positions l ->
  for_each order (fun i l => alter f i l) l = f <$> l.
Proof.
  intros Hperm. apply list_eq. intros j.
  rewrite for_each_alter_lookup.
  2:{ rewrite Hperm. apply NoDup_seq. }
  rewrite list_lookup_fmap.
  destruct (decide (j ∈ order)) as [|Hout]; [done|].
  rewrite Hperm in Hout. unfold positions in Hout.
  rewrite elem_of_seq in Hout.
  rewrite (lookup_ge_None_2 l j) by lia. done.
Qed.

Lemma for_each_alter_length f order l :
  length (for_each order (fun i l => alter f i l) l) = length l.
Proof.
  revert l. induction order as [|i order IH]; intros l; [done|].
  by rewrite for_each_cons, IH, length_alter.
Qed.

End Loops.

(** ** The observation loop reads a frozen snapshot *)

Lemma seen_red_by_key self a b :
  same_key a b -> seen_red_by self a = seen_red_by self b.
Proof. intros (Hi & Hc & Hl). unfold seen_red_by. by rewrite Hi, Hc, Hl. Qed.

Lemma observe_snapshot self vs vs0 :
  Forall2 same_key vs vs0 -> observe self vs = observe self vs0.
Proof.
  intros Hkeys. unfold observe. do 2 f_equal.
  induction Hkeys as [|a b vs vs0 Hab _ IH]; [done|].
  rewrite !filter_cons, (seen_red_by_key self a b Hab).
  destruct (decide (seen_red_by self b = true)); simpl; by rewrite IH.
Qed.

Lemma same_key_refl : forall a, same_key a a.
Proof. by intros a. Qed.

Lemma Forall2_same_key_refl vs : Forall2 same_key vs vs.
Proof. apply Forall_Forall2_diag, Forall_forall. intros. apply same_key_refl. Qed.

Lemma observe_key self vs : same_key (observe self vs) self.
Proof. by destruct self. Qed.

Lemma observe_fn_key only_present vs0 x :
  same_key (observe_fn only_present vs0 x) x.
Proof.
  unfold observe_fn. destruct (only_present && has_left x); [done|].
  apply observe_key.
Qed.

Lemma observe_loop_snapshot only_present order vs0 vs :
  Forall2 same_key vs vs0 ->
  for_each order (observe_step only_present) vs
  = for_each order (fun i l => alter (observe_fn only_present vs0) i l) vs.
Proof.
  revert vs. induction order as [|i order IH]; intros vs Hkeys; [done|].
  rewrite !for_each_cons.
  assert (observe_step only_present i vs
          = alter (observe_fn only_present vs0) i vs) as ->.
  { unfold observe_step. apply list_alter_ext; [|done].
    intros x _. unfold observe_fn.
    destruct (only_present && has_left x); [done|].
    by apply observe_snapshot. }
  apply IH.
  apply Forall2_alter_l; [done|].
  intros x y _ _ Hxy. destruct (observe_fn_key only_present vs0 x) as (?&?&?).
  destruct Hxy as (?&?&?). repeat split; congruence.
Qed.

(** Whatever the order, the observation loop gives every villager the
    count taken on the list as it was before the loop. *)
Lemma observe_loop_all only_present order vs :
  order ≡ₚ positions vs ->
  for_each order (observe_step only_present) vs
  = observe_fn only_present vs <$> vs.
Proof.
  intros Hperm.
  rewrite (observe_loop_snapshot only_present order vs vs)
    by apply Forall2_same_key_refl.
  by apply for_each_alter_all.
Qed.

(** ** The decision and departure loops *)

Lemma filter_iff_in {A} (P Q : A -> Prop) `{!forall x, Decision (P x)}
    `{!forall x, Decision (Q x)} (l : list A) :
  (forall x, x ∈ l -> P x <-> Q x) -> filter P l = filter Q l.
Proof.
  induction l as [|a l IH]; intros Hiff; [done|].
  rewrite !filter_cons.
  rewrite IH by (intros x Hx; apply Hiff; by right).
  destruct (decide (P a)) as [Hp|Hp], (decide (Q a)) as [Hq|Hq]; try done.
  - apply Hiff in Hp; [done|left].
  - apply Hiff in Hq; [done|left].
Qed.

Lemma filter_none {A} (P : A -> Prop) `{!forall x, Decision (P x)}
    (l : list A) :
  Forall (fun x => ~ P x) l -> filter P l = [].
Proof.
  induction 1 as [|a l Ha _ IH]; [done|].
  by rewrite filter_cons_False.
Qed.

Lemma filter_all {A} (P : A -> Prop) `{!forall x, Decision (P x)}
    (l : list A) :
  Forall P l -> filter P l = l.
Proof.
  induction 1 as [|a l Ha _ IH]; [done|].
  by rewrite filter_cons_True, IH.
Qed.

Lemma decide_step_eq policy day announced i vs lv :
  decide_step policy day announced i (vs, lv)
  = (alter (decide_fn policy day announced) i vs,
     if decides policy day announced vs i then lv ++ [i] else lv).
Proof.
  unfold decide_step, decides, decide_fn. simpl.
  destruct (vs !! i) as [x|] eqn:Hx.
  - destruct (has_left x) eqn:Hl; simpl.
    + f_equal. symmetry.
      erewrite list_alter_ext with (g := fun y => y) (k := vs); [|  |done].
      * by apply list_alter_id.
      * intros y Hy. rewrite Hx in Hy. injection Hy as <-. by rewrite Hl.
    + destruct (policy x day announced) as [b x'] eqn:Hp. simpl. f_equal.
      rewrite list_insert_alter. apply list_alter_ext; [|done].
      intros y Hy. rewrite Hx in Hy. injection Hy as <-. by rewrite Hl, Hp.
  - f_equal. symmetry. apply list_eq. intros j.
    rewrite list_lookup_alter. case_decide; subst; [by rewrite Hx|done].
Qed.

Lemma decide_loop policy day announced order :
  NoDup order ->
  forall vs lv,
    for_each order (decide_step policy day announced) (vs, lv)
    = (for_each order (fun i l => alter (decide_fn policy day announced) i l) vs,
       lv ++ filter (fun i => decides policy day announced vs i = true) order).
Proof.
  induction 1 as [|i order Hi Hnd IH]; intros vs lv.
  - simpl. by rewrite app_nil_r.
  - rewrite !for_each_cons, decide_step_eq, IH. f_equal.
    rewrite filter_cons.
    rewrite (filter_iff_in
               (fun j => decides policy day announced
                           (alter (decide_fn policy day announced) i vs) j = true)
               (fun j => decides policy day announced vs j = true)).
    2:{ intros j Hj. unfold decides.
        rewrite list_lookup_alter_ne; [done|]. by intros ->. }
    destruct (decides policy day announced vs i); simpl;
      [by rewrite <- app_assoc|done].
Qed.

Lemma leave_step_fst day i vs log :
  (leave_step day i (vs, log)).1 = alter (fun x => leave x day) i vs.
Proof.
  unfold leave_step. simpl. destruct (vs !! i) as [x|] eqn:Hx; simpl.
  - rewrite list_insert_alter. apply list_alter_ext; [|done].
    intros y Hy. rewrite Hx in Hy. by injection Hy as <-.
  - apply list_eq. intros j.
    rewrite list_lookup_alter. case_decide; subst; [by rewrite Hx|done].
Qed.

Lemma leave_loop day leaving :
  forall vs log,
    (for_each leaving (leave_step day) (vs, log)).1
    = for_each leaving (fun i l => alter (fun x => leave x day) i l) vs.
Proof.
  induction leaving as [|i leaving IH]; intros vs log; [done|].
  rewrite !for_each_cons.
  destruct (leave_step day i (vs, log)) as [vs' log'] eqn:Hstep.
  rewrite IH. f_equal.
  by rewrite <- (leave_step_fst day i vs log), Hstep.
Qed.

(** ** A round as a simultaneous step *)

Lemma total_left_observe_fn only_present vs0 vs :
  total_left (observe_fn only_present vs0 <$> vs) = total_left vs.
Proof.
  unfold total_left. f_equal.
  induction vs as [|x vs IH]; [done|].
  rewrite fmap_cons, !filter_cons.
  destruct (observe_fn_key only_present vs0 x) as (_ & _ & ->).
  destruct (decide (has_left x = true)); simpl; by rewrite IH.
Qed.

Lemma refresh_stage v x :
  context_fn (left_yesterday_count v) (total_left (villagers v))
    (observe_fn true (villagers v) x)
  = if has_left x then x else refresh v x.
Proof.
  unfold context_fn, observe_fn, refresh. simpl.
  destruct (has_left x) eqn:Hl; [by rewrite Hl|].
  by destruct (observe_key x (villagers v)) as (_ & _ & ->); rewrite Hl.
Qed.

Lemma refresh_has_left v x : has_left (refresh v x) = has_left x.
Proof. by destruct x. Qed.

Section Round.
Variables (order : list nat) (v : Village).
Hypothesis Horder : order ≡ₚ positions (villagers v).

Let vs2 := (fun x => if has_left x then x else refresh v x) <$> villagers v.

Lemma order_NoDup : NoDup order.
Proof. rewrite Horder. apply NoDup_seq. Qed.

Lemma refresh_loops :
  for_each order
    (context_step (left_yesterday_count v)
       (total_left (for_each order (observe_step true) (villagers v))))
    (for_each order (observe_step true) (villagers v))
  = vs2.
Proof.
  rewrite (observe_loop_all true order (villagers v) Horder).
  rewrite total_left_observe_fn.
  unfold context_step.
  rewrite (for_each_alter_all
             (context_fn (left_yesterday_count v) (total_left (villagers v)))).
  2:{ unfold positions. by rewrite length_fmap. }
  unfold vs2. rewrite <- list_fmap_compose.
  apply list_fmap_ext. intros i x _. apply refresh_stage.
Qed.

Lemma decides_vs2 i :
  decides (reasoning_policy v) (current_day v + 1) (announcement_made v) vs2 i
  = departs_at v i.
Proof.
  unfold decides, departs_at, departs, vs2.
  rewrite list_lookup_fmap.
  destruct (villagers v !! i) as [x|]; simpl; [|done].
  destruct (has_left x) eqn:Hl; simpl; [by rewrite Hl|].
  by rewrite ?refresh_has_left, ?Hl.
Qed.

(** The list returned by the round: the visited positions whose villager
    departs, in visiting order. *)
Lemma simulate_day_in_leaving :
  (simulate_day_in order v).1
  = filter (fun i => departs_at v i = true) order.
Proof.
  unfold simulate_day_in. rewrite refresh_loops.
  rewrite (decide_loop _ _ _ order order_NoDup). simpl.
  destruct (for_each _ (leave_step _) _) as [vs4 log1]. simpl.
  apply filter_iff_in. intros i _. by rewrite decides_vs2.
Qed.

(** The villagers after the round: every one of them has taken the same
    step, computed from the village as it was before the round. *)
Lemma simulate_day_in_villagers :
  villagers (simulate_day_in order v).2 = round_fn v <$> villagers v.
Proof.
  unfold simulate_day_in. rewrite refresh_loops.
  rewrite (decide_loop _ _ _ order order_NoDup). simpl.
  set (leaving := filter _ order).
  assert (forall j, j ∈ leaving <-> j ∈ order /\ departs_at v j = true)
    as Hleaving.
  { intros j. unfold leaving. rewrite list_elem_of_filter, decides_vs2.
    tauto. }
  assert (NoDup leaving) as Hnd by apply NoDup_filter, order_NoDup.
  clearbody leaving.
  match goal with
  | |- context [for_each leaving (leave_step ?d) (?l, ?g)] =>
      pose proof (leave_loop d leaving l g) as Hloop;
      destruct (for_each leaving (leave_step d) (l, g)) as [vs4 log1]
  end.
  simpl in *. subst vs4.
  rewrite (for_each_alter_all _ order vs2).
  2:{ unfold positions, vs2. by rewrite length_fmap. }
  apply list_eq. intros j.
  rewrite for_each_alter_lookup by done.
  unfold vs2. rewrite !list_lookup_fmap.
  destruct (villagers v !! j) as [x|] eqn:Hx; simpl.
  2:{ by case_decide. }
  assert (j ∈ order) as Hj.
  { rewrite Horder. apply elem_of_seq. apply lookup_lt_Some in Hx. lia. }
  assert (j ∈ leaving <-> departs v x = true) as Hin.
  { rewrite Hleaving. unfold departs_at. rewrite Hx. tauto. }
  clear Hleaving. revert Hin.
  unfold round_fn, decide_fn, departs.
  destruct (has_left x) eqn:Hl; simpl.
  - rewrite Hl. intros Hin. rewrite decide_False; [done|].
    intros Hc. by apply Hin in Hc.
  - rewrite ?refresh_has_left, ?Hl.
    destruct (reasoning_policy v (refresh v x) (current_day v + 1)
                (announcement_made v)) as [b x']; simpl.
    intros Hin. destruct b.
    + rewrite decide_True; [done|]. by apply Hin.
    + rewrite decide_False; [done|]. intros Hc. by apply Hin in Hc.
Qed.

End Round.

Lemma simulate_day_in_fields order v :
  let v' := (simulate_day_in order v).2 in
  reasoning_policy v' = reasoning_policy v
  /\ announcement_made v' = announcement_made v
  /\ current_day v' = current_day v + 1
  /\ knowledge_level v' = knowledge_level v
  /\ left_yesterday_count v' = Z.of_nat (length (simulate_day_in order v).1).
Proof.
  unfold simulate_day_in.
  destruct (for_each order (decide_step _ _ _) _) as [vs3 leaving].
  by destruct (for_each leaving (leave_step _) _) as [vs4 log1].
Qed.

Lemma positions_refl {A} (l : list A) : positions l ≡ₚ positions l.
Proof. done. Qed.

Lemma simulate_day_villagers v :
  villagers (simulate_day v).2 = round_fn v <$> villagers v.
Proof. apply simulate_day_in_villagers, positions_refl. Qed.

Lemma simulate_day_leaving v :
  (simulate_day v).1
  = filter (fun i => departs_at v i = true) (positions (villagers v)).
Proof. apply simulate_day_in_leaving, positions_refl. Qed.

Lemma simulate_days_S n v :
  simulate_days (S n) v = (simulate_day (simulate_days n v)).2.
Proof. done. Qed.

Lemma simulate_days_plus n m v :
  simulate_days (n + m) v = simulate_days m (simulate_days n v).
Proof.
  induction m as [|m IH]; [by rewrite Nat.add_0_r|].
  by rewrite Nat.add_succ_r, !simulate_days_S, IH.
Qed.

Lemma simulate_days_fields n v :
  reasoning_policy (simulate_days n v) = reasoning_policy v
  /\ announcement_made (simulate_days n v) = announcement_made v
  /\ current_day (simulate_days n v) = current_day v + Z.of_nat n
  /\ length (villagers (simulate_days n v)) = length (villagers v).
Proof.
  induction n as [|n (Hp & Ha & Hd & Hl)].
  - repeat split; try done. simpl. lia.
  - rewrite simulate_days_S.
    destruct (simulate_day_in_fields
                (positions (villagers (simulate_days n v)))
                (simulate_days n v)) as (Hp' & Ha' & Hd' & _).
    unfold simulate_day. rewrite Hp', Ha', Hd'.
    repeat split; try done; [lia|].
    fold (simulate_day (simulate_days n v)).
    by rewrite simulate_day_villagers, length_fmap.
Qed.

(** ** Departures are final *)

Lemma round_fn_departed v x : has_left x = true -> round_fn v x = x.
Proof. intros Hl. unfold round_fn. by rewrite Hl. Qed.

Lemma simulate_day_departed v i x :
  villagers v !! i = Some x -> has_left x = true ->
  villagers (simulate_day v).2 !! i = Some x.
Proof.
  intros Hx Hl.
  by rewrite simulate_day_villagers, list_lookup_fmap, Hx; simpl;
    rewrite round_fn_departed.
Qed.

(** A villager returned by the round was present before it and is stamped
    with the round's number. *)
Lemma simulate_day_stamps v i :
  i ∈ (simulate_day v).1 ->
  exists x y,
    villagers v !! i = Some x /\ has_left x = false
    /\ villagers (simulate_day v).2 !! i = Some y
    /\ has_left y = true /\ left_on_day y = Some (current_day v + 1).
Proof.
  rewrite simulate_day_leaving, list_elem_of_filter.
  unfold departs_at. intros [Hdep _].
  destruct (villagers v !! i) as [x|] eqn:Hx; [|done].
  unfold departs in Hdep. apply andb_true_iff in Hdep as [Hl Hdec].
  apply negb_true_iff in Hl.
  exists x, (round_fn v x). repeat split; try done.
  - by rewrite simulate_day_villagers, list_lookup_fmap, Hx.
  - unfold round_fn. by rewrite Hl, Hdec.
  - unfold round_fn. by rewrite Hl, Hdec.
Qed.

(** C6. Whatever the policy, a villager that has departed is never touched
    again by [simulate_day]: after any number of further rounds it is the
    same object state, so [has_left] stays true and [left_on_day] keeps the
    value it was stamped with. *)
Theorem departed_is_final v n m i x :
  villagers (simulate_days n v) !! i = Some x ->
  has_left x = true ->
  villagers (simulate_days (n + m) v) !! i = Some x.
Proof.
  intros Hx Hl. rewrite simulate_days_plus.
  induction m as [|m IH]; [done|].
  rewrite simulate_days_S. by apply simulate_day_departed.
Qed.

(** ** Without the announcement nobody departs *)

Lemma round_fn_no_announcement v x :
  reasoning_policy v = PerfectInductionPolicy ->
  announcement_made v = false ->
  departs v x = false /\ has_left (round_fn v x) = has_left x.
Proof.
  intros Hp Ha. unfold departs, round_fn. rewrite Hp, Ha.
  destruct (has_left x) eqn:Hl; [done|]. simpl.
  unfold PerfectInductionPolicy.
  rewrite !refresh_has_left, Hl. simpl.
  by split.
Qed.

Lemma simulate_day_no_announcement v :
  reasoning_policy v = PerfectInductionPolicy ->
  announcement_made v = false ->
  (simulate_day v).1 = []
  /\ has_left <$> villagers (simulate_day v).2 = has_left <$> villagers v.
Proof.
  intros Hp Ha. split.
  - rewrite simulate_day_leaving.
    apply filter_none, Forall_forall. intros i _. unfold departs_at.
    destruct (villagers v !! i) as [x|]; [|done].
    by destruct (round_fn_no_announcement v x Hp Ha) as [-> _].
  - rewrite simulate_day_villagers, <- list_fmap_compose.
    apply list_fmap_ext. intros i x _. simpl.
    by destruct (round_fn_no_announcement v x Hp Ha) as [_ ->].
Qed.

(** C4. A village run under [PerfectInductionPolicy] on which the
    announcement was never made, all of whose villagers are present: every
    call of [simulate_day] returns the empty list and after any number of
    rounds every villager's [has_left] is still false. (That a red-eyed
    villager exists is not needed.) *)
Theorem no_announcement_no_departure v n :
  reasoning_policy v = PerfectInductionPolicy ->
  announcement_made v = false ->
  Forall (fun x => has_left x = false) (villagers v) ->
  leaving_on (S n) v = []
  /\ Forall (fun x => has_left x = false) (villagers (simulate_days n v)).
Proof.
  intros Hp Ha Hpresent.
  assert (has_left <$> villagers (simulate_days n v)
          = has_left <$> villagers v) as Hflags.
  { induction n as [|n IH]; [done|].
    rewrite simulate_days_S.
    destruct (simulate_days_fields n v) as (Hp' & Ha' & _).
    destruct (simulate_day_no_announcement (simulate_days n v))
      as [_ ->]; congruence. }
  split.
  - unfold leaving_on. simpl.
    destruct (simulate_days_fields n v) as (Hp' & Ha' & _).
    apply simulate_day_no_announcement; congruence.
  - apply (Forall_fmap has_left (fun b => b = false)).
    rewrite Hflags. by apply (Forall_fmap has_left (fun b => b = false)).
Qed.

(** ** The order of iteration within a round does not matter *)

Lemma same_state_refl v : same_state v v.
Proof. by repeat split. Qed.

Lemma departs_same_state v1 v2 x :
  same_state v1 v2 -> departs v1 x = departs v2 x.
Proof.
  intros (Hv & Hp & Ha & Hd & _ & Hy).
  unfold departs, refresh. by rewrite Hv, Hp, Ha, Hd, Hy.
Qed.

Lemma round_fn_same_state v1 v2 x :
  same_state v1 v2 -> round_fn v1 x = round_fn v2 x.
Proof.
  intros (Hv & Hp & Ha & Hd & _ & Hy).
  unfold round_fn, refresh. by rewrite Hv, Hp, Ha, Hd, Hy.
Qed.

Lemma simulate_day_in_same_state order1 order2 v1 v2 :
  same_state v1 v2 ->
  order1 ≡ₚ positions (villagers v1) ->
  order2 ≡ₚ positions (villagers v2) ->
  (simulate_day_in order1 v1).1 ≡ₚ (simulate_day_in order2 v2).1
  /\ same_state (simulate_day_in order1 v1).2 (simulate_day_in order2 v2).2.
Proof.
  intros Hsame H1 H2.
  assert ((simulate_day_in order1 v1).1 ≡ₚ (simulate_day_in order2 v2).1)
    as Hleaving.
  { rewrite (simulate_day_in_leaving order1 v1 H1).
    rewrite (simulate_day_in_leaving order2 v2 H2).
    rewrite H1, H2. destruct Hsame as (Hv & Hrest). rewrite Hv.
    erewrite filter_iff_in; [done|]. intros i _. unfold departs_at.
    rewrite Hv. destruct (villagers v2 !! i) as [x|]; [|done].
    by rewrite (departs_same_state v1 v2 x). }
  split; [done|].
  destruct (simulate_day_in_fields order1 v1) as (Hp1 & Ha1 & Hd1 & Hk1 & Hy1).
  destruct (simulate_day_in_fields order2 v2) as (Hp2 & Ha2 & Hd2 & Hk2 & Hy2).
  unfold same_state.
  rewrite Hp1, Ha1, Hd1, Hk1, Hy1, Hp2, Ha2, Hd2, Hk2, Hy2.
  rewrite (simulate_day_in_villagers order1 v1 H1).
  rewrite (simulate_day_in_villagers order2 v2 H2).
  rewrite (Permutation_length Hleaving).
  destruct Hsame as (Hv & Hp & Ha & Hd & Hk & Hy).
  rewrite Hv, Hp, Ha, Hd, Hk. repeat split; try done.
  apply list_fmap_ext. intros i x _. apply round_fn_same_state.
  by repeat split.
Qed.

Lemma simulate_days_in_same_state orders1 orders2 :
  length orders1 = length orders2 ->
  forall v1 v2,
    same_state v1 v2 ->
    Forall (fun order => order ≡ₚ positions (villagers v1)) orders1 ->
    Forall (fun order => order ≡ₚ positions (villagers v2)) orders2 ->
    Forall2 (≡ₚ) (simulate_days_in orders1 v1).1 (simulate_days_in orders2 v2).1
    /\ same_state (simulate_days_in orders1 v1).2 (simulate_days_in orders2 v2).2.
Proof.
  revert orders2.
  induction orders1 as [|o1 orders1 IH]; intros [|o2 orders2] Hlen;
    try done; intros v1 v2 Hsame H1 H2.
  apply Forall_cons in H1 as [Ho1 H1]. apply Forall_cons in H2 as [Ho2 H2].
  destruct (simulate_day_in_same_state o1 o2 v1 v2 Hsame Ho1 Ho2)
    as [Hleaving Hnext].
  simpl.
  destruct (IH orders2 ltac:(by injection Hlen)
              (simulate_day_in o1 v1).2 (simulate_day_in o2 v2).2 Hnext)
    as [Hrest Hfinal].
  - eapply Forall_impl; [exact H1|]. intros o Ho. simpl in Ho.
    rewrite Ho. unfold positions.
    by rewrite (simulate_day_in_villagers o1 v1 Ho1), length_fmap.
  - eapply Forall_impl; [exact H2|]. intros o Ho. simpl in Ho.
    rewrite Ho. unfold positions.
    by rewrite (simulate_day_in_villagers o2 v2 Ho2), length_fmap.
  - split; [by constructor|done].
Qed.

(** The run of the source is the one that visits the villagers in list
    order in every round. *)
Lemma simulate_days_shift n v :
  simulate_days (S n) v = simulate_days n (simulate_day v).2.
Proof.
  change (S n) with (1 + n)%nat. by rewrite simulate_days_plus.
Qed.

Lemma simulate_days_in_list_order n v :
  (simulate_days_in (replicate n (positions (villagers v))) v).2
  = simulate_days n v.
Proof.
  revert v. induction n as [|n IH]; intros v; [done|].
  rewrite simulate_days_shift, <- IH.
  assert (positions (villagers (simulate_day v).2) = positions (villagers v))
    as Hpos.
  { unfold positions. by rewrite simulate_day_villagers, length_fmap. }
  rewrite Hpos. done.
Qed.

(** C5. Two executions of a run of rounds on the same village, with any
    policy, that visit the villagers in different orders (each round's
    order any permutation of the positions): in every round the two
    executions return the same villagers, up to the order of the returned
    list, and they end with the same villagers, flags and counters. The
    list returned by one round is determined by the village as it was
    before the round. *)
Theorem round_order_irrelevant v orders1 orders2 :
  length orders1 = length orders2 ->
  Forall (fun order => order ≡ₚ positions (villagers v)) orders1 ->
  Forall (fun order => order ≡ₚ positions (villagers v)) orders2 ->
  Forall2 (≡ₚ) (simulate_days_in orders1 v).1 (simulate_days_in orders2 v).1
  /\ same_state (simulate_days_in orders1 v).2 (simulate_days_in orders2 v).2
  /\ (forall order, order ≡ₚ positions (villagers v) ->
        (simulate_day_in order v).1
        = filter (fun i => departs_at v i = true) order).
Proof.
  intros Hlen H1 H2.
  destruct (simulate_days_in_same_state orders1 orders2 Hlen v v
              (same_state_refl v) H1 H2) as [Hl Hs].
  repeat split; try done; try apply Hs.
  intros order Ho. by apply simulate_day_in_leaving.
Qed.

(** ** What [create_village] builds *)

Lemma create_loop color label vt vts items :
  forall village idx,
    (forall ts, vts = Some ts -> (idx + length items <= length ts)%nat) ->
    exists village' news,
      for_range items (create_step color label vt vts) (village, idx)
      = Ok (village', (idx + length items)%nat)
      /\ villagers village' = villagers village ++ news
      /\ length news = length items
      /\ fresh color (length (villagers village)) news
      /\ reasoning_policy village' = reasoning_policy village
      /\ announcement_made village' = announcement_made village
      /\ current_day village' = current_day village
      /\ left_yesterday_count village' = left_yesterday_count village.
Proof.
  induction items as [|i items IH]; intros village idx Hlen.
  - exists village, []. simpl. rewrite Nat.add_0_r, app_nil_r.
    repeat split; try done.
  - assert (exists t,
              match vts with
              | Some types =>
                  match types !! idx with
                  | Some t => Ok t
                  | None => Raise IndexError
                  end
              | None => Ok vt
              end = Ok t) as [t Ht].
    { destruct vts as [ts|]; [|by eexists].
      specialize (Hlen ts eq_refl). simpl in Hlen.
      destruct (lookup_lt_is_Some_2 ts idx ltac:(lia)) as [t ->].
      by eexists. }
    set (village1 :=
           add_villager village color
             (Some (label ++ str_of_int (Z.of_nat i + 1))) t).
    destruct (IH village1 (S idx)) as
      (village' & news & Hrun & Hvs & Hn & Hfresh & Hp & Ha & Hd & Hy).
    { intros ts Hts. specialize (Hlen ts Hts). simpl in Hlen. lia. }
    exists village',
      (Villager_init (Z.of_nat (length (villagers village)) + 1) color
         (Some (label ++ str_of_int (Z.of_nat i + 1))) t :: news).
    split.
    { simpl. unfold create_step at 1. simpl. rewrite Ht. simpl.
      fold village1. rewrite Hrun. do 2 f_equal. lia. }
    split.
    { rewrite Hvs. unfold village1, add_villager. simpl.
      by rewrite <- app_assoc. }
    split; [simpl; lia|].
    split; [|done].
    intros [|j] y Hy'.
    + injection Hy' as <-. simpl. repeat split; try done. lia.
    + simpl in Hy'. apply Hfresh in Hy' as (Hid & Hc & Hl).
      repeat split; try done. rewrite Hid.
      unfold village1, add_villager. simpl. rewrite length_app. simpl. lia.
Qed.

Lemma standard_keys k vs vs' :
  Forall2 same_key vs' vs -> standard k vs -> standard k vs'.
Proof.
  intros Hkeys Hstd i x' Hx'.
  destruct (Forall2_lookup_l _ _ _ _ _ Hkeys Hx') as (x & Hx & Hi & Hc & Hl).
  destruct (Hstd i x Hx) as (? & ? & ?). repeat split; congruence.
Qed.

Lemma initialize_observations_villagers v :
  villagers (initialize_observations v)
  = observe_fn false (villagers v) <$> villagers v.
Proof. simpl. apply observe_loop_all, positions_refl. Qed.

Lemma create_village_standard (num_red num_blue : Z) rp vt vts :
  0 <= num_red -> 0 <= num_blue ->
  (forall ts, vts = Some ts -> Z.of_nat (length ts) = num_red + num_blue) ->
  exists v,
    create_village num_red num_blue rp vt vts = Ok v
    /\ length (villagers v) = Z.to_nat (num_red + num_blue)
    /\ standard (Z.to_nat num_red) (villagers v)
    /\ reasoning_policy v = default PerfectInductionPolicy rp
    /\ announcement_made v = false
    /\ current_day v = 0
    /\ left_yesterday_count v = 0.
Proof.
  intros Hr Hb Hts. unfold create_village.
  assert (match vts with
          | Some types =>
              if bool_decide (Z.of_nat (length types) = num_red + num_blue)
              then Ok tt
              else Raise (length_error (num_red + num_blue) (length types))
          | None => Ok tt
          end = Ok tt) as ->.
  { destruct vts as [ts|]; [|done].
    by rewrite bool_decide_eq_true_2 by by apply Hts. }
  simpl.
  set (v0 := Village_init (default PerfectInductionPolicy rp)).
  destruct (create_loop RED (u "红") vt vts (range num_red) v0 O)
    as (v1 & reds & Hrun1 & Hvs1 & Hn1 & Hf1 & Hp1 & Ha1 & Hd1 & Hy1).
  { intros ts Heq. specialize (Hts ts Heq). unfold range.
    rewrite length_seq. lia. }
  rewrite Hrun1. simpl.
  destruct (create_loop BLUE (u "蓝") vt vts (range num_blue) v1
              (0 + length (range num_red))%nat)
    as (v2 & blues & Hrun2 & Hvs2 & Hn2 & Hf2 & Hp2 & Ha2 & Hd2 & Hy2).
  { intros ts Heq. specialize (Hts ts Heq). unfold range.
    rewrite !length_seq. lia. }
  simpl in Hrun2. rewrite Hrun2. simpl.
  unfold range in Hn1, Hn2. rewrite length_seq in Hn1, Hn2.
  simpl in Hvs1. rewrite Hvs1 in Hvs2, Hf2.
  eexists. split; [done|].
  rewrite initialize_observations_villagers, length_fmap.
  split. { rewrite Hvs2, length_app. lia. }
  split.
  { apply (standard_keys _ (villagers v2)).
    - apply Forall2_fmap_l, Forall_Forall2_diag, Forall_forall.
      intros x _. apply observe_fn_key.
    - rewrite Hvs2. intros i x Hx.
      destruct (decide (i < Z.to_nat num_red)%nat) as [Hi|Hi].
      + rewrite lookup_app_l in Hx by lia.
        destruct (Hf1 i x Hx) as (Hid & ? & ?). simpl in Hid.
        repeat split; try done.
      + rewrite lookup_app_r in Hx by lia.
        destruct (Hf2 _ x Hx) as (Hid & ? & ?).
        repeat split; try done. rewrite Hid. lia. }
  simpl. rewrite Hp2, Hp1, Ha2, Ha1, Hd2, Hd1, Hy2, Hy1. done.
Qed.

(** C10. For non-negative counts (and, when a list of type tags is given,
    one of the right length) [create_village] returns a village whose
    villagers carry the identifiers 1, 2, ..., [num_red + num_blue] in
    list order, the red-eyed ones first: a villager is red-eyed exactly
    when its identifier is at most [num_red], blue-eyed exactly when it is
    larger. *)
Theorem create_village_ids num_red num_blue rp vt vts :
  0 <= num_red -> 0 <= num_blue ->
  (forall ts, vts = Some ts -> Z.of_nat (length ts) = num_red + num_blue) ->
  exists v,
    create_village num_red num_blue rp vt vts = Ok v
    /\ id <$> villagers v = seqZ 1 (num_red + num_blue)
    /\ forall x, x ∈ villagers v ->
         (eye_color x = RED <-> 1 <= id x <= num_red)
         /\ (eye_color x = BLUE <-> num_red < id x <= num_red + num_blue).
Proof.
  intros Hr Hb Hts.
  destruct (create_village_standard num_red num_blue rp vt vts Hr Hb Hts)
    as (v & Hv & Hlen & Hstd & _).
  exists v. split; [done|]. split.
  - apply list_eq. intros i. rewrite list_lookup_fmap.
    destruct (villagers v !! i) as [x|] eqn:Hx; simpl.
    + destruct (Hstd i x Hx) as (-> & _).
      apply lookup_lt_Some in Hx.
      rewrite lookup_seqZ_lt by lia. f_equal. lia.
    + apply lookup_ge_None in Hx. by rewrite lookup_seqZ_ge by lia.
  - intros x Hx. apply list_elem_of_lookup in Hx as [i Hx].
    destruct (Hstd i x Hx) as (Hid & Hc & _).
    apply lookup_lt_Some in Hx. rewrite Hc, Hid.
    destruct (decide (i < Z.to_nat num_red)%nat); split; split;
      try done; lia.
Qed.

Lemma create_village_ids_witness :
  0 <= 2 /\ 0 <= 3
  /\ exists v,
       create_village 2 3 None (u "dummy") None = Ok v
       /\ id <$> villagers v = seqZ 1 (2 + 3)
       /\ forall x, x ∈ villagers v ->
            (eye_color x = RED <-> 1 <= id x <= 2)
            /\ (eye_color x = BLUE <-> 2 < id x <= 2 + 3).
Proof.
  split; [lia|]. split; [lia|].
  apply (create_village_ids 2 3 None (u "dummy") None); [lia|lia|].
  intros ts Hts. discriminate Hts.
Defined.

(** ** Which invalid parameters are rejected, and where *)

(** C9, as stated, fails on [create_village]: a negative count is taken
    as zero, and no size is too large. *)
Lemma create_village_accepts_negative_count :
  exists v,
    create_village (-1) 2 None (u "dummy") None = Ok v
    /\ length (villagers v) = 2%nat.
Proof. eexists. split; [vm_compute; reflexivity|reflexivity]. Qed.

(** C9, amended. The parameter checks are split between the two layers.
    The hosting service's [_api_init] rejects a negative count and a
    total above 200 with a [ValueError], before anything is built and
    whatever the application state; [create_village] rejects a list of
    type tags whose length is not [num_red + num_blue] with a
    [ValueError], and returns no village. *)
Theorem setup_rejections :
  (forall openai num_red num_blue mode style app,
      num_red < 0 \/ num_blue < 0 \/ 200 < num_red + num_blue ->
      _api_init openai num_red num_blue mode style app
      = Raise (ValueError (u "Invalid population size")))
  /\ (forall num_red num_blue rp vt ts,
        Z.of_nat (length ts) <> num_red + num_blue ->
        create_village num_red num_blue rp vt (Some ts)
        = Raise (length_error (num_red + num_blue) (length ts))).
Proof.
  split.
  - intros openai num_red num_blue mode style app Hbad. unfold _api_init.
    assert ((num_red <? 0) || (num_blue <? 0) || (200 <? num_red + num_blue)
            = true) as ->; [|done].
    rewrite !orb_true_iff, !Z.ltb_lt. tauto.
  - intros num_red num_blue rp vt ts Hlen. unfold create_village.
    by rewrite bool_decide_eq_false_2.
Qed.

(** ** The depart operation *)

(** C7, as stated, fails: [leave] has no guard, so calling it on a
    villager that has already departed overwrites the departure round. *)
Lemma leave_overwrites_departure_round :
  let v := mkVillager 1 RED (u "红1") (u "dummy") 0 true (Some 3) [] 0 0 in
  has_left v = true
  /\ left_on_day (leave v 5) = Some 5
  /\ leave v 5 <> v.
Proof. repeat split. discriminate. Qed.

(** C7, amended. [leave] always sets [has_left] and stamps [left_on_day]
    with the given day, whatever the villager's state, and changes nothing
    else; on a departed villager it is a no-op exactly when the day is the
    departure round already recorded. *)
Theorem leave_unguarded v day :
  has_left (leave v day) = true
  /\ left_on_day (leave v day) = Some day
  /\ id (leave v day) = id v
  /\ eye_color (leave v day) = eye_color v
  /\ name (leave v day) = name v
  /\ villager_type (leave v day) = villager_type v
  /\ observed_red_eyes (leave v day) = observed_red_eyes v
  /\ reasoning_log (leave v day) = reasoning_log v
  /\ observed_left_yesterday (leave v day) = observed_left_yesterday v
  /\ observed_left_total (leave v day) = observed_left_total v
  /\ (leave v day = v <-> has_left v = true /\ left_on_day v = Some day).
Proof.
  do 10 (split; [done|]). split.
  - by intros <-.
  - intros [Hl Hd]. destruct v. simpl in *. by subst.
Qed.

(** ** What a villager of the standard population observes *)

Lemma seen_red_by_other self y :
  id y <> id self -> seen_red_by self y = red_present y.
Proof.
  intros Hne. unfold seen_red_by, red_present.
  by rewrite (proj2 (Z.eqb_neq _ _) Hne).
Qed.

Lemma seen_red_by_self self y : id y = id self -> seen_red_by self y = false.
Proof. intros Hid. unfold seen_red_by. by rewrite Hid, Z.eqb_refl. Qed.

(** In a list where the identifier of [x] is its own alone, [x] sees all
    the present red-eyed villagers but itself. *)
Lemma observed_count vs :
  forall i x,
    vs !! i = Some x ->
    (forall j y, vs !! j = Some y -> id y = id x -> j = i) ->
    (length (filter (fun y => seen_red_by x y = true) vs)
     + (if red_present x then 1 else 0)
     = length (filter (fun y => red_present y = true) vs))%nat.
Proof.
  induction vs as [|a vs IH]; intros i x Hx Huniq; [done|].
  rewrite !filter_cons. destruct i as [|i].
  - injection Hx as ->.
    rewrite (seen_red_by_self x x eq_refl). simpl.
    rewrite (filter_iff_in (fun y => seen_red_by x y = true)
               (fun y => red_present y = true) vs).
    2:{ intros y Hy. apply list_elem_of_lookup in Hy as [j Hj].
        rewrite seen_red_by_other; [done|].
        intros Hid. by specialize (Huniq (S j) y Hj Hid). }
    destruct (red_present x); simpl; lia.
  - rewrite (seen_red_by_other x a).
    2:{ intros Hid. by specialize (Huniq O a eq_refl Hid). }
    assert (forall j y, vs !! j = Some y -> id y = id x -> j = i) as Htail.
    { intros j y Hj Hid. specialize (Huniq (S j) y Hj Hid). lia. }
    specialize (IH i x Hx Htail).
    destruct (decide (red_present a = true)); simpl; lia.
Qed.

Lemma standard_red_present k vs :
  standard k vs -> (k <= length vs)%nat ->
  length (filter (fun y => red_present y = true) vs) = k.
Proof.
  intros Hstd Hk.
  rewrite <- (take_drop k vs) at 1. rewrite filter_app.
  rewrite filter_all, filter_none.
  - rewrite app_nil_r. by apply length_take_le.
  - apply Forall_lookup. intros j y Hj. rewrite lookup_drop in Hj.
    destruct (Hstd _ y Hj) as (_ & Hc & _). unfold red_present.
    rewrite decide_False in Hc by lia. rewrite Hc. simpl. done.
  - apply Forall_lookup. intros j y Hj.
    apply lookup_take_Some in Hj as [Hj Hlt].
    destruct (Hstd _ y Hj) as (_ & Hc & Hl). unfold red_present.
    rewrite decide_True in Hc by done. by rewrite Hc, Hl.
Qed.

Lemma standard_observed k vs i x :
  standard k vs -> (k <= length vs)%nat -> vs !! i = Some x ->
  Z.of_nat (length (filter (fun y => seen_red_by x y = true) vs))
  = Z.of_nat k - (if decide (i < k)%nat then 1 else 0).
Proof.
  intros Hstd Hk Hx.
  pose proof (observed_count vs i x Hx) as Hcount.
  rewrite (standard_red_present k vs Hstd Hk) in Hcount.
  destruct (Hstd i x Hx) as (Hid & Hc & Hl).
  unfold red_present in Hcount. rewrite Hc, Hl in Hcount.
  assert (forall j y, vs !! j = Some y -> id y = id x -> j = i) as Huniq.
  { intros j y Hj Hidy. destruct (Hstd j y Hj) as (Hid' & _). lia. }
  specialize (Hcount Huniq).
  destruct (decide (i < k)%nat); simpl in Hcount; lia.
Qed.

(** ** A round under [PerfectInductionPolicy] *)

Lemma refresh_fields v x :
  id (refresh v x) = id x
  /\ eye_color (refresh v x) = eye_color x
  /\ has_left (refresh v x) = has_left x
  /\ left_on_day (refresh v x) = left_on_day x
  /\ observed_red_eyes (refresh v x)
     = Z.of_nat
         (length (filter (fun y => seen_red_by x y = true) (villagers v))).
Proof. by destruct x. Qed.

Lemma departs_perfect_iff v x :
  reasoning_policy v = PerfectInductionPolicy ->
  departs v x = true <->
  has_left x = false /\ announcement_made v = true /\ eye_color x = RED
  /\ ((observed_red_eyes (refresh v x) = 0 /\ current_day v + 1 = 1)
      \/ (observed_red_eyes (refresh v x) <> 0
          /\ current_day v + 1 = observed_red_eyes (refresh v x) + 1)).
Proof.
  intros Hp. unfold departs. rewrite Hp, PerfectInductionPolicy_no_log.
  rewrite andb_true_iff, negb_true_iff, no_log_true_iff.
  destruct (refresh_fields v x) as (_ & -> & -> & _). tauto.
Qed.

Lemma round_fn_perfect v x :
  reasoning_policy v = PerfectInductionPolicy ->
  id (round_fn v x) = id x
  /\ eye_color (round_fn v x) = eye_color x
  /\ has_left (round_fn v x) = has_left x || departs v x
  /\ left_on_day (round_fn v x)
     = if departs v x then Some (current_day v + 1) else left_on_day x.
Proof.
  intros Hp. unfold round_fn, departs. rewrite Hp.
  destruct (has_left x) eqn:Hl; [done|]. simpl.
  destruct (PerfectInductionPolicy_frame (refresh v x) (current_day v + 1)
              (announcement_made v)) as (Hi & Hc & Hh & Hd & _).
  destruct (refresh_fields v x) as (Hi' & Hc' & Hh' & Hd' & _).
  simpl in *.
  destruct (PerfectInductionPolicy (refresh v x) (current_day v + 1)
              (announcement_made v)) as [b x']. simpl in *.
  destruct b; simpl; repeat split; congruence.
Qed.

Lemma waiting_departs k d v i x :
  waiting_state k d v -> villagers v !! i = Some x ->
  departs v x = true <-> (i < k)%nat /\ S d = k.
Proof.
  intros (Hp & Ha & Hd & Hstd & Hk) Hx.
  rewrite (departs_perfect_iff v x Hp).
  destruct (refresh_fields v x) as (_ & _ & _ & _ & ->).
  rewrite (standard_observed k (villagers v) i x Hstd Hk Hx).
  destruct (Hstd i x Hx) as (_ & Hc & Hl). rewrite Hc, Hl, Ha, Hd.
  destruct (decide (i < k)%nat); split.
  - intros (_ & _ & _ & Hday). split; [done|]. lia.
  - intros [_ <-]. repeat split; try done. lia.
  - by intros (_ & _ & ? & _).
  - by intros [? _].
Qed.

Lemma settled_departs k v i x :
  settled_state k v -> villagers v !! i = Some x -> departs v x = false.
Proof.
  intros (Hp & Ha & Hd & Hk & Hst) Hx.
  apply not_true_is_false. rewrite (departs_perfect_iff v x Hp).
  specialize (Hst i x Hx).
  destruct (decide (i < k)%nat).
  - destruct Hst as (_ & Hl & _). rewrite Hl. by intros [? _].
  - destruct Hst as (Hc & _). rewrite Hc. by intros (_ & _ & ? & _).
Qed.

Lemma leaving_filter (P : nat -> Prop) `{!forall i, Decision (P i)} k n :
  (forall i, (i < k + n)%nat -> P i <-> (i < k)%nat) ->
  filter P (seq 0 (k + n)) = seq 0 k.
Proof.
  intros HP. rewrite seq_app, filter_app, filter_all, filter_none.
  - by rewrite app_nil_r.
  - apply Forall_seq. intros j Hj. rewrite HP; lia.
  - apply Forall_seq. intros j Hj. rewrite HP; lia.
Qed.

Lemma simulate_day_fields v :
  let v' := (simulate_day v).2 in
  reasoning_policy v' = reasoning_policy v
  /\ announcement_made v' = announcement_made v
  /\ current_day v' = current_day v + 1
  /\ length (villagers v') = length (villagers v).
Proof.
  destruct (simulate_day_in_fields (positions (villagers v)) v)
    as (Hp & Ha & Hd & _).
  repeat split; try done.
  by rewrite simulate_day_villagers, length_fmap.
Qed.

Lemma waiting_round k d v :
  waiting_state k d v -> (S d < k)%nat ->
  (simulate_day v).1 = [] /\ waiting_state k (S d) (simulate_day v).2.
Proof.
  intros Hw Hlt. pose proof Hw as (Hp & Ha & Hd & Hstd & Hk).
  assert (forall i x, villagers v !! i = Some x -> departs v x = false)
    as Hstay.
  { intros i x Hx. apply not_true_is_false.
    rewrite (waiting_departs k d v i x Hw Hx). lia. }
  split.
  - rewrite simulate_day_leaving. apply filter_none, Forall_forall.
    intros i _. unfold departs_at.
    destruct (villagers v !! i) as [x|] eqn:Hx; [|done].
    by rewrite (Hstay i x Hx).
  - destruct (simulate_day_fields v) as (Hp' & Ha' & Hd' & Hl').
    unfold waiting_state. rewrite Hp', Ha', Hd', Hl'.
    split_and!; try done; [lia|].
    rewrite simulate_day_villagers. intros i x' Hx'.
    rewrite list_lookup_fmap in Hx'.
    destruct (villagers v !! i) as [x|] eqn:Hx; [|done].
    injection Hx' as <-.
    destruct (round_fn_perfect v x Hp) as (-> & -> & -> & _).
    rewrite (Hstay i x Hx), orb_false_r. by apply Hstd.
Qed.

Lemma departure_round k d v :
  waiting_state k d v -> S d = k ->
  (simulate_day v).1 = seq 0 k /\ settled_state k (simulate_day v).2.
Proof.
  intros Hw Hday. pose proof Hw as (Hp & Ha & Hd & Hstd & Hk).
  split.
  - rewrite simulate_day_leaving. unfold positions.
    replace (length (villagers v))
      with (k + (length (villagers v) - k))%nat by lia.
    apply leaving_filter. intros i Hi. unfold departs_at.
    destruct (lookup_lt_is_Some_2 (villagers v) i ltac:(lia)) as [x Hx].
    rewrite Hx, (waiting_departs k d v i x Hw Hx). tauto.
  - destruct (simulate_day_fields v) as (Hp' & Ha' & Hd' & Hl').
    unfold settled_state. rewrite Hp', Ha', Hd', Hl'.
    split_and!; try done; [lia|].
    rewrite simulate_day_villagers. intros i x' Hx'.
    rewrite list_lookup_fmap in Hx'.
    destruct (villagers v !! i) as [x|] eqn:Hx; [|done].
    injection Hx' as <-.
    destruct (round_fn_perfect v x Hp) as (_ & -> & -> & ->).
    destruct (Hstd i x Hx) as (_ & Hc & Hl). rewrite Hc, Hl. simpl.
    pose proof (waiting_departs k d v i x Hw Hx) as Hdep.
    destruct (decide (i < k)%nat).
    + rewrite (proj2 Hdep) by done. repeat split. f_equal. lia.
    + destruct (departs v x); [|done]. destruct Hdep as [Hdep _].
      by destruct (Hdep eq_refl).
Qed.

Lemma settled_round k v :
  settled_state k v ->
  (simulate_day v).1 = [] /\ settled_state k (simulate_day v).2.
Proof.
  intros Hs. pose proof Hs as (Hp & Ha & Hd & Hk & Hst).
  split.
  - rewrite simulate_day_leaving. apply filter_none, Forall_forall.
    intros i _. unfold departs_at.
    destruct (villagers v !! i) as [x|] eqn:Hx; [|done].
    by rewrite (settled_departs k v i x Hs Hx).
  - destruct (simulate_day_fields v) as (Hp' & Ha' & Hd' & Hl').
    unfold settled_state. rewrite Hp', Ha', Hd', Hl'.
    split_and!; try done; [lia|].
    rewrite simulate_day_villagers. intros i x' Hx'.
    rewrite list_lookup_fmap in Hx'.
    destruct (villagers v !! i) as [x|] eqn:Hx; [|done].
    injection Hx' as <-.
    destruct (round_fn_perfect v x Hp) as (_ & -> & -> & ->).
    rewrite (settled_departs k v i x Hs Hx), orb_false_r.
    by apply Hst.
Qed.

Lemma waiting_days k v d :
  waiting_state k 0 v -> (d < k)%nat -> waiting_state k d (simulate_days d v).
Proof.
  intros Hw. induction d as [|d IH]; intros Hd; [done|].
  rewrite simulate_days_S. apply waiting_round; [apply IH; lia|done].
Qed.

Lemma settled_days k v m :
  waiting_state k 0 v -> (1 <= k)%nat ->
  settled_state k (simulate_days (k + m) v).
Proof.
  intros Hw Hk. induction m as [|m IH].
  - rewrite Nat.add_0_r. destruct k as [|k]; [lia|].
    rewrite simulate_days_S.
    apply (departure_round (S k) k); [|done]. apply waiting_days; [done|lia].
  - rewrite Nat.add_succ_r, simulate_days_S. by apply settled_round.
Qed.

Lemma make_announcement_waiting k v :
  reasoning_policy v = PerfectInductionPolicy ->
  current_day v = 0 ->
  standard k (villagers v) -> (k <= length (villagers v))%nat ->
  waiting_state k 0 (make_announcement v).
Proof. intros Hp Hd Hstd Hk. unfold waiting_state. simpl. by split_and!. Qed.

(** C1. A population built by [create_village] with [k >= 1] red-eyed and
    [n] blue-eyed villagers, run under [PerfectInductionPolicy] with the
    announcement made before the first round. The red-eyed villagers are
    those at the positions below [k]. Nobody is returned by the rounds
    1 .. k-1; round [k] returns exactly the red-eyed villagers, each
    stamped with [left_on_day = k]; no later round returns anybody, and a
    blue-eyed villager is present after every round. *)
Theorem closed_form_convergence (k n : nat) rp vt vts :
  (1 <= k)%nat ->
  default PerfectInductionPolicy rp = PerfectInductionPolicy ->
  (forall ts, vts = Some ts -> length ts = (k + n)%nat) ->
  exists v0,
    create_village (Z.of_nat k) (Z.of_nat n) rp vt vts = Ok v0
    /\ let v := make_announcement v0 in
       length (villagers v0) = (k + n)%nat
       /\ (forall i x, villagers v0 !! i = Some x ->
             eye_color x = RED <-> (i < k)%nat)
       /\ (forall d, (1 <= d < k)%nat -> leaving_on d v = [])
       /\ leaving_on k v = seq 0 k
       /\ (forall d, (k < d)%nat -> leaving_on d v = [])
       /\ (forall d i x,
             (k <= d)%nat -> villagers (simulate_days d v) !! i = Some x ->
             (i < k)%nat ->
             eye_color x = RED /\ has_left x = true
             /\ left_on_day x = Some (Z.of_nat k))
       /\ (forall d i x,
             villagers (simulate_days d v) !! i = Some x -> (k <= i)%nat ->
             eye_color x = BLUE /\ has_left x = false).
Proof.
  intros Hk Hrp Hts.
  destruct (create_village_standard (Z.of_nat k) (Z.of_nat n) rp vt vts)
    as (v0 & Hv0 & Hlen & Hstd & Hp & Ha & Hd & Hy); [lia|lia| |].
  { intros ts Heq. rewrite (Hts ts Heq). lia. }
  rewrite Nat2Z.id in Hstd. rewrite Hrp in Hp.
  assert (length (villagers v0) = (k + n)%nat) as Hlen' by lia.
  exists v0. split; [done|]. cbv zeta.
  assert (waiting_state k 0 (make_announcement v0)) as Hw.
  { apply make_announcement_waiting; try done. lia. }
  split_and!.
  - done.
  - intros i x Hx. destruct (Hstd i x Hx) as (_ & -> & _).
    by destruct (decide (i < k)%nat).
  - intros d Hd'. unfold leaving_on.
    apply (waiting_round k (pred d)); [|lia].
    apply waiting_days; [done|lia].
  - unfold leaving_on.
    apply (departure_round k (pred k)); [|lia].
    apply waiting_days; [done|lia].
  - intros d Hd'. unfold leaving_on.
    replace (pred d) with (k + (d - k - 1))%nat by lia.
    apply (settled_round k). by apply settled_days.
  - intros d i x Hd' Hx Hi.
    replace d with (k + (d - k))%nat in Hx by lia.
    destruct (settled_days k _ (d - k) Hw Hk) as (_ & _ & _ & _ & Hst).
    specialize (Hst i x Hx). by rewrite decide_True in Hst.
  - intros d i x Hx Hi.
    destruct (decide (d < k)%nat) as [Hd'|Hd'].
    + destruct (waiting_days k _ d Hw Hd') as (_ & _ & _ & Hstd' & _).
      destruct (Hstd' i x Hx) as (_ & Hc & Hl).
      by rewrite decide_False in Hc by lia.
    + replace d with (k + (d - k))%nat in Hx by lia.
      destruct (settled_days k _ (d - k) Hw Hk) as (_ & _ & _ & _ & Hst).
      specialize (Hst i x Hx). by rewrite decide_False in Hst by lia.
Qed.

(** ** Substrings and [strip] *)

Lemma startswith_spec p s : startswith p s = true <-> exists b, s = p ++ b.
Proof.
  revert s. induction p as [|c p IH]; intros s; simpl.
  - split; [by exists s|done].
  - destruct s as [|d s].
    + split; [done|]. by intros [b Hb].
    + rewrite andb_true_iff, N.eqb_eq, IH. split.
      * intros [-> [b ->]]. by exists b.
      * intros [b Hb]. injection Hb as -> ->. split; [done|by exists b].
Qed.

Lemma contains_spec p s : contains p s = true <-> occurs_in p s.
Proof.
  unfold occurs_in. induction s as [|d s IH]; simpl.
  - rewrite orb_false_r, startswith_spec. split.
    + intros [b Hb]. by exists [], b.
    + intros (a & b & Hab). destruct a as [|x a]; [by exists b|done].
  - rewrite orb_true_iff, startswith_spec, IH. split.
    + intros [[b Hb]|(a & b & Hab)].
      * by exists [], b.
      * exists (d :: a), b. by rewrite Hab.
    + intros (a & b & Hab). destruct a as [|x a].
      * left. by exists b.
      * right. injection Hab as -> ->. by exists a, b.
Qed.

Lemma any_in_spec ps s :
  any_in ps s = true <-> exists p, p ∈ ps /\ occurs_in p s.
Proof.
  unfold any_in. rewrite existsb_exists. split.
  - intros (p & Hin & Hp). exists p.
    by rewrite list_elem_of_In, <- contains_spec.
  - intros (p & Hin & Hp). exists p.
    by rewrite <- list_elem_of_In, contains_spec.
Qed.

Lemma lstrip_suffix s : exists w, s = w ++ lstrip s.
Proof.
  induction s as [|c s [w Hw]]; [by exists []|]. simpl.
  destruct (isspace c); [|by exists []].
  exists (c :: w). by rewrite Hw at 1.
Qed.

Lemma strip_occurs s : occurs_in (strip s) s.
Proof.
  unfold strip, rstrip.
  destruct (lstrip_suffix s) as [w Hw].
  destruct (lstrip_suffix (rev (lstrip s))) as [w' Hw'].
  exists w, (rev w'). rewrite Hw at 1. f_equal.
  rewrite <- rev_app_distr, <- Hw'. by rewrite rev_involutive.
Qed.

Lemma occurs_in_trans p s t : occurs_in p s -> occurs_in s t -> occurs_in p t.
Proof.
  intros (a & b & ->) (a' & b' & ->).
  exists (a' ++ a), (b ++ b'). by rewrite <- !app_assoc.
Qed.

Lemma lstrip_keeps a p b :
  solid p -> exists a', lstrip (a ++ p ++ b) = a' ++ p ++ b.
Proof.
  intros [Hne Hp]. induction a as [|x a [a' IH]].
  - exists []. destruct p as [|c p]; [done|]. simpl.
    apply Forall_cons in Hp as [-> _]. done.
  - simpl. destruct (isspace x); [by exists a'|by exists (x :: a)].
Qed.

Lemma solid_rev p : solid p -> solid (rev p).
Proof.
  intros [Hne Hp]. split.
  - intros Hrev. apply Hne. by rewrite <- (rev_involutive p), Hrev.
  - apply Forall_forall. intros c Hc. rewrite Forall_forall in Hp.
    apply Hp. apply list_elem_of_In. apply list_elem_of_In in Hc.
    by apply in_rev.
Qed.

(** [strip] never removes a part of an occurrence of a solid text. *)
Lemma strip_keeps p s : solid p -> occurs_in p s -> occurs_in p (strip s).
Proof.
  intros Hp (a & b & ->). unfold strip, rstrip.
  destruct (lstrip_keeps a p b Hp) as [a' ->].
  rewrite !rev_app_distr, <- app_assoc.
  destruct (lstrip_keeps (rev b) (rev p) (rev a') (solid_rev p Hp))
    as [b' ->].
  exists a', (rev b').
  by rewrite !rev_app_distr, !rev_involutive, <- app_assoc.
Qed.

Lemma solidb_solid p : solidb p = true -> solid p.
Proof.
  destruct p as [|c p]; [done|]. unfold solidb. intros Hall.
  split; [done|]. apply Forall_forall. intros d Hd.
  rewrite forallb_forall in Hall. apply negb_true_iff, Hall.
  by apply list_elem_of_In.
Qed.

Lemma phrases_solid p :
  p ∈ neg_phrases ++ deny_red_phrases ++ positive_red_phrases
      ++ certainty_markers ->
  solid p.
Proof.
  intros Hin. apply solidb_solid.
  assert (forallb solidb
            (neg_phrases ++ deny_red_phrases ++ positive_red_phrases
             ++ certainty_markers) = true) as Hall by (vm_compute; reflexivity).
  rewrite forallb_forall in Hall. by apply Hall, list_elem_of_In.
Qed.

Lemma any_in_strip ps s :
  (forall p, p ∈ ps -> solid p) ->
  any_in ps (strip s) = any_in ps s.
Proof.
  intros Hsolid. apply eq_true_iff_eq. rewrite !any_in_spec.
  split; intros (p & Hin & Hp); exists p; (split; [done|]).
  - eapply occurs_in_trans; [exact Hp|apply strip_occurs].
  - apply strip_keeps; [by apply Hsolid|done].
Qed.

(** ** The force-leave rule *)

Lemma phrase_lists_solid :
  (forall p, p ∈ neg_phrases -> solid p)
  /\ (forall p, p ∈ deny_red_phrases -> solid p)
  /\ (forall p, p ∈ positive_red_phrases -> solid p)
  /\ (forall p, p ∈ certainty_markers -> solid p).
Proof.
  split_and!; intros p Hp; apply phrases_solid;
    rewrite !elem_of_app; tauto.
Qed.

(** The textual heuristic, read on the justification as given. *)
Lemma reason_implies_certain_red_eye_iff reason :
  _reason_implies_certain_red_eye reason = true <->
  any_in neg_phrases reason = false
  /\ any_in deny_red_phrases reason = false
  /\ any_in positive_red_phrases reason = true
  /\ any_in certainty_markers reason = true.
Proof.
  destruct phrase_lists_solid as (Hn & Hd & Hp & Hc).
  rewrite <- (any_in_strip neg_phrases reason Hn).
  rewrite <- (any_in_strip deny_red_phrases reason Hd).
  rewrite <- (any_in_strip positive_red_phrases reason Hp).
  rewrite <- (any_in_strip certainty_markers reason Hc).
  unfold _reason_implies_certain_red_eye.
  destruct (strip reason) as [|c r] eqn:Hr.
  - split; [done|]. intros (_ & _ & Hpos & _). by vm_compute in Hpos.
  - destruct (any_in neg_phrases (c :: r)),
      (any_in deny_red_phrases (c :: r)),
      (any_in positive_red_phrases (c :: r)),
      (any_in certainty_markers (c :: r)); simpl; intuition congruence.
Qed.

(** C3. The enforcement step [_should_force_leave].
    With a confidence: a decision of false whose confidence is at least the
    threshold is flipped to true and marked as forced; in every other case
    the decision is kept and not marked.
    Without a confidence: the decision is flipped only if the
    justification contains a first-person statement of being red-eyed and
    a certainty marker (and the decision was false); when it is not flipped
    it is kept; and a justification that contains one of the hedge or
    denial phrases is never flipped, whatever else it contains. *)
Theorem force_leave_rule leave0 reason threshold :
  (forall c, float_ge c threshold = true ->
     _should_force_leave false (Some c) reason threshold = (true, true))
  /\ (forall c, float_ge c threshold = false \/ leave0 = true ->
        _should_force_leave leave0 (Some c) reason threshold = (leave0, false))
  /\ (forall final forced,
        _should_force_leave leave0 None reason threshold = (final, forced) ->
        (forced = true ->
           final = true /\ leave0 = false
           /\ (exists p, p ∈ positive_red_phrases /\ occurs_in p reason)
           /\ (exists m, m ∈ certainty_markers /\ occurs_in m reason))
        /\ (forced = false -> final = leave0))
  /\ (forall p, p ∈ neg_phrases ++ deny_red_phrases -> occurs_in p reason ->
        _should_force_leave leave0 None reason threshold = (leave0, false)).
Proof.
  split_and!.
  - intros c Hc. unfold _should_force_leave. by rewrite Hc.
  - intros c [Hc| ->]; unfold _should_force_leave.
    + by rewrite Hc.
    + by rewrite andb_false_r.
  - intros final forced. unfold _should_force_leave.
    destruct (_reason_implies_certain_red_eye reason) eqn:Hr; simpl.
    + apply reason_implies_certain_red_eye_iff in Hr as (_ & _ & Hp & Hm).
      apply any_in_spec in Hp, Hm.
      destruct leave0; simpl; intros [= <- <-]; by split.
    + intros [= <- <-]. by split.
  - intros p Hp Hocc. unfold _should_force_leave.
    assert (_reason_implies_certain_red_eye reason = false) as ->; [|done].
    apply not_true_is_false.
    rewrite reason_implies_certain_red_eye_iff.
    intros (Hn & Hd & _).
    apply elem_of_app in Hp as [Hp|Hp].
    + assert (any_in neg_phrases reason = true) as Hin
        by (apply any_in_spec; by exists p).
      congruence.
    + assert (any_in deny_red_phrases reason = true) as Hin
        by (apply any_in_spec; by exists p).
      congruence.
Qed.

(** The cases of [tests/test_reasoning.py]. *)
Example force_leave_by_confidence :
  _should_force_leave false (Some 0.97%float)
    (u "我还不确定，但我猜是红眼") certainty_threshold = (true, true)
  /\ _should_force_leave false (Some 0.50%float)
       (u "我确定我是红眼") certainty_threshold = (false, false).
Proof. split; vm_compute; reflexivity. Qed.

Example reason_heuristic_cases :
  _reason_implies_certain_red_eye (u "我确定我是红眼，所以今晚离开") = true
  /\ _reason_implies_certain_red_eye (u "我已确定自己是红眼睛，必须走") = true
  /\ _reason_implies_certain_red_eye (u "我确定自己不是红眼，所以不走") = false
  /\ _reason_implies_certain_red_eye (u "我不认为自己是红眼睛，今晚不离开") = false
  /\ _reason_implies_certain_red_eye (u "我无法确定自己是不是红眼") = false
  /\ _reason_implies_certain_red_eye (u "我是红眼，但我也可能错") = false
  /\ _reason_implies_certain_red_eye (u "我是红眼睛（只是猜测）") = false.
Proof. repeat split; vm_compute; reflexivity. Qed.

(** ** Searching for a character *)

Lemma startswith_char c d s :
  startswith [c] (d :: s) = bool_decide (c = d).
Proof.
  simpl. rewrite andb_true_r.
  destruct (N.eqb_spec c d);
    [by rewrite bool_decide_eq_true_2|by rewrite bool_decide_eq_false_2].
Qed.

Lemma find_char_none c s i : c ∉ s -> find_from [c] s i = -1.
Proof.
  revert i. induction s as [|d s IH]; intros i Hc; [done|].
  apply not_elem_of_cons in Hc as [Hne Hc].
  cbn [find_from]. rewrite startswith_char, bool_decide_eq_false_2 by done.
  by apply IH.
Qed.







(** ** What [_extract_first_json_object] returns *)






(** An object surrounded by prose without braces is extracted. *)
Example extract_object_in_prose :
  _extract_first_json_object object_in_prose
  = Ok [(u "leave", JBool true); (u "confidence_red", JFloat (u "0.97"))].
Proof. by vm_compute. Qed.

(** ** The theorems at concrete populations *)

Lemma closed_form_convergence_witness :
  exists v0,
    create_village (Z.of_nat 2) (Z.of_nat 1) None (u "dummy") None = Ok v0
    /\ let v := make_announcement v0 in
       length (villagers v0) = (2 + 1)%nat
       /\ (forall i x, villagers v0 !! i = Some x ->
             eye_color x = RED <-> (i < 2)%nat)
       /\ (forall d, (1 <= d < 2)%nat -> leaving_on d v = [])
       /\ leaving_on 2 v = seq 0 2
       /\ (forall d, (2 < d)%nat -> leaving_on d v = [])
       /\ (forall d i x,
             (2 <= d)%nat -> villagers (simulate_days d v) !! i = Some x ->
             (i < 2)%nat ->
             eye_color x = RED /\ has_left x = true
             /\ left_on_day x = Some (Z.of_nat 2))
       /\ (forall d i x,
             villagers (simulate_days d v) !! i = Some x -> (2 <= i)%nat ->
             eye_color x = BLUE /\ has_left x = false).
Proof.
  apply (closed_form_convergence 2 1 None (u "dummy") None).
  - lia.
  - reflexivity.
  - intros ts Hts. discriminate Hts.
Defined.

Lemma no_announcement_no_departure_witness :
  leaving_on 4 (sample_village 2 1 false) = []
  /\ Forall (fun x => has_left x = false)
       (villagers (simulate_days 3 (sample_village 2 1 false))).
Proof.
  apply (no_announcement_no_departure (sample_village 2 1 false) 3).
  - reflexivity.
  - reflexivity.
  - vm_compute. repeat constructor.
Defined.

Lemma round_order_irrelevant_witness :
  let v := sample_village 2 1 true in
  let orders1 := [[0; 1; 2]; [0; 1; 2]]%nat in
  let orders2 := [[2; 0; 1]; [1; 2; 0]]%nat in
  Forall2 (≡ₚ) (simulate_days_in orders1 v).1 (simulate_days_in orders2 v).1
  /\ same_state (simulate_days_in orders1 v).2 (simulate_days_in orders2 v).2
  /\ (forall order, order ≡ₚ positions (villagers v) ->
        (simulate_day_in order v).1
        = filter (fun i => departs_at v i = true) order).
Proof.
  apply (round_order_irrelevant (sample_village 2 1 true)
           [[0; 1; 2]; [0; 1; 2]]%nat [[2; 0; 1]; [1; 2; 0]]%nat).
  - reflexivity.
  - repeat (apply Forall_cons; split); try apply Forall_nil;
      apply (bool_decide_unpack _); vm_compute; exact I.
  - repeat (apply Forall_cons; split); try apply Forall_nil;
      apply (bool_decide_unpack _); vm_compute; exact I.
Defined.

Lemma departed_is_final_witness :
  exists x,
    villagers (simulate_days 1 (sample_village 1 1 true)) !! 0%nat = Some x
    /\ has_left x = true
    /\ villagers (simulate_days (1 + 2) (sample_village 1 1 true)) !! 0%nat
       = Some x.
Proof.
  eexists. split; [vm_compute; reflexivity|]. split; [reflexivity|].
  apply (departed_is_final (sample_village 1 1 true) 1 2 0).
  - vm_compute. reflexivity.
  - reflexivity.
Defined.

(** * Further properties *)

(** ** The implementations of the perfect-induction rule agree *)

(** Appending an entry changes the log alone, whatever the entry. *)
Lemma log_append_same_shape m1 m2 v :
  let a := log_append m1 v in
  let b := log_append m2 v in
  id a = id b /\ eye_color a = eye_color b /\ name a = name b
  /\ villager_type a = villager_type b
  /\ observed_red_eyes a = observed_red_eyes b
  /\ has_left a = has_left b /\ left_on_day a = left_on_day b
  /\ observed_left_yesterday a = observed_left_yesterday b
  /\ observed_left_total a = observed_left_total b
  /\ length (reasoning_log a) = length (reasoning_log b).
Proof.
  unfold log_append. cbn [id eye_color name villager_type observed_red_eyes
    has_left left_on_day observed_left_yesterday observed_left_total
    reasoning_log].
  split_and!; try reflexivity. by rewrite !length_app.
Qed.

(** X1. [Villager.reason_and_decide], [PerfectInductionPolicy.decide] and
    [_perfect_induction_decide_no_log] take the same decision on every
    villager, day and flag; the first two leave the villager in the same
    state up to the wording of the log entry they append. *)
Theorem perfect_induction_variants_agree villager day announced :
  (reason_and_decide villager day announced).1
  = (PerfectInductionPolicy villager day announced).1
  /\ _perfect_induction_decide_no_log villager day announced
     = (PerfectInductionPolicy villager day announced).1
  /\ let a := (reason_and_decide villager day announced).2 in
     let b := (PerfectInductionPolicy villager day announced).2 in
     id a = id b /\ eye_color a = eye_color b /\ name a = name b
     /\ villager_type a = villager_type b
     /\ observed_red_eyes a = observed_red_eyes b
     /\ has_left a = has_left b /\ left_on_day a = left_on_day b
     /\ observed_left_yesterday a = observed_left_yesterday b
     /\ observed_left_total a = observed_left_total b
     /\ length (reasoning_log a) = length (reasoning_log b).
Proof.
  split; [|split; [symmetry; apply PerfectInductionPolicy_no_log|]];
    unfold reason_and_decide, PerfectInductionPolicy, _is_blue; cbv zeta;
    destruct (has_left villager), announced, (eye_color villager);
    cbn [negb]; rewrite ?bool_decide_eq_false_2, ?bool_decide_eq_true_2 by done;
    repeat match goal with
           | |- context [if ?c then _ else _] => destruct c
           end;
    cbn [fst snd];
    first [reflexivity|apply log_append_same_shape|by split_and!].
Qed.

(** ** The weaker policies, decision by decision *)

Lemma BoundedInductionPolicy_decision max_k villager day announced :
  (BoundedInductionPolicy max_k villager day announced).1
  = (PerfectInductionPolicy villager day announced).1
    && (observed_red_eyes villager <=? max_k).
Proof.
  unfold BoundedInductionPolicy, PerfectInductionPolicy. cbv zeta.
  destruct (has_left villager); [done|].
  destruct announced; simpl; [|done].
  destruct (_is_blue villager); [done|].
  destruct (Z.eqb_spec (observed_red_eyes villager) 0) as [->|Hobs].
  - destruct (day =? 1), (0 <=? max_k); done.
  - rewrite Z.leb_antisym.
    destruct (max_k <? observed_red_eyes villager); simpl.
    + by rewrite andb_false_r.
    + rewrite andb_true_r.
      destruct (day <? observed_red_eyes villager + 1); [done|].
      by destruct (day =? observed_red_eyes villager + 1).
Qed.

(** X2. [BoundedInductionPolicy(max_k)] leaves exactly when
    [PerfectInductionPolicy] does and the observed count is at most
    [max_k]. *)
Theorem bounded_induction_decision max_k villager day announced :
  (BoundedInductionPolicy max_k villager day announced).1
  = (PerfectInductionPolicy villager day announced).1
    && (observed_red_eyes villager <=? max_k).
Proof. apply BoundedInductionPolicy_decision. Qed.

(** A draw that is not negative is not below a rate of zero. *)
Lemma float_lt_zero r : float_ge r 0%float = true -> float_lt r 0%float = false.
Proof.
  unfold float_ge, float_lt.
  rewrite FloatAxioms.leb_spec, FloatAxioms.ltb_spec.
  change (FloatOps.Prim2SF 0%float) with (SpecFloat.S754_zero false).
  destruct (FloatOps.Prim2SF r) as [s|s| |s m e]; try done; by destruct s.
Qed.

Lemma FalliblePolicy_decision random_of mistake_rate seed inner
    villager day announced :
  ((FalliblePolicy random_of mistake_rate seed inner villager day announced).1
   = true ->
   has_left villager = false /\ (inner villager day announced).1 = true)
  /\ ((forall s, float_ge (random_of s) 0%float = true) ->
      (FalliblePolicy random_of 0%float seed inner villager day announced).1
      = negb (has_left villager) && (inner villager day announced).1)
  /\ ((forall s, float_lt (random_of s) 1%float = true) ->
      (FalliblePolicy random_of 1%float seed inner villager day announced).1
      = false).
Proof.
  unfold FalliblePolicy. split_and!.
  - destruct (has_left villager); [done|].
    destruct (inner villager day announced) as [[] v1]; [|done].
    intros _. done.
  - intros Hrange. destruct (has_left villager); [done|].
    destruct (inner villager day announced) as [[] v1]; [|done].
    cbn [negb andb fst]. by rewrite (float_lt_zero _ (Hrange _)).
  - intros Hrange. destruct (has_left villager); [done|].
    destruct (inner villager day announced) as [[] v1]; [|done].
    cbn [negb]. by rewrite Hrange.
Qed.

(** X3. [FalliblePolicy] never adds a departure: it returns true only if
    the villager is present and the inner policy returned true. When the
    draws lie in [0, 1), as those of [random()] do, a mistake rate of 0
    leaves the inner decisions unchanged and a mistake rate of 1 turns
    every decision into false. *)
Theorem fallible_only_suppresses random_of mistake_rate seed inner
    villager day announced :
  ((FalliblePolicy random_of mistake_rate seed inner villager day announced).1
   = true ->
   has_left villager = false /\ (inner villager day announced).1 = true)
  /\ ((forall s, float_ge (random_of s) 0%float = true) ->
      (FalliblePolicy random_of 0%float seed inner villager day announced).1
      = negb (has_left villager) && (inner villager day announced).1)
  /\ ((forall s, float_lt (random_of s) 1%float = true) ->
      (FalliblePolicy random_of 1%float seed inner villager day announced).1
      = false).
Proof. apply FalliblePolicy_decision. Qed.

(** ** The deterministic fallback of the external-delegate policy *)

(** X4. [_standard_proof_public_summary] decides as
    [_perfect_induction_decide_no_log] does, reports confidence 1.0 when
    it leaves and 0.0 when it stays, and gives at most three key points;
    [_should_force_leave] with the default threshold keeps its decision
    and never marks it as forced. *)
Theorem standard_proof_summary_decision villager day announced :
  let '(leave0, confidence, reason, key_points) :=
    _standard_proof_public_summary villager day announced in
  leave0 = _perfect_induction_decide_no_log villager day announced
  /\ confidence = (if leave0 then 1%float else 0%float)
  /\ (length key_points <= 3)%nat
  /\ _should_force_leave leave0 (Some confidence) reason certainty_threshold
     = (leave0, false).
Proof.
  unfold _standard_proof_public_summary. cbv zeta.
  assert (float_ge 0 certainty_threshold = false) as H0 by (by vm_compute).
  destruct (has_left villager) eqn:Hl.
  { unfold _perfect_induction_decide_no_log, _should_force_leave.
    rewrite Hl, H0. split_and!; try done. simpl. lia. }
  destruct announced; cbn [negb].
  2:{ unfold _perfect_induction_decide_no_log, _should_force_leave.
      rewrite Hl, H0. split_and!; try done. simpl. lia. }
  destruct (_perfect_induction_decide_no_log villager day true);
    destruct (observed_red_eyes villager =? 0);
    unfold _should_force_leave; rewrite ?H0, ?andb_false_r;
    split_and!; try done; simpl; lia.
Qed.

(** ** More on the force-leave rule *)

(** X5. [_should_force_leave] never cancels a departure: the final
    decision is the given one or a forced one, and a decision that was
    already true is returned unchanged and unmarked. *)
Theorem force_leave_never_cancels leave0 confidence reason threshold :
  let '(final, forced) :=
    _should_force_leave leave0 confidence reason threshold in
  final = leave0 || forced
  /\ (forced = true -> leave0 = false)
  /\ (leave0 = true -> final = true /\ forced = false).
Proof.
  unfold _should_force_leave.
  destruct confidence as [c|];
    [destruct (float_ge c threshold)
    |destruct (_reason_implies_certain_red_eye reason)];
    destruct leave0; done.
Qed.

(** X6. Without a confidence, a decision of false is flipped exactly when
    the justification contains none of the hedge phrases, none of the
    denial phrases, one of the first-person statements of being red-eyed
    and one of the certainty markers; in particular an empty or blank
    justification is never flipped. *)
Theorem force_leave_by_text_iff reason threshold :
  (_should_force_leave false None reason threshold = (true, true) <->
   (forall p, p ∈ neg_phrases ++ deny_red_phrases -> ~ occurs_in p reason)
   /\ (exists p, p ∈ positive_red_phrases /\ occurs_in p reason)
   /\ (exists m, m ∈ certainty_markers /\ occurs_in m reason))
  /\ (strip reason = [] ->
      _should_force_leave false None reason threshold = (false, false)).
Proof.
  split.
  - unfold _should_force_leave. rewrite andb_true_r.
    destruct (_reason_implies_certain_red_eye reason) eqn:Hr.
    + apply reason_implies_certain_red_eye_iff in Hr as (Hn & Hd & Hp & Hm).
      split; [intros _|done]. split_and!.
      * intros p Hin Hocc. apply elem_of_app in Hin as [Hin|Hin].
        -- assert (any_in neg_phrases reason = true) as Ht
             by (apply any_in_spec; by exists p).
           congruence.
        -- assert (any_in deny_red_phrases reason = true) as Ht
             by (apply any_in_spec; by exists p).
           congruence.
      * by apply any_in_spec.
      * by apply any_in_spec.
    + split; [done|]. intros (Hnone & Hp & Hm). exfalso.
      assert (_reason_implies_certain_red_eye reason = true) as Ht;
        [|congruence].
      apply reason_implies_certain_red_eye_iff. split_and!.
      * apply not_true_is_false. intros Ht.
        apply any_in_spec in Ht as (p & Hin & Hocc).
        apply (Hnone p); [apply elem_of_app; by left|done].
      * apply not_true_is_false. intros Ht.
        apply any_in_spec in Ht as (p & Hin & Hocc).
        apply (Hnone p); [apply elem_of_app; by right|done].
      * by apply any_in_spec.
      * by apply any_in_spec.
  - intros Hblank. unfold _should_force_leave, _reason_implies_certain_red_eye.
    by rewrite Hblank.
Qed.

(** ** The deterministic policies only append to the reasoning log *)

Lemma only_logs_refl x : only_logs x x.
Proof. by split_and!. Qed.

Lemma only_logs_append msg x : only_logs x (log_append msg x).
Proof.
  unfold only_logs, log_append. cbn. split_and!; try done.
  by apply prefix_app_r.
Qed.

Lemma only_logs_trans x y z : only_logs x y -> only_logs y z -> only_logs x z.
Proof.
  unfold only_logs. intros Hxy Hyz. destruct_and!.
  split_and!; try congruence. by etrans.
Qed.

Ltac frame_cases :=
  repeat match goal with
         | |- context [if ?c then _ else _] => destruct c
         end;
  cbn [snd]; first [apply only_logs_refl | apply only_logs_append].

Lemma PerfectInductionPolicy_frames : frames PerfectInductionPolicy.
Proof. intros x day a. unfold PerfectInductionPolicy. cbv zeta. frame_cases. Qed.

Lemma NoReasoningPolicy_frames : frames NoReasoningPolicy.
Proof. intros x day a. unfold NoReasoningPolicy. frame_cases. Qed.

Lemma BoundedInductionPolicy_frames max_k : frames (BoundedInductionPolicy max_k).
Proof. intros x day a. unfold BoundedInductionPolicy. cbv zeta. frame_cases. Qed.

Lemma MaxDayReasoningPolicy_frames max_day inner :
  frames inner -> frames (MaxDayReasoningPolicy max_day inner).
Proof.
  intros Hin x day a. unfold MaxDayReasoningPolicy.
  destruct (has_left x); [apply only_logs_refl|].
  destruct (max_day <? day); [apply only_logs_append|apply Hin].
Qed.

Lemma FalliblePolicy_frames random_of rate seed inner :
  frames inner -> frames (FalliblePolicy random_of rate seed inner).
Proof.
  intros Hin x day a. unfold FalliblePolicy.
  destruct (has_left x); [apply only_logs_refl|].
  specialize (Hin x day a).
  destruct (inner x day a) as [[] x1]; cbn [negb snd] in *; [|done].
  destruct (float_lt _ rate); cbn [snd]; [|done].
  eapply only_logs_trans; [exact Hin|apply only_logs_append].
Qed.

Lemma PolicyByVillagerType_frames mapping default :
  Forall (fun kv => frames kv.2) mapping ->
  (forall p, default = Some p -> frames p) ->
  frames (PolicyByVillagerType mapping default).
Proof.
  intros Hmap Hdef x day a. unfold PolicyByVillagerType. cbv zeta.
  assert (forall key p, dict_get mapping key = Some p -> frames p) as Hget.
  { intros key. induction Hmap as [|[k q] mapping Hq _ IH]; [done|].
    intros p. simpl. case_bool_decide; [by intros [= <-]|apply IH]. }
  destruct (dict_get mapping (villager_type x)) as [p|] eqn:Hp.
  - by apply (Hget _ p Hp).
  - destruct default as [p|]; [by apply Hdef|].
    apply PerfectInductionPolicy_frames.
Qed.

(** X7. Every deterministic policy of [reasoning.py] leaves the
    villager's identity, eye colour, name, type tag, observation, group
    statistics, departed flag and departure round as they are, and only
    ever appends to its reasoning log; the wrapping policies do so
    whenever the policies they wrap do. *)
Theorem deterministic_policies_frame :
  frames PerfectInductionPolicy
  /\ frames NoReasoningPolicy
  /\ (forall max_k, frames (BoundedInductionPolicy max_k))
  /\ (forall max_day inner,
        frames inner -> frames (MaxDayReasoningPolicy max_day inner))
  /\ (forall random_of rate seed inner,
        frames inner -> frames (FalliblePolicy random_of rate seed inner))
  /\ (forall mapping default,
        Forall (fun kv => frames kv.2) mapping ->
        (forall p, default = Some p -> frames p) ->
        frames (PolicyByVillagerType mapping default)).
Proof.
  split_and!.
  - apply PerfectInductionPolicy_frames.
  - apply NoReasoningPolicy_frames.
  - apply BoundedInductionPolicy_frames.
  - apply MaxDayReasoningPolicy_frames.
  - apply FalliblePolicy_frames.
  - apply PolicyByVillagerType_frames.
Qed.

(** ** A round under a policy that only logs *)

Lemma refresh_only_changes_context v x :
  id (refresh v x) = id x /\ eye_color (refresh v x) = eye_color x
  /\ name (refresh v x) = name x
  /\ villager_type (refresh v x) = villager_type x
  /\ has_left (refresh v x) = has_left x
  /\ left_on_day (refresh v x) = left_on_day x
  /\ reasoning_log (refresh v x) = reasoning_log x.
Proof. by destruct x. Qed.

Lemma round_fn_frames v x :
  frames (reasoning_policy v) ->
  id (round_fn v x) = id x
  /\ eye_color (round_fn v x) = eye_color x
  /\ name (round_fn v x) = name x
  /\ villager_type (round_fn v x) = villager_type x
  /\ reasoning_log x `prefix_of` reasoning_log (round_fn v x)
  /\ has_left (round_fn v x) = has_left x || departs v x
  /\ left_on_day (round_fn v x)
     = if departs v x then Some (current_day v + 1) else left_on_day x.
Proof.
  intros Hp. unfold round_fn, departs.
  destruct (has_left x) eqn:Hl; [by split_and!|]. cbv zeta.
  destruct (Hp (refresh v x) (current_day v + 1) (announcement_made v))
    as (Hi & Hc & Hn & Ht & _ & Hh & Hd & _ & _ & Hlog).
  destruct (refresh_only_changes_context v x)
    as (Hi' & Hc' & Hn' & Ht' & Hh' & Hd' & Hlog').
  destruct (reasoning_policy v (refresh v x) (current_day v + 1)
              (announcement_made v)) as [b y]. cbn [fst snd negb andb] in *.
  rewrite Hlog' in Hlog.
  destruct b; cbn; split_and!; congruence.
Qed.

(** X8. Under a policy that only logs, [simulate_day] never changes who
    the villagers are: after any number of rounds every position holds a
    villager with the same identifier, eye colour, name and type tag, whose
    reasoning log extends the one it had, and the red and blue counts of
    the village are unchanged. *)
Theorem rounds_keep_identities v n :
  frames (reasoning_policy v) ->
  Forall2 (fun x y =>
             id y = id x /\ eye_color y = eye_color x /\ name y = name x
             /\ villager_type y = villager_type x
             /\ reasoning_log x `prefix_of` reasoning_log y)
    (villagers v) (villagers (simulate_days n v))
  /\ get_red_eye_count (simulate_days n v) = get_red_eye_count v
  /\ get_blue_eye_count (simulate_days n v) = get_blue_eye_count v.
Proof.
  intros Hp.
  assert (Forall2 (fun x y =>
             id y = id x /\ eye_color y = eye_color x /\ name y = name x
             /\ villager_type y = villager_type x
             /\ reasoning_log x `prefix_of` reasoning_log y)
            (villagers v) (villagers (simulate_days n v))) as Hall.
  { induction n as [|n IH].
    - apply Forall_Forall2_diag, Forall_forall. intros x _. by split_and!.
    - rewrite simulate_days_S, simulate_day_villagers.
      apply Forall2_fmap_r.
      eapply Forall2_impl; [exact IH|].
      intros x y (Hi & Hc & Hn & Ht & Hlog). simpl.
      destruct (round_fn_frames (simulate_days n v) y)
        as (Hi' & Hc' & Hn' & Ht' & Hlog' & _).
      { destruct (simulate_days_fields n v) as (-> & _). exact Hp. }
      split_and!; try congruence. by etrans. }
  split; [done|].
  assert (eye_color <$> villagers (simulate_days n v)
          = eye_color <$> villagers v) as Hcolors.
  { apply list_eq_Forall2, Forall2_fmap, Forall2_flip.
    eapply Forall2_impl; [exact Hall|]. by intros x y (_ & ? & _). }
  assert (forall c l l', eye_color <$> l = eye_color <$> l' ->
            length (filter (fun x => eye_color x = c) l)
            = length (filter (fun x => eye_color x = c) l')) as Hcount.
  { intros c l. induction l as [|x l IH]; intros [|y l'] Heq; try done.
    injection Heq as Hxy Heq. rewrite !filter_cons, Hxy.
    destruct (decide (eye_color y = c)); simpl; by rewrite (IH l' Heq). }
  unfold get_red_eye_count, get_blue_eye_count.
  by rewrite !(Hcount _ _ _ Hcolors).
Qed.


Lemma rounds_keep_identities_witness :
  Forall2 (fun x y =>
             id y = id x /\ eye_color y = eye_color x /\ name y = name x
             /\ villager_type y = villager_type x
             /\ reasoning_log x `prefix_of` reasoning_log y)
    (villagers (sample_village 2 1 true))
    (villagers (simulate_days 3 (sample_village 2 1 true)))
  /\ get_red_eye_count (simulate_days 3 (sample_village 2 1 true))
     = get_red_eye_count (sample_village 2 1 true)
  /\ get_blue_eye_count (simulate_days 3 (sample_village 2 1 true))
     = get_blue_eye_count (sample_village 2 1 true).
Proof.
  apply (rounds_keep_identities (sample_village 2 1 true) 3).
  apply PerfectInductionPolicy_frames.
Defined.

(** X9. Under a policy that only logs, [simulate_day] keeps departures
    consistently recorded: a villager has a departure round exactly when it
    has departed, and that round lies between 1 and the current round. *)
Theorem rounds_keep_departures_recorded v n :
  frames (reasoning_policy v) ->
  departures_recorded v ->
  departures_recorded (simulate_days n v).
Proof.
  intros Hp Hrec. induction n as [|n [Hday IH]]; [done|].
  rewrite simulate_days_S.
  destruct (simulate_day_fields (simulate_days n v)) as (_ & _ & Hd & _).
  split; [lia|]. rewrite Hd, simulate_day_villagers.
  intros y Hy. apply list_elem_of_fmap in Hy as (x & -> & Hx).
  specialize (IH x Hx).
  destruct (round_fn_frames (simulate_days n v) x)
    as (_ & _ & _ & _ & _ & Hh & Hl).
  { destruct (simulate_days_fields n v) as (-> & _). exact Hp. }
  rewrite Hl, Hh.
  destruct (departs (simulate_days n v) x) eqn:Hdep.
  - rewrite orb_true_r. split; [done|lia].
  - rewrite orb_false_r. destruct (left_on_day x) as [d|]; [|done].
    destruct IH as [? ?]. split; [done|lia].
Qed.

Lemma rounds_keep_departures_recorded_witness :
  departures_recorded (simulate_days 3 (sample_village 2 1 true)).
Proof.
  apply (rounds_keep_departures_recorded (sample_village 2 1 true) 3).
  - apply PerfectInductionPolicy_frames.
  - split; [by vm_compute|].
    intros x Hx. vm_compute in Hx.
    repeat (apply elem_of_cons in Hx as [->|Hx]; [by vm_compute|]).
    by apply elem_of_nil in Hx.
Defined.

(** ** What a round returns and records *)

(** X10. The list returned by [simulate_day] has no duplicates and holds
    exactly the villagers that were present and for which the policy,
    called on the refreshed villager, returned true; each of them is
    departed after the round and stamped with the new round number, and
    the village remembers how many they were. *)
Theorem simulate_day_returned v :
  NoDup (simulate_day v).1
  /\ (forall i,
        i ∈ (simulate_day v).1 <->
        exists x,
          villagers v !! i = Some x /\ has_left x = false
          /\ (reasoning_policy v (refresh v x) (current_day v + 1)
                (announcement_made v)).1 = true)
  /\ (forall i,
        i ∈ (simulate_day v).1 ->
        exists y,
          villagers (simulate_day v).2 !! i = Some y
          /\ has_left y = true /\ left_on_day y = Some (current_day v + 1))
  /\ left_yesterday_count (simulate_day v).2
     = Z.of_nat (length (simulate_day v).1)
  /\ current_day (simulate_day v).2 = current_day v + 1.
Proof.
  split_and!.
  - rewrite simulate_day_leaving. apply NoDup_filter, NoDup_seq.
  - intros i. rewrite simulate_day_leaving, list_elem_of_filter.
    unfold departs_at, departs, positions. rewrite elem_of_seq. split.
    + intros [Hdep _]. destruct (villagers v !! i) as [x|]; [|done].
      apply andb_true_iff in Hdep as [Hl Hdec]. apply negb_true_iff in Hl.
      by exists x.
    + intros (x & Hx & Hl & Hdec). rewrite Hx, Hl, Hdec.
      apply lookup_lt_Some in Hx. split; [done|lia].
  - intros i Hi. destruct (simulate_day_stamps v i Hi)
      as (x & y & _ & _ & Hy & Hl & Hd).
    by exists y.
  - by destruct (simulate_day_in_fields (positions (villagers v)) v)
      as (_ & _ & _ & _ & Hy).
  - by destruct (simulate_day_fields v) as (_ & _ & Hd & _).
Qed.

Lemma leave_loop_log day leaving :
  forall vs log,
    (forall i, i ∈ leaving -> (i < length vs)%nat) ->
    exists entries,
      (for_each leaving (leave_step day) (vs, log)).2 = log ++ entries
      /\ length entries = length leaving.
Proof.
  induction leaving as [|i leaving IH]; intros vs log Hvalid.
  - exists []. by rewrite app_nil_r.
  - rewrite for_each_cons. unfold leave_step at 2. cbn [fst snd].
    destruct (lookup_lt_is_Some_2 vs i) as [x Hx]; [apply Hvalid; left|].
    rewrite Hx.
    destruct (IH (<[i:=leave x day]> vs) (log ++ [Log.left (leave x day)]))
      as (entries & Hlog & Hlen).
    { intros j Hj. rewrite length_insert. apply Hvalid. by right. }
    exists (Log.left (leave x day) :: entries).
    rewrite Hlog, <- app_assoc. split; [done|]. simpl. by rewrite Hlen.
Qed.

Lemma simulate_day_log_entries v :
  exists entries,
    daily_log (simulate_day v).2
    = daily_log v ++ Log.day_header (current_day v + 1) :: entries
    /\ length entries = Nat.max 1 (length (simulate_day v).1)
    /\ ((simulate_day v).1 = [] -> entries = [Log.nobody_left]).
Proof.
  pose proof (positions_refl (villagers v)) as Horder.
  unfold simulate_day, simulate_day_in.
  rewrite (refresh_loops _ v Horder).
  rewrite (decide_loop _ _ _ _ (order_NoDup _ v Horder)). cbn [app].
  set (leaving := filter _ (positions (villagers v))).
  set (vs3 := for_each (positions (villagers v)) _ _).
  destruct (leave_loop_log (current_day v + 1) leaving vs3
              (daily_log v ++ [Log.day_header (current_day v + 1)]))
    as (entries & Hlog & Hlen).
  { intros i Hi. unfold leaving in Hi.
    apply list_elem_of_filter in Hi as [_ Hi].
    unfold positions in Hi. apply elem_of_seq in Hi.
    unfold vs3. rewrite for_each_alter_length, length_fmap. lia. }
  destruct (for_each leaving (leave_step _) _) as [vs4 log1].
  cbn [fst snd] in *. subst log1.
  destruct leaving as [|i leaving].
  - destruct entries; [|done].
    exists [Log.nobody_left]. by rewrite <- !app_assoc.
  - exists entries. rewrite <- app_assoc. by split_and!.
Qed.

(** X11. [simulate_day] only appends to the daily log: the header of the
    new round, then one entry per departing villager, or the single entry
    saying that nobody left. *)
Theorem simulate_day_log v :
  exists entries,
    daily_log (simulate_day v).2
    = daily_log v ++ Log.day_header (current_day v + 1) :: entries
    /\ length entries = Nat.max 1 (length (simulate_day v).1)
    /\ ((simulate_day v).1 = [] -> entries = [Log.nobody_left]).
Proof. apply simulate_day_log_entries. Qed.

(** ** What [observe] counts *)

(** X12. [observe] changes the observed count alone, and the count lies
    between 0 and the number of villagers it is shown. When the
    identifier of the observer is its own alone in the list, the count is
    the number of present red-eyed villagers of the list, less one if the
    observer is such a villager: it never counts itself nor a departed
    villager. *)
Theorem observe_counts_the_others vs i x :
  vs !! i = Some x ->
  (forall j y, vs !! j = Some y -> id y = id x -> j = i) ->
  observed_red_eyes (observe x vs)
  = Z.of_nat (length (filter (fun y => red_present y = true) vs))
    - (if red_present x then 1 else 0)
  /\ 0 <= observed_red_eyes (observe x vs) <= Z.of_nat (length vs)
  /\ observe x vs = set_observed_red_eyes (observed_red_eyes (observe x vs)) x.
Proof.
  intros Hx Huniq. pose proof (observed_count vs i x Hx Huniq) as Hcount.
  pose proof (length_filter (fun y => seen_red_by x y = true) vs) as Hle.
  unfold observe. cbn [observed_red_eyes set_observed_red_eyes].
  split_and!; [|lia|lia|done].
  destruct (red_present x); lia.
Qed.

Lemma observe_counts_the_others_witness :
  let vs := villagers (sample_village 2 1 false) in
  exists x,
    vs !! 0%nat = Some x
    /\ observed_red_eyes (observe x vs)
       = Z.of_nat (length (filter (fun y => red_present y = true) vs))
         - (if red_present x then 1 else 0)
    /\ 0 <= observed_red_eyes (observe x vs) <= Z.of_nat (length vs)
    /\ observe x vs = set_observed_red_eyes (observed_red_eyes (observe x vs)) x.
Proof.
  cbv zeta. eexists. split; [by vm_compute|].
  apply (observe_counts_the_others (villagers (sample_village 2 1 false)) 0).
  - by vm_compute.
  - intros [|[|[|j]]] y Hy Hid; vm_compute in Hy; try done;
      injection Hy as <-; by vm_compute in Hid.
Defined.

(** ** The village built by [create_village], field by field *)

Lemma create_loop_exact color label vt vts items :
  forall village idx,
    (forall ts, vts = Some ts -> (idx + length items <= length ts)%nat) ->
    exists news,
      for_range items (create_step color label vt vts) (village, idx)
      = Ok (set_villagers (villagers village ++ news) village,
            (idx + length items)%nat)
      /\ length news = length items
      /\ forall j i, items !! j = Some i ->
           news !! j
           = Some (Villager_init
                     (Z.of_nat (length (villagers village) + j) + 1) color
                     (Some (label ++ str_of_int (Z.of_nat i + 1)))
                     (tag_at vt vts (idx + j))).
Proof.
  induction items as [|i items IH]; intros village idx Hlen.
  - exists []. simpl. rewrite Nat.add_0_r, app_nil_r.
    split_and!; try done. by destruct village.
  - assert (match vts with
            | Some types =>
                match types !! idx with
                | Some t => Ok t
                | None => Raise IndexError
                end
            | None => Ok vt
            end = Ok (tag_at vt vts idx)) as Ht.
    { unfold tag_at. destruct vts as [ts|]; [|done].
      specialize (Hlen ts eq_refl). simpl in Hlen.
      by destruct (lookup_lt_is_Some_2 ts idx ltac:(lia)) as [t ->]. }
    set (new := Villager_init (Z.of_nat (length (villagers village)) + 1)
                  color (Some (label ++ str_of_int (Z.of_nat i + 1)))
                  (tag_at vt vts idx)).
    destruct (IH (set_villagers (villagers village ++ [new]) village) (S idx))
      as (news & Hrun & Hn & Hnews).
    { intros ts Hts. specialize (Hlen ts Hts). simpl in Hlen. lia. }
    exists (new :: news). split_and!.
    + cbn [for_range]. unfold create_step at 1. cbn [fst snd].
      rewrite Ht. unfold bind at 1 2. unfold Ok at 1 2.
      unfold add_villager. fold new. rewrite Hrun.
      cbn [villagers set_villagers]. rewrite <- app_assoc.
      do 2 f_equal. simpl. lia.
    + simpl. by rewrite Hn.
    + intros [|j] i' Hj.
      * injection Hj as <-. change ((new :: news) !! O) with (Some new).
        unfold new. by rewrite !Nat.add_0_r.
      * change ((i :: items) !! S j) with (items !! j) in Hj.
        change ((new :: news) !! S j) with (news !! j).
        rewrite (Hnews j i' Hj).
        cbn [villagers set_villagers]. rewrite length_app. simpl.
        do 3 f_equal; lia.
Qed.

Lemma eye_counts k vs :
  (forall i x, vs !! i = Some x -> eye_color x = RED <-> (i < k)%nat) ->
  (k <= length vs)%nat ->
  length (filter (fun x => eye_color x = RED) vs) = k
  /\ length (filter (fun x => eye_color x = BLUE) vs) = (length vs - k)%nat.
Proof.
  intros Hc Hk. rewrite <- (take_drop k vs) at 1 2.
  rewrite !filter_app, !length_app.
  rewrite (filter_all (fun x => eye_color x = RED) (take k vs)).
  2:{ apply Forall_lookup. intros j y Hj.
      apply lookup_take_Some in Hj as [Hj Hlt]. by apply (Hc j y Hj). }
  rewrite (filter_none (fun x => eye_color x = RED) (drop k vs)).
  2:{ apply Forall_lookup. intros j y Hj. rewrite lookup_drop in Hj.
      rewrite (Hc _ y Hj). lia. }
  rewrite (filter_none (fun x => eye_color x = BLUE) (take k vs)).
  2:{ apply Forall_lookup. intros j y Hj.
      apply lookup_take_Some in Hj as [Hj Hlt].
      apply (Hc j y Hj) in Hlt. by rewrite Hlt. }
  rewrite (filter_all (fun x => eye_color x = BLUE) (drop k vs)).
  2:{ apply Forall_lookup. intros j y Hj. rewrite lookup_drop in Hj.
      destruct (eye_color y) eqn:Hy; [|done].
      apply (Hc _ y Hj) in Hy. lia. }
  rewrite length_take_le, length_drop by done. simpl. lia.
Qed.

Lemma create_village_built (k n : nat) rp vt vts :
  (forall ts, vts = Some ts -> length ts = (k + n)%nat) ->
  exists v,
    create_village (Z.of_nat k) (Z.of_nat n) rp vt vts = Ok v
    /\ v = mkVillage (built_villager k vt vts <$> seq 0 (k + n))
             (default PerfectInductionPolicy rp) false 0 0 [] 0
    /\ get_red_eye_count v = Z.of_nat k
    /\ get_blue_eye_count v = Z.of_nat n.
Proof.
  intros Hts. unfold create_village.
  assert (match vts with
          | Some types =>
              if bool_decide
                   (Z.of_nat (length types) = Z.of_nat k + Z.of_nat n)
              then Ok tt
              else Raise (length_error (Z.of_nat k + Z.of_nat n) (length types))
          | None => Ok tt
          end = Ok tt) as ->.
  { destruct vts as [ts|]; [|done].
    rewrite bool_decide_eq_true_2; [done|]. rewrite (Hts ts eq_refl). lia. }
  unfold bind at 1. unfold Ok at 1.
  set (v0 := Village_init (default PerfectInductionPolicy rp)).
  unfold range. rewrite !Nat2Z.id.
  destruct (create_loop_exact RED (u "红") vt vts (seq 0 k) v0 O)
    as (reds & -> & Hn1 & Hreds).
  { intros ts Heq. rewrite (Hts ts Heq), length_seq. lia. }
  unfold bind at 1. unfold Ok at 1. cbn [villagers v0 Village_init app].
  rewrite length_seq in Hn1 |- *.
  destruct (create_loop_exact BLUE (u "蓝") vt vts (seq 0 n)
              (set_villagers reds v0) (0 + k)%nat)
    as (blues & -> & Hn2 & Hblues).
  { intros ts Heq. rewrite (Hts ts Heq), length_seq. lia. }
  unfold bind at 1. unfold Ok at 1. rewrite length_seq in Hn2.
  cbn [fst villagers set_villagers] in *.
  assert (forall i, (i < k + n)%nat ->
            (reds ++ blues) !! i
            = Some (set_observed_red_eyes 0 (built_villager k vt vts i)))
    as Hbase.
  { intros i Hi. unfold built_villager.
    destruct (decide (i < k)%nat) as [Hlt|Hge].
    - rewrite lookup_app_l by lia.
      rewrite (Hreds i i) by (apply lookup_seq; lia). simpl. done.
    - rewrite lookup_app_r by lia. rewrite Hn1.
      rewrite (Hblues (i - k)%nat (i - k)%nat) by (apply lookup_seq; lia).
      unfold Villager_init, set_observed_red_eyes. cbn. do 2 f_equal.
      + lia.
      + f_equal. lia. }
  assert (length (reds ++ blues) = (k + n)%nat) as Hlen
    by (rewrite length_app; lia).
  assert (standard k (reds ++ blues)) as Hstd.
  { intros i x Hx. pose proof (lookup_lt_Some _ _ _ Hx) as Hi.
    rewrite Hbase in Hx by lia. injection Hx as <-.
    unfold built_villager. by destruct (decide (i < k)%nat). }
  assert (villagers (initialize_observations
                       (set_villagers (reds ++ blues) (set_villagers reds v0)))
          = built_villager k vt vts <$> seq 0 (k + n)) as Hvs.
  { rewrite initialize_observations_villagers. cbn [villagers set_villagers].
    apply list_eq. intros i. rewrite !list_lookup_fmap.
    destruct (decide (i < k + n)%nat) as [Hi|Hi].
    - rewrite (Hbase i Hi), lookup_seq_lt by done. rewrite Nat.add_0_l.
      cbn [fmap option_fmap option_map].
      f_equal. unfold observe_fn. cbn [andb]. unfold observe.
      rewrite (standard_observed k (reds ++ blues) i _ Hstd ltac:(lia)
                 (Hbase i Hi)).
      unfold built_villager, set_observed_red_eyes.
      destruct (decide (i < k)%nat); cbn; f_equal; lia.
    - rewrite lookup_ge_None_2 by lia.
      by rewrite lookup_seq_ge by lia. }
  eexists. split; [done|].
  assert (initialize_observations
            (set_villagers (reds ++ blues) (set_villagers reds v0))
          = mkVillage (built_villager k vt vts <$> seq 0 (k + n))
              (default PerfectInductionPolicy rp) false 0 0 [] 0) as Hv.
  { rewrite <- Hvs. done. }
  split; [exact Hv|].
  rewrite Hv. unfold get_red_eye_count, get_blue_eye_count.
  cbn [villagers].
  destruct (eye_counts k (built_villager k vt vts <$> seq 0 (k + n)))
    as [-> ->].
  - intros i x Hx. rewrite list_lookup_fmap in Hx.
    destruct (seq 0 (k + n) !! i) as [j|] eqn:Hj; [|done].
    apply lookup_seq in Hj as [-> _]. injection Hx as <-.
    cbn [Nat.add]. unfold built_villager.
    destruct (decide (i < k)%nat); cbn [eye_color]; split; try done; lia.
  - rewrite length_fmap, length_seq. lia.
  - rewrite length_fmap, length_seq. split; f_equal; lia.
Qed.

(** X13. For [k] red-eyed and [n] blue-eyed villagers (and, when a list
    of type tags is given, one of length [k + n]) [create_village]
    returns the village with the default flags and counters, an empty
    daily log, and the villagers 1 .. k+n in order: the red-eyed ones,
    named after their rank, first, each with its type tag, present, with
    an empty reasoning log, a red-eyed villager observing [k - 1] red-eyed
    villagers and a blue-eyed one [k]. Its red and blue counts are [k]
    and [n]. *)
Theorem create_village_exact (k n : nat) rp vt vts :
  (forall ts, vts = Some ts -> length ts = (k + n)%nat) ->
  exists v,
    create_village (Z.of_nat k) (Z.of_nat n) rp vt vts = Ok v
    /\ v = mkVillage (built_villager k vt vts <$> seq 0 (k + n))
             (default PerfectInductionPolicy rp) false 0 0 [] 0
    /\ get_red_eye_count v = Z.of_nat k
    /\ get_blue_eye_count v = Z.of_nat n.
Proof. apply create_village_built. Qed.

Lemma create_village_exact_witness :
  exists v,
    create_village (Z.of_nat 2) (Z.of_nat 1) None (u "dummy")
      (Some [u "openai"; u "dummy"; u "openai"]) = Ok v
    /\ v = mkVillage
             (built_villager 2 (u "dummy")
                (Some [u "openai"; u "dummy"; u "openai"]) <$> seq 0 (2 + 1))
             (default PerfectInductionPolicy None) false 0 0 [] 0
    /\ get_red_eye_count v = Z.of_nat 2
    /\ get_blue_eye_count v = Z.of_nat 1.
Proof.
  apply (create_village_exact 2 1 None (u "dummy")
           (Some [u "openai"; u "dummy"; u "openai"])).
  intros ts [= <-]. reflexivity.
Defined.

(** ** The closed form for any policy that decides by colour, count and
    day *)

Section PolicyRun.
Variable p : ReasoningPolicy.
Variable T : pystr -> Prop.
Variable f : EyeColor -> Z -> Z -> bool.
Hypothesis p_frames : frames_on T p.
Hypothesis p_decides : decides_by T p f.
Hypothesis blue_stays : forall observed day, f BLUE observed day = false.

Lemma round_fn_frames_on v x :
  reasoning_policy v = p -> T (villager_type x) ->
  id (round_fn v x) = id x
  /\ eye_color (round_fn v x) = eye_color x
  /\ villager_type (round_fn v x) = villager_type x
  /\ has_left (round_fn v x) = has_left x || departs v x
  /\ left_on_day (round_fn v x)
     = if departs v x then Some (current_day v + 1) else left_on_day x.
Proof.
  intros Hp HT. unfold round_fn, departs. rewrite Hp.
  destruct (has_left x) eqn:Hl; [by split_and!|]. cbv zeta.
  destruct (refresh_only_changes_context v x)
    as (Hi' & Hc' & Hn' & Ht' & Hh' & Hd' & Hlog').
  destruct (p_frames (refresh v x) (current_day v + 1) (announcement_made v))
    as (Hi & Hc & Hn & Ht & _ & Hh & Hd & _); [by rewrite Ht'|].
  destruct (p (refresh v x) (current_day v + 1) (announcement_made v))
    as [b y]. cbn [fst snd negb andb] in *.
  destruct b; cbn; split_and!; congruence.
Qed.

Lemma departs_by_rule v x :
  reasoning_policy v = p -> announcement_made v = true ->
  has_left x = false -> T (villager_type x) ->
  departs v x
  = f (eye_color x) (observed_red_eyes (refresh v x)) (current_day v + 1).
Proof.
  intros Hp Ha Hl HT. unfold departs. rewrite Hp, Ha, Hl. cbn [negb andb].
  destruct (refresh_only_changes_context v x)
    as (_ & Hc & _ & Ht & Hh & _).
  rewrite p_decides by (by rewrite ?Hh, ?Ht). by rewrite Hc.
Qed.

Lemma waiting_for_departs k d v i x :
  waiting_for p T k d v -> villagers v !! i = Some x ->
  departs v x
  = if decide (i < k)%nat then f RED (Z.of_nat k - 1) (Z.of_nat (S d))
    else false.
Proof.
  intros (Hp & Ha & Hd & Hstd & Hk & HT) Hx.
  destruct (Hstd i x Hx) as (_ & Hc & Hl).
  rewrite Forall_lookup in HT.
  rewrite (departs_by_rule v x Hp Ha Hl (HT i x Hx)).
  destruct (refresh_fields v x) as (_ & _ & _ & _ & ->).
  rewrite (standard_observed k (villagers v) i x Hstd Hk Hx), Hc, Hd.
  replace (Z.of_nat d + 1) with (Z.of_nat (S d)) by lia.
  destruct (decide (i < k)%nat); [done|apply blue_stays].
Qed.

Lemma quiet_round k d v :
  waiting_for p T k d v ->
  ((1 <= k)%nat -> f RED (Z.of_nat k - 1) (Z.of_nat (S d)) = false) ->
  (simulate_day v).1 = [] /\ waiting_for p T k (S d) (simulate_day v).2.
Proof.
  intros Hw Hquiet. pose proof Hw as (Hp & Ha & Hd & Hstd & Hk & HT).
  assert (forall i x, villagers v !! i = Some x -> departs v x = false)
    as Hstay.
  { intros i x Hx. rewrite (waiting_for_departs k d v i x Hw Hx).
    destruct (decide (i < k)%nat); [apply Hquiet; lia|done]. }
  split.
  - rewrite simulate_day_leaving. apply filter_none, Forall_forall.
    intros i _. unfold departs_at.
    destruct (villagers v !! i) as [x|] eqn:Hx; [|done].
    by rewrite (Hstay i x Hx).
  - destruct (simulate_day_fields v) as (Hp' & Ha' & Hd' & Hl').
    unfold waiting_for. rewrite Hp', Ha', Hd', Hl'.
    split_and!; try done; [lia| |].
    + rewrite simulate_day_villagers. intros i x' Hx'.
      rewrite list_lookup_fmap in Hx'.
      destruct (villagers v !! i) as [x|] eqn:Hx; [|done].
      injection Hx' as <-. rewrite Forall_lookup in HT.
      destruct (round_fn_frames_on v x Hp (HT i x Hx))
        as (-> & -> & _ & -> & _).
      rewrite (Hstay i x Hx), orb_false_r. by apply Hstd.
    + rewrite simulate_day_villagers. apply Forall_fmap.
      eapply Forall_impl; [exact HT|]. intros x Hx. simpl.
      by destruct (round_fn_frames_on v x Hp Hx) as (_ & _ & -> & _).
Qed.

Lemma firing_round k d v :
  waiting_for p T k d v ->
  f RED (Z.of_nat k - 1) (Z.of_nat (S d)) = true ->
  (simulate_day v).1 = seq 0 k /\ settled_for p T k (S d) (simulate_day v).2.
Proof.
  intros Hw Hfire. pose proof Hw as (Hp & Ha & Hd & Hstd & Hk & HT).
  split.
  - rewrite simulate_day_leaving. unfold positions.
    replace (length (villagers v))
      with (k + (length (villagers v) - k))%nat by lia.
    apply leaving_filter. intros i Hi. unfold departs_at.
    destruct (lookup_lt_is_Some_2 (villagers v) i ltac:(lia)) as [x Hx].
    rewrite Hx, (waiting_for_departs k d v i x Hw Hx).
    destruct (decide (i < k)%nat); [by rewrite Hfire|]. split; [done|lia].
  - destruct (simulate_day_fields v) as (Hp' & Ha' & Hd' & Hl').
    unfold settled_for. rewrite Hp', Ha', Hd', Hl'.
    split_and!; try done; [lia| |].
    + rewrite simulate_day_villagers. apply Forall_fmap.
      eapply Forall_impl; [exact HT|]. intros x Hx. simpl.
      by destruct (round_fn_frames_on v x Hp Hx) as (_ & _ & -> & _).
    + rewrite simulate_day_villagers. intros i x' Hx'.
      rewrite list_lookup_fmap in Hx'.
      destruct (villagers v !! i) as [x|] eqn:Hx; [|done].
      injection Hx' as <-. rewrite Forall_lookup in HT.
      destruct (round_fn_frames_on v x Hp (HT i x Hx))
        as (_ & -> & _ & -> & ->).
      destruct (Hstd i x Hx) as (_ & Hc & Hl). rewrite Hc, Hl.
      rewrite (waiting_for_departs k d v i x Hw Hx).
      destruct (decide (i < k)%nat); [|done].
      rewrite Hfire. split_and!; try done. f_equal. lia.
Qed.

Lemma settled_for_departs k D v i x :
  settled_for p T k D v -> villagers v !! i = Some x -> departs v x = false.
Proof.
  intros (Hp & Ha & Hd & Hk & HT & Hst) Hx.
  specialize (Hst i x Hx). rewrite Forall_lookup in HT.
  destruct (decide (i < k)%nat).
  - destruct Hst as (_ & Hl & _). unfold departs. by rewrite Hl.
  - destruct Hst as (Hc & Hl).
    rewrite (departs_by_rule v x Hp Ha Hl (HT i x Hx)), Hc.
    apply blue_stays.
Qed.

Lemma settled_round_for k D v :
  settled_for p T k D v ->
  (simulate_day v).1 = [] /\ settled_for p T k D (simulate_day v).2.
Proof.
  intros Hs. pose proof Hs as (Hp & Ha & Hd & Hk & HT & Hst).
  split.
  - rewrite simulate_day_leaving. apply filter_none, Forall_forall.
    intros i _. unfold departs_at.
    destruct (villagers v !! i) as [x|] eqn:Hx; [|done].
    by rewrite (settled_for_departs k D v i x Hs Hx).
  - destruct (simulate_day_fields v) as (Hp' & Ha' & Hd' & Hl').
    unfold settled_for. rewrite Hp', Ha', Hd', Hl'.
    split_and!; try done; [lia| |].
    + rewrite simulate_day_villagers. apply Forall_fmap.
      eapply Forall_impl; [exact HT|]. intros x Hx. simpl.
      by destruct (round_fn_frames_on v x Hp Hx) as (_ & _ & -> & _).
    + rewrite simulate_day_villagers. intros i x' Hx'.
      rewrite list_lookup_fmap in Hx'.
      destruct (villagers v !! i) as [x|] eqn:Hx; [|done].
      injection Hx' as <-. rewrite Forall_lookup in HT.
      destruct (round_fn_frames_on v x Hp (HT i x Hx))
        as (_ & -> & _ & -> & ->).
      rewrite (settled_for_departs k D v i x Hs Hx), orb_false_r.
      by apply Hst.
Qed.

Lemma quiet_days k v d :
  waiting_for p T k 0 v ->
  (forall d', (1 <= d' <= d)%nat -> (1 <= k)%nat ->
     f RED (Z.of_nat k - 1) (Z.of_nat d') = false) ->
  waiting_for p T k d (simulate_days d v)
  /\ forall d', (1 <= d' <= d)%nat -> leaving_on d' v = [].
Proof.
  intros Hw. induction d as [|d IH]; intros Hquiet.
  - split; [done|]. intros d' Hd'. lia.
  - destruct IH as [IHw IHl]; [intros d' Hd'; apply Hquiet; lia|].
    destruct (quiet_round k d (simulate_days d v) IHw) as [Hnone Hnext].
    { apply Hquiet. lia. }
    split; [by rewrite simulate_days_S|].
    intros d' Hd'. destruct (decide (d' = S d)) as [->|Hne].
    + exact Hnone.
    + apply IHl. lia.
Qed.

Lemma settled_days_for k D v m :
  settled_for p T k D (simulate_days D v) ->
  settled_for p T k D (simulate_days (D + m) v)
  /\ leaving_on (D + S m) v = [].
Proof.
  intros Hs.
  assert (settled_for p T k D (simulate_days (D + m) v)) as Hm.
  { induction m as [|m IH]; [by rewrite Nat.add_0_r|].
    rewrite Nat.add_succ_r, simulate_days_S. by apply settled_round_for. }
  split; [done|]. unfold leaving_on.
  replace (pred (D + S m)) with (D + m)%nat by lia.
  by apply (settled_round_for k D).
Qed.

End PolicyRun.

Lemma built_standard k n vt vts :
  standard k (built_villager k vt vts <$> seq 0 (k + n)).
Proof.
  intros i x Hx. rewrite list_lookup_fmap in Hx.
  destruct (seq 0 (k + n) !! i) as [j|] eqn:Hj; [|done].
  apply lookup_seq in Hj as [-> _]. injection Hx as <-. cbn [Nat.add].
  unfold built_villager. by destruct (decide (i < k)%nat).
Qed.

(** The village of [create_village], announced, waits at round 0. *)
Lemma created_waiting p T (k n : nat) vt vts :
  (forall ts, vts = Some ts -> length ts = (k + n)%nat) ->
  (forall i, (i < k + n)%nat -> T (tag_at vt vts i)) ->
  exists v0,
    create_village (Z.of_nat k) (Z.of_nat n) (Some p) vt vts = Ok v0
    /\ length (villagers v0) = (k + n)%nat
    /\ waiting_for p T k 0 (make_announcement v0).
Proof.
  intros Hts HT.
  destruct (create_village_built k n (Some p) vt vts Hts)
    as (v0 & Hv0 & -> & _).
  eexists. split; [exact Hv0|]. cbn [villagers].
  rewrite length_fmap, length_seq. split; [done|].
  unfold waiting_for, make_announcement. cbn.
  rewrite length_fmap, length_seq.
  split_and!; try done; [apply built_standard|lia|].
  apply Forall_fmap, Forall_seq. intros i Hi. simpl.
  unfold built_villager. destruct (decide (i < k)%nat); cbn; apply HT; lia.
Qed.

Lemma waiting_for_shape p T k d v i x :
  waiting_for p T k d v -> villagers v !! i = Some x ->
  eye_color x = (if decide (i < k)%nat then RED else BLUE)
  /\ has_left x = false.
Proof.
  intros (_ & _ & _ & Hstd & _) Hx. by destruct (Hstd i x Hx) as (_ & ? & ?).
Qed.

(** The general closed form: if round [D] is the first on which the rule
    fires for a red-eyed villager observing [k - 1], the red-eyed
    villagers all leave on round [D]. *)
Lemma closed_form_for p T f (k n D : nat) v :
  frames_on T p -> decides_by T p f ->
  (forall observed day, f BLUE observed day = false) ->
  waiting_for p T k 0 v -> length (villagers v) = (k + n)%nat ->
  (1 <= D)%nat ->
  (forall d, (1 <= d < D)%nat -> f RED (Z.of_nat k - 1) (Z.of_nat d) = false) ->
  f RED (Z.of_nat k - 1) (Z.of_nat D) = true ->
  leaves_on_round k n D v.
Proof.
  intros Hfr Hdec Hblue Hw Hlen HD Hquiet Hfire.
  destruct (quiet_days p T f Hfr Hdec Hblue k v (pred D) Hw) as [Hwait Hnone].
  { intros d Hd _. apply Hquiet. lia. }
  destruct (firing_round p T f Hfr Hdec Hblue k (pred D) _ Hwait)
    as [Hall Hset].
  { by replace (S (pred D)) with D by lia. }
  replace (S (pred D)) with D in Hset by lia.
  rewrite <- simulate_days_S in Hset.
  replace (S (pred D)) with D in Hset by lia.
  split_and!.
  - intros d Hd. apply Hnone. lia.
  - exact Hall.
  - intros d Hd. replace d with (D + S (d - D - 1))%nat by lia.
    by apply (settled_days_for p T f Hfr Hdec Hblue k D v).
  - intros d. split.
    { destruct (simulate_days_fields d v) as (_ & _ & _ & ->). done. }
    intros i x Hx. destruct (decide (D <= d)%nat) as [Hge|Hlt].
    + replace d with (D + (d - D))%nat in Hx by lia.
      destruct (settled_days_for p T f Hfr Hdec Hblue k D v (d - D) Hset)
        as [(_ & _ & _ & _ & _ & Hst) _].
      specialize (Hst i x Hx).
      destruct (decide (i < k)%nat).
      * destruct Hst as (? & ? & ?).
        rewrite bool_decide_eq_true_2 by done. by split_and!.
      * destruct Hst as (? & ?).
        rewrite bool_decide_eq_false_2 by (intros [? ?]; lia).
        by split_and!.
    + destruct (quiet_days p T f Hfr Hdec Hblue k v d Hw) as [Hwd _].
      { intros d' Hd' _. apply Hquiet. lia. }
      destruct (waiting_for_shape p T k d _ i x Hwd Hx) as [? ?].
      rewrite bool_decide_eq_false_2 by (intros [? ?]; lia).
      split_and!; try done; intros; lia.
Qed.

(** If the rule never fires for a red-eyed villager observing [k - 1],
    nobody ever leaves. *)
Lemma never_fires_for p T f (k n : nat) v :
  frames_on T p -> decides_by T p f ->
  (forall observed day, f BLUE observed day = false) ->
  waiting_for p T k 0 v -> length (villagers v) = (k + n)%nat ->
  (forall d, (1 <= d)%nat -> (1 <= k)%nat ->
     f RED (Z.of_nat k - 1) (Z.of_nat d) = false) ->
  nobody_ever_leaves k n v.
Proof.
  intros Hfr Hdec Hblue Hw Hlen Hquiet d.
  destruct (quiet_days p T f Hfr Hdec Hblue k v d Hw) as [Hwd _].
  { intros d' Hd'. apply Hquiet. lia. }
  destruct (quiet_days p T f Hfr Hdec Hblue k v (S d) Hw) as [_ Hnone].
  { intros d' Hd'. apply Hquiet. lia. }
  split_and!.
  - apply Hnone. lia.
  - destruct (simulate_days_fields d v) as (_ & _ & _ & ->). done.
  - intros i x Hx. by apply (waiting_for_shape p T k d _ i x Hwd Hx).
Qed.

(** ** The policies of the repository as rules *)

Lemma frames_frames_on T p : frames p -> frames_on T p.
Proof. intros Hp x day a _. apply Hp. Qed.

Lemma perfect_rule_blue observed day : perfect_rule BLUE observed day = false.
Proof. done. Qed.

Lemma perfect_rule_red (k : nat) day :
  (1 <= k)%nat ->
  perfect_rule RED (Z.of_nat k - 1) day = (day =? Z.of_nat k).
Proof.
  intros Hk. unfold perfect_rule. cbn [andb bool_decide decide_rel].
  rewrite bool_decide_eq_true_2 by done. cbn [andb].
  destruct (Z.eqb_spec (Z.of_nat k - 1) 0) as [H0|H0].
  - by replace (Z.of_nat k) with 1 by lia.
  - by replace (Z.of_nat k - 1 + 1) with (Z.of_nat k) by lia.
Qed.

Lemma PerfectInductionPolicy_rule x day :
  has_left x = false ->
  (PerfectInductionPolicy x day true).1
  = perfect_rule (eye_color x) (observed_red_eyes x) day.
Proof.
  intros Hl. rewrite PerfectInductionPolicy_no_log.
  unfold _perfect_induction_decide_no_log, _is_blue, perfect_rule.
  rewrite Hl. cbn [negb]. by destruct (eye_color x).
Qed.

Lemma perfect_decides T : decides_by T PerfectInductionPolicy perfect_rule.
Proof. intros x day Hl _. by apply PerfectInductionPolicy_rule. Qed.

Lemma bounded_decides T max_k :
  decides_by T (BoundedInductionPolicy max_k)
    (fun c o d => perfect_rule c o d && (o <=? max_k)).
Proof.
  intros x day Hl _.
  by rewrite BoundedInductionPolicy_decision, PerfectInductionPolicy_rule.
Qed.

Lemma maxday_decides T max_day inner f :
  decides_by T inner f ->
  decides_by T (MaxDayReasoningPolicy max_day inner)
    (fun c o d => (d <=? max_day) && f c o d).
Proof.
  intros Hin x day Hl HT. unfold MaxDayReasoningPolicy. rewrite Hl.
  rewrite Z.leb_antisym. destruct (max_day <? day); [done|].
  by rewrite (Hin x day Hl HT).
Qed.

Lemma fallible_decides_zero T random_of seed inner f :
  (forall s, float_ge (random_of s) 0%float = true) ->
  decides_by T inner f ->
  decides_by T (FalliblePolicy random_of 0%float seed inner) f.
Proof.
  intros Hrange Hin x day Hl HT.
  destruct (FalliblePolicy_decision random_of 0%float seed inner x day true)
    as (_ & Hzero & _).
  by rewrite (Hzero Hrange), Hl, (Hin x day Hl HT).
Qed.

Lemma fallible_decides_one T random_of seed inner :
  (forall s, float_lt (random_of s) 1%float = true) ->
  decides_by T (FalliblePolicy random_of 1%float seed inner)
    (fun _ _ _ => false).
Proof.
  intros Hrange x day Hl HT.
  destruct (FalliblePolicy_decision random_of 1%float seed inner x day true)
    as (_ & _ & Hone).
  by rewrite (Hone Hrange).
Qed.

(** The village of [create_village], announced, under its policy. *)
Lemma created_waiting_default T (k n : nat) rp vt vts :
  (forall ts, vts = Some ts -> length ts = (k + n)%nat) ->
  (forall i, (i < k + n)%nat -> T (tag_at vt vts i)) ->
  exists v0,
    create_village (Z.of_nat k) (Z.of_nat n) rp vt vts = Ok v0
    /\ length (villagers v0) = (k + n)%nat
    /\ waiting_for (default PerfectInductionPolicy rp) T k 0
         (make_announcement v0).
Proof.
  intros Hts HT.
  destruct (created_waiting (default PerfectInductionPolicy rp) T k n vt vts
              Hts HT) as (v0 & Hv0 & Hlen & Hw).
  exists v0. split; [|done]. rewrite <- Hv0.
  unfold create_village. by destruct rp.
Qed.

Lemma closed_form_created T f (k n D : nat) rp vt vts :
  frames_on T (default PerfectInductionPolicy rp) ->
  decides_by T (default PerfectInductionPolicy rp) f ->
  (forall observed day, f BLUE observed day = false) ->
  (forall ts, vts = Some ts -> length ts = (k + n)%nat) ->
  (forall i, (i < k + n)%nat -> T (tag_at vt vts i)) ->
  (1 <= D)%nat ->
  (forall d, (1 <= d < D)%nat -> f RED (Z.of_nat k - 1) (Z.of_nat d) = false) ->
  f RED (Z.of_nat k - 1) (Z.of_nat D) = true ->
  exists v0,
    create_village (Z.of_nat k) (Z.of_nat n) rp vt vts = Ok v0
    /\ leaves_on_round k n D (make_announcement v0).
Proof.
  intros Hfr Hdec Hblue Hts HT HD Hquiet Hfire.
  destruct (created_waiting_default T k n rp vt vts Hts HT)
    as (v0 & Hv0 & Hlen & Hw).
  exists v0. split; [done|].
  by apply (closed_form_for _ T f k n D _ Hfr Hdec Hblue Hw).
Qed.

Lemma never_fires_created T f (k n : nat) rp vt vts :
  frames_on T (default PerfectInductionPolicy rp) ->
  decides_by T (default PerfectInductionPolicy rp) f ->
  (forall observed day, f BLUE observed day = false) ->
  (forall ts, vts = Some ts -> length ts = (k + n)%nat) ->
  (forall i, (i < k + n)%nat -> T (tag_at vt vts i)) ->
  (forall d, (1 <= d)%nat -> (1 <= k)%nat ->
     f RED (Z.of_nat k - 1) (Z.of_nat d) = false) ->
  exists v0,
    create_village (Z.of_nat k) (Z.of_nat n) rp vt vts = Ok v0
    /\ nobody_ever_leaves k n (make_announcement v0).
Proof.
  intros Hfr Hdec Hblue Hts HT Hquiet.
  destruct (created_waiting_default T k n rp vt vts Hts HT)
    as (v0 & Hv0 & Hlen & Hw).
  exists v0. split; [done|].
  by apply (never_fires_for _ T f k n _ Hfr Hdec Hblue Hw).
Qed.

(** ** Runs of the village under the policies of the repository *)

(** X14. A policy that only logs and whose decision on a present villager
    is a function [f] of the eye colour, the observed count and the day,
    false on blue-eyed villagers, makes the announced village of
    [create_village] behave as its first firing day says: if [D] is the
    first day on which [f] is true for a red-eyed villager observing
    [k - 1], nobody is returned before round [D], round [D] returns the
    red-eyed villagers, stamped with [D], and nobody leaves afterwards. *)
Theorem policy_run_first_firing_day T f (k n D : nat) p vt vts :
  frames_on T p ->
  decides_by T p f ->
  (forall observed day, f BLUE observed day = false) ->
  (forall ts, vts = Some ts -> length ts = (k + n)%nat) ->
  (forall i, (i < k + n)%nat -> T (tag_at vt vts i)) ->
  (1 <= D)%nat ->
  (forall d, (1 <= d < D)%nat -> f RED (Z.of_nat k - 1) (Z.of_nat d) = false) ->
  f RED (Z.of_nat k - 1) (Z.of_nat D) = true ->
  exists v0,
    create_village (Z.of_nat k) (Z.of_nat n) (Some p) vt vts = Ok v0
    /\ leaves_on_round k n D (make_announcement v0).
Proof. apply (closed_form_created T f k n D (Some p)). Qed.

Lemma policy_run_first_firing_day_witness :
  exists v0,
    create_village (Z.of_nat 3) (Z.of_nat 2) (Some PerfectInductionPolicy)
      (u "dummy") None = Ok v0
    /\ leaves_on_round 3 2 3 (make_announcement v0).
Proof.
  apply (policy_run_first_firing_day (fun _ => True) perfect_rule 3 2 3
           PerfectInductionPolicy (u "dummy") None).
  - apply frames_frames_on, PerfectInductionPolicy_frames.
  - apply perfect_decides.
  - reflexivity.
  - intros ts Hts. discriminate Hts.
  - intros i Hi. exact I.
  - lia.
  - intros d Hd. rewrite perfect_rule_red by lia. apply Z.eqb_neq. lia.
  - reflexivity.
Defined.



(** X16. [BoundedInductionPolicy(max_k)] on the announced village of
    [create_village] with [k >= 1] red-eyed villagers: when
    [k - 1 <= max_k] the run is the one of perfect induction (the
    red-eyed villagers leave on round [k]); when [max_k < k - 1] nobody
    ever leaves. *)
Theorem bounded_induction_run (k n : nat) max_k vt vts :
  (1 <= k)%nat ->
  (forall ts, vts = Some ts -> length ts = (k + n)%nat) ->
  exists v0,
    create_village (Z.of_nat k) (Z.of_nat n)
      (Some (BoundedInductionPolicy max_k)) vt vts = Ok v0
    /\ (Z.of_nat k - 1 <= max_k ->
        leaves_on_round k n k (make_announcement v0))
    /\ (max_k < Z.of_nat k - 1 ->
        nobody_ever_leaves k n (make_announcement v0)).
Proof.
  intros Hk Hts.
  set (f := fun c o d => perfect_rule c o d && (o <=? max_k)).
  assert (frames_on (fun _ => True) (BoundedInductionPolicy max_k)) as Hfr
    by apply frames_frames_on, BoundedInductionPolicy_frames.
  pose proof (bounded_decides (fun _ => True) max_k) as Hdec.
  assert (forall observed day, f BLUE observed day = false) as Hblue by done.
  destruct (created_waiting (BoundedInductionPolicy max_k) (fun _ => True)
              k n vt vts Hts) as (v0 & Hv0 & Hlen & Hw); [done|].
  exists v0. split; [done|]. split.
  - intros Hmax.
    apply (closed_form_for _ _ f k n k _ Hfr Hdec Hblue Hw Hlen Hk).
    + intros d Hd. unfold f. rewrite perfect_rule_red by done.
      assert ((Z.of_nat d =? Z.of_nat k) = false) as ->; [|done].
      apply Z.eqb_neq. lia.
    + unfold f. rewrite perfect_rule_red, Z.eqb_refl by done.
      apply Z.leb_le. lia.
  - intros Hmax.
    apply (never_fires_for _ _ f k n _ Hfr Hdec Hblue Hw Hlen).
    intros d _ _. unfold f.
    assert ((Z.of_nat k - 1 <=? max_k) = false) as ->; [|apply andb_false_r].
    apply Z.leb_gt. lia.
Qed.

Lemma bounded_induction_run_witness :
  exists v0,
    create_village (Z.of_nat 3) (Z.of_nat 2)
      (Some (BoundedInductionPolicy 1)) (u "dummy") None = Ok v0
    /\ (Z.of_nat 3 - 1 <= 1 ->
        leaves_on_round 3 2 3 (make_announcement v0))
    /\ (1 < Z.of_nat 3 - 1 ->
        nobody_ever_leaves 3 2 (make_announcement v0)).
Proof.
  apply (bounded_induction_run 3 2 1 (u "dummy") None).
  - lia.
  - intros ts Hts. discriminate Hts.
Defined.

(** X17. [MaxDayReasoningPolicy(max_day)] around perfect induction on the
    announced village of [create_village] with [k >= 1] red-eyed
    villagers: when [k <= max_day] the red-eyed villagers leave on round
    [k]; when [max_day < k] nobody ever leaves. *)
Theorem max_day_run (k n : nat) max_day vt vts :
  (1 <= k)%nat ->
  (forall ts, vts = Some ts -> length ts = (k + n)%nat) ->
  exists v0,
    create_village (Z.of_nat k) (Z.of_nat n)
      (Some (MaxDayReasoningPolicy max_day PerfectInductionPolicy)) vt vts
    = Ok v0
    /\ (Z.of_nat k <= max_day ->
        leaves_on_round k n k (make_announcement v0))
    /\ (max_day < Z.of_nat k ->
        nobody_ever_leaves k n (make_announcement v0)).
Proof.
  intros Hk Hts.
  set (p := MaxDayReasoningPolicy max_day PerfectInductionPolicy).
  set (f := fun c o d => (d <=? max_day) && perfect_rule c o d).
  assert (frames_on (fun _ => True) p) as Hfr.
  { apply frames_frames_on, MaxDayReasoningPolicy_frames,
      PerfectInductionPolicy_frames. }
  pose proof (maxday_decides (fun _ => True) max_day _ _
                (perfect_decides (fun _ => True))) as Hdec.
  assert (forall observed day, f BLUE observed day = false) as Hblue.
  { intros o d. apply andb_false_r. }
  destruct (created_waiting p (fun _ => True) k n vt vts Hts)
    as (v0 & Hv0 & Hlen & Hw); [done|].
  exists v0. split; [done|]. split.
  - intros Hmax.
    apply (closed_form_for _ _ f k n k _ Hfr Hdec Hblue Hw Hlen Hk).
    + intros d Hd. unfold f. rewrite perfect_rule_red by done.
      assert ((Z.of_nat d =? Z.of_nat k) = false) as ->; [|apply andb_false_r].
      apply Z.eqb_neq. lia.
    + unfold f. rewrite perfect_rule_red, Z.eqb_refl, andb_true_r by done.
      apply Z.leb_le. lia.
  - intros Hmax.
    apply (never_fires_for _ _ f k n _ Hfr Hdec Hblue Hw Hlen).
    intros d _ _. unfold f. rewrite perfect_rule_red by done.
    destruct (Z.eqb_spec (Z.of_nat d) (Z.of_nat k)) as [->|_];
      [|apply andb_false_r].
    rewrite andb_true_r. apply Z.leb_gt. lia.
Qed.

Lemma max_day_run_witness :
  exists v0,
    create_village (Z.of_nat 2) (Z.of_nat 2)
      (Some (MaxDayReasoningPolicy 2 PerfectInductionPolicy)) (u "dummy") None
    = Ok v0
    /\ (Z.of_nat 2 <= 2 ->
        leaves_on_round 2 2 2 (make_announcement v0))
    /\ (2 < Z.of_nat 2 ->
        nobody_ever_leaves 2 2 (make_announcement v0)).
Proof.
  apply (max_day_run 2 2 2 (u "dummy") None).
  - lia.
  - intros ts Hts. discriminate Hts.
Defined.

(** X18. [FalliblePolicy] around perfect induction, with draws in
    [0, 1) as [random()] gives them, on the announced village of
    [create_village] with [k >= 1] red-eyed villagers: with a mistake
    rate of 0 the red-eyed villagers leave on round [k], whatever the
    seed; with a mistake rate of 1 nobody ever leaves. *)
Theorem fallible_run random_of seed (k n : nat) vt vts :
  (1 <= k)%nat ->
  (forall ts, vts = Some ts -> length ts = (k + n)%nat) ->
  (forall s, float_ge (random_of s) 0%float = true) ->
  (forall s, float_lt (random_of s) 1%float = true) ->
  (exists v0,
     create_village (Z.of_nat k) (Z.of_nat n)
       (Some (FalliblePolicy random_of 0%float seed PerfectInductionPolicy))
       vt vts = Ok v0
     /\ leaves_on_round k n k (make_announcement v0))
  /\ (exists v0,
        create_village (Z.of_nat k) (Z.of_nat n)
          (Some (FalliblePolicy random_of 1%float seed PerfectInductionPolicy))
          vt vts = Ok v0
        /\ nobody_ever_leaves k n (make_announcement v0)).
Proof.
  intros Hk Hts Hlow Hhigh. split.
  - apply (closed_form_created (fun _ => True) perfect_rule k n k (Some _));
      try done.
    + apply frames_frames_on, FalliblePolicy_frames,
        PerfectInductionPolicy_frames.
    + apply fallible_decides_zero; [done|apply perfect_decides].
    + intros d Hd. rewrite perfect_rule_red by done. apply Z.eqb_neq. lia.
    + rewrite perfect_rule_red by done. apply Z.eqb_refl.
  - apply (never_fires_created (fun _ => True) (fun _ _ _ => false) k n
             (Some _)); try done.
    + apply frames_frames_on, FalliblePolicy_frames,
        PerfectInductionPolicy_frames.
    + by apply fallible_decides_one.
Qed.

Lemma fallible_run_witness :
  (exists v0,
     create_village (Z.of_nat 4) (Z.of_nat 3)
       (Some (FalliblePolicy (fun _ => 0.5%float) 0%float 123
                PerfectInductionPolicy))
       (u "dummy") None = Ok v0
     /\ leaves_on_round 4 3 4 (make_announcement v0))
  /\ (exists v0,
        create_village (Z.of_nat 4) (Z.of_nat 3)
          (Some (FalliblePolicy (fun _ => 0.5%float) 1%float 123
                   PerfectInductionPolicy))
          (u "dummy") None = Ok v0
        /\ nobody_ever_leaves 4 3 (make_announcement v0)).
Proof.
  apply (fallible_run (fun _ => 0.5%float) 123 4 3 (u "dummy") None).
  - lia.
  - intros ts Hts. discriminate Hts.
  - intros s. reflexivity.
  - intros s. reflexivity.
Defined.

(** ** Rounds in which the policy stays silent *)

Lemma silent_round v :
  (forall x, has_left x = false ->
     let r := reasoning_policy v x (current_day v + 1) (announcement_made v) in
     r.1 = false /\ has_left r.2 = false) ->
  (simulate_day v).1 = []
  /\ has_left <$> villagers (simulate_day v).2 = has_left <$> villagers v.
Proof.
  intros Hsilent. split.
  - rewrite simulate_day_leaving. apply filter_none, Forall_forall.
    intros i _. unfold departs_at.
    destruct (villagers v !! i) as [x|]; [|done].
    unfold departs. destruct (has_left x) eqn:Hl; [done|]. cbn [negb andb].
    destruct (Hsilent (refresh v x)) as [-> _]; [|done].
    by rewrite refresh_has_left.
  - rewrite simulate_day_villagers, <- list_fmap_compose.
    apply list_fmap_ext. intros _ x _. cbn [compose]. unfold round_fn.
    destruct (has_left x) eqn:Hl; [done|]. cbv zeta.
    destruct (Hsilent (refresh v x)) as [-> ->]; [|done].
    by rewrite refresh_has_left.
Qed.

Lemma silent_rounds v n :
  (forall m x, (m <= n)%nat -> has_left x = false ->
     let r := reasoning_policy v x (current_day v + Z.of_nat m + 1)
                (announcement_made v) in
     r.1 = false /\ has_left r.2 = false) ->
  leaving_on (S n) v = []
  /\ has_left <$> villagers (simulate_days n v) = has_left <$> villagers v.
Proof.
  intros Hsilent.
  assert (forall m, (m <= n)%nat ->
            (simulate_day (simulate_days m v)).1 = []
            /\ has_left <$> villagers (simulate_day (simulate_days m v)).2
               = has_left <$> villagers (simulate_days m v)) as Hround.
  { intros m Hm. apply silent_round. intros x Hx.
    destruct (simulate_days_fields m v) as (-> & -> & -> & _).
    by apply Hsilent. }
  split; [by apply Hround|].
  assert (forall m, (m <= n)%nat ->
            has_left <$> villagers (simulate_days m v)
            = has_left <$> villagers v) as Hall.
  { induction m as [|m IH]; [done|]. intros Hm.
    rewrite simulate_days_S.
    destruct (Hround m) as [_ ->]; [lia|]. apply IH. lia. }
  by apply Hall.
Qed.

(** X19. Under [NoReasoningPolicy] no round of any village returns
    anybody, announced or not, whatever its villagers: the departed flags
    after any number of rounds are the ones the village started with. *)
Theorem no_reasoning_never_departs v n :
  reasoning_policy v = NoReasoningPolicy ->
  leaving_on (S n) v = []
  /\ has_left <$> villagers (simulate_days n v) = has_left <$> villagers v.
Proof.
  intros Hp. apply silent_rounds. intros m x _ Hx. rewrite Hp.
  unfold NoReasoningPolicy. rewrite Hx.
  by destruct (negb (announcement_made v)).
Qed.

Lemma no_reasoning_never_departs_witness :
  let v :=
    mkVillage (villagers (sample_village 3 2 true)) NoReasoningPolicy true 0
      (-1) [] 0 in
  leaving_on (S 6) v = []
  /\ has_left <$> villagers (simulate_days 6 v) = has_left <$> villagers v.
Proof.
  apply (no_reasoning_never_departs
           (mkVillage (villagers (sample_village 3 2 true)) NoReasoningPolicy
              true 0 (-1) [] 0) 6).
  reflexivity.
Defined.

(** X20. [MaxDayReasoningPolicy(max_day, inner)] is a deadline: in a
    village that has already played [max_day] rounds or more, no round
    returns anybody and the departed flags never change again, whatever
    the inner policy and the villagers. *)
Theorem max_day_is_a_deadline v n max_day inner :
  reasoning_policy v = MaxDayReasoningPolicy max_day inner ->
  max_day <= current_day v ->
  leaving_on (S n) v = []
  /\ has_left <$> villagers (simulate_days n v) = has_left <$> villagers v.
Proof.
  intros Hp Hday. apply silent_rounds. intros m x _ Hx. rewrite Hp.
  unfold MaxDayReasoningPolicy. rewrite Hx.
  assert ((max_day <? current_day v + Z.of_nat m + 1) = true) as ->; [|done].
  apply Z.ltb_lt. lia.
Qed.

Lemma max_day_is_a_deadline_witness :
  let v :=
    simulate_days 2
      (mkVillage (villagers (sample_village 3 2 true))
         (MaxDayReasoningPolicy 2 PerfectInductionPolicy) true 0 (-1) [] 0) in
  leaving_on (S 4) v = []
  /\ has_left <$> villagers (simulate_days 4 v) = has_left <$> villagers v.
Proof.
  apply (max_day_is_a_deadline
           (simulate_days 2
              (mkVillage (villagers (sample_village 3 2 true))
                 (MaxDayReasoningPolicy 2 PerfectInductionPolicy) true 0 (-1)
                 [] 0))
           4 2 PerfectInductionPolicy).
  - reflexivity.
  - vm_compute. discriminate.
Defined.

(** ** The complete run *)

Lemma add_events_nil r : add_events [] r = r.
Proof. destruct r. unfold add_events. cbn. by rewrite app_nil_r. Qed.

Lemma add_events_cons e es r :
  add_events es (add_event e r) = add_events (e :: es) r.
Proof. unfold add_events, add_event. cbn. by rewrite <- app_assoc. Qed.

Lemma simulate_days_unshift j v :
  simulate_days j (simulate_day v).2 = simulate_days (S j) v.
Proof. exact (eq_sym (simulate_days_plus 1 j v)). Qed.

Lemma shifted_days {A} (g : Z -> A) c m :
  (fun i => g (c + Z.of_nat i)) <$> seq 1 m
  = (fun i => g (c + 1 + Z.of_nat i)) <$> seq 0 m.
Proof.
  rewrite <- (fmap_S_seq 0 m), <- list_fmap_compose.
  apply list_fmap_ext. intros _ i _. cbn [compose]. f_equal. lia.
Qed.

(** Days on which nobody is returned and the loop goes on. *)
Lemma run_days_quiet num_red m : forall c rest v r,
  (forall j, (j < m)%nat ->
     leaving_on (S j) v = []
     /\ (remaining_red (simulate_days (S j) v) =? 0) && (0 <? num_red)
        = false) ->
  run_days num_red (((fun i => c + Z.of_nat i) <$> seq 0 m) ++ rest) v r
  = run_days num_red rest (simulate_days m v)
      (add_events (quiet_events c m) r).
Proof.
  induction m as [|m IH]; intros c rest v r Hquiet.
  - by rewrite add_events_nil.
  - cbn [seq fmap list_fmap app]. cbn [run_days].
    destruct (Hquiet O ltac:(lia)) as [Hnone Hgo].
    unfold leaving_on in Hnone. cbn [pred simulate_days] in Hnone, Hgo.
    destruct (simulate_day v) as [left_today v'] eqn:Hday.
    cbn [fst snd] in Hnone, Hgo. subst left_today. rewrite Hgo.
    rewrite (shifted_days (fun d => d) c m).
    rewrite (IH (c + 1) rest v').
    + replace v' with (simulate_day v).2 by by rewrite Hday.
      rewrite simulate_days_unshift. f_equal.
      rewrite add_events_cons. unfold quiet_events.
      cbn [seq fmap list_fmap deref omap list_omap].
      by rewrite (shifted_days (fun d => (d, [])) c m).
    + intros j Hj. destruct (Hquiet (S j) ltac:(lia)) as [Hn Hg].
      replace v' with (simulate_day v).2 by by rewrite Hday.
      unfold leaving_on in *. cbn [pred] in *.
      by rewrite !simulate_days_unshift.
Qed.

(** The day on which the loop stops. *)
Lemma run_days_stop num_red day rest v r :
  (remaining_red (simulate_day v).2 =? 0) && (0 <? num_red) = true ->
  run_days num_red (day :: rest) v r
  = ((simulate_day v).2,
     mkSimulationResult (results_num_red r) (results_num_blue r) day true
       ((fun x => (Villager_repr x, left_on_day x))
          <$> filter (fun x => has_left x = true)
                (villagers (simulate_day v).2))
       (daily_events r
        ++ [(day, Villager_repr
                    <$> deref (villagers (simulate_day v).2)
                          (simulate_day v).1)])).
Proof.
  intros Hstop. cbn [run_days].
  destruct (simulate_day v) as [left_today v'].
  cbn [fst snd] in *. by rewrite Hstop.
Qed.

Lemma range_from_seq c (m : nat) :
  range_from c (c + Z.of_nat m) = (fun i => c + Z.of_nat i) <$> seq 0 m.
Proof.
  unfold range_from. by replace (Z.to_nat (c + Z.of_nat m - c)) with m by lia.
Qed.

Lemma quiet_events_range c (m : nat) :
  quiet_events c m = (fun d => (d, [])) <$> range_from c (c + Z.of_nat m).
Proof.
  rewrite range_from_seq, <- list_fmap_compose. done.
Qed.

Lemma deref_seq vs k :
  (k <= length vs)%nat -> deref vs (seq 0 k) = take k vs.
Proof.
  unfold deref. induction k as [|k IH]; intros Hk; [done|].
  rewrite seq_S, omap_app, IH by lia. cbn [Nat.add omap list_omap].
  destruct (lookup_lt_is_Some_2 vs k ltac:(lia)) as [x Hx].
  rewrite Hx. cbn. by rewrite (take_S_r vs k x Hx).
Qed.

Lemma count_ext {A} (g : A -> bool) (a : list A) : forall b,
  g <$> a = g <$> b ->
  length (filter (fun x => g x = true) a)
  = length (filter (fun x => g x = true) b).
Proof.
  induction a as [|x a IH]; intros [|y b] Heq; try done.
  injection Heq as Hxy Heq. rewrite !filter_cons, Hxy.
  destruct (decide (g y = true)); cbn; by rewrite (IH b Heq).
Qed.

Lemma filter_take {A} (P : A -> Prop) `{!forall x, Decision (P x)}
    (vs : list A) k :
  (forall i x, vs !! i = Some x -> P x <-> (i < k)%nat) ->
  filter P vs = take k vs.
Proof.
  intros HP. rewrite <- (take_drop k vs) at 1. rewrite filter_app.
  rewrite filter_all, filter_none.
  - apply app_nil_r.
  - apply Forall_lookup. intros j y Hj. rewrite lookup_drop in Hj.
    rewrite (HP _ y Hj). lia.
  - apply Forall_lookup. intros j y Hj.
    apply lookup_take_Some in Hj as [Hj Hlt]. by apply (HP j y Hj).
Qed.

Lemma round_fn_repr_on p T v x :
  frames_on T p -> reasoning_policy v = p -> T (villager_type x) ->
  name (round_fn v x) = name x
  /\ eye_color (round_fn v x) = eye_color x
  /\ villager_type (round_fn v x) = villager_type x.
Proof.
  intros Hfr Hp HT. unfold round_fn. rewrite Hp.
  destruct (has_left x) eqn:Hl; [done|]. cbv zeta.
  destruct (refresh_only_changes_context v x)
    as (_ & Hc' & Hn' & Ht' & _).
  destruct (Hfr (refresh v x) (current_day v + 1) (announcement_made v))
    as (_ & Hc & Hn & Ht & _); [by rewrite Ht'|].
  destruct (p (refresh v x) (current_day v + 1) (announcement_made v))
    as [b y]. cbn [fst snd] in *.
  destruct b; cbn; split_and!; congruence.
Qed.

Lemma simulate_days_reprs p T v d :
  frames_on T p -> reasoning_policy v = p ->
  Forall (fun x => T (villager_type x)) (villagers v) ->
  Villager_repr <$> villagers (simulate_days d v)
  = Villager_repr <$> villagers v
  /\ eye_color <$> villagers (simulate_days d v) = eye_color <$> villagers v
  /\ Forall (fun x => T (villager_type x)) (villagers (simulate_days d v)).
Proof.
  intros Hfr Hp HT. induction d as [|d (IHr & IHc & IHT)]; [done|].
  rewrite simulate_days_S, simulate_day_villagers.
  assert (reasoning_policy (simulate_days d v) = p) as Hp'.
  { by destruct (simulate_days_fields d v) as (-> & _). }
  rewrite <- IHr, <- IHc. rewrite <- !list_fmap_compose. split_and!.
  - apply Forall_fmap_ext. eapply Forall_impl; [exact IHT|].
    intros x Hx. cbn [compose]. unfold Villager_repr.
    by destruct (round_fn_repr_on p T (simulate_days d v) x Hfr Hp' Hx)
      as (-> & -> & _).
  - apply Forall_fmap_ext. eapply Forall_impl; [exact IHT|].
    intros x Hx. cbn [compose].
    by destruct (round_fn_repr_on p T (simulate_days d v) x Hfr Hp' Hx)
      as (_ & -> & _).
  - apply Forall_fmap. eapply Forall_impl; [exact IHT|].
    intros x Hx. cbn [compose].
    by destruct (round_fn_repr_on p T (simulate_days d v) x Hfr Hp' Hx)
      as (_ & _ & ->).
Qed.

Lemma waiting_for_remaining p T k d v :
  waiting_for p T k d v -> remaining_red v = Z.of_nat k.
Proof.
  intros (_ & _ & _ & Hstd & Hk & _). unfold remaining_red.
  by rewrite (standard_red_present k (villagers v) Hstd Hk).
Qed.

Lemma settled_for_remaining p T k D v :
  settled_for p T k D v ->
  remaining_red v = 0
  /\ filter (fun x => has_left x = true) (villagers v)
     = take k (villagers v)
  /\ Forall (fun x => left_on_day x = Some (Z.of_nat D))
       (take k (villagers v)).
Proof.
  intros (_ & _ & _ & Hk & _ & Hst). split_and!.
  - unfold remaining_red.
    rewrite (filter_none (fun x => red_present x = true)); [done|].
    apply Forall_lookup. intros i x Hx. specialize (Hst i x Hx).
    unfold red_present.
    destruct (decide (i < k)%nat).
    + destruct Hst as (_ & -> & _). by rewrite andb_false_r.
    + destruct Hst as (-> & _). done.
  - apply filter_take. intros i x Hx. specialize (Hst i x Hx).
    destruct (decide (i < k)%nat).
    + by destruct Hst as (_ & -> & _).
    + destruct Hst as (_ & ->). split; [done|lia].
  - apply Forall_lookup. intros i x Hx.
    apply lookup_take_Some in Hx as [Hx Hlt]. specialize (Hst i x Hx).
    rewrite decide_True in Hst by done. by destruct Hst as (_ & _ & ->).
Qed.

(** The village [create_village] returns, and its announced version
    waiting at round 0. *)
Lemma created_village T (k n : nat) rp vt vts :
  (forall ts, vts = Some ts -> length ts = (k + n)%nat) ->
  (forall i, (i < k + n)%nat -> T (tag_at vt vts i)) ->
  exists v0,
    create_village (Z.of_nat k) (Z.of_nat n) rp vt vts = Ok v0
    /\ v0 = mkVillage (built_villager k vt vts <$> seq 0 (k + n))
              (default PerfectInductionPolicy rp) false 0 0 [] 0
    /\ waiting_for (default PerfectInductionPolicy rp) T k 0
         (make_announcement v0).
Proof.
  intros Hts HT.
  destruct (create_village_built k n rp vt vts Hts) as (v0 & Hv0 & Hb & _).
  destruct (created_waiting_default T k n rp vt vts Hts HT)
    as (v0' & Hv0' & _ & Hw).
  exists v0. split_and!; try done.
  rewrite Hv0 in Hv0'. by injection Hv0' as <-.
Qed.

Lemma run_simulation_fires T f (k n D : nat) rp vt vts :
  frames_on T (default PerfectInductionPolicy rp) ->
  decides_by T (default PerfectInductionPolicy rp) f ->
  (forall observed day, f BLUE observed day = false) ->
  (forall ts, vts = Some ts -> length ts = (k + n)%nat) ->
  (forall i, (i < k + n)%nat -> T (tag_at vt vts i)) ->
  (1 <= k)%nat ->
  (1 <= D <= k + 5)%nat ->
  (forall d, (1 <= d < D)%nat -> f RED (Z.of_nat k - 1) (Z.of_nat d) = false) ->
  f RED (Z.of_nat k - 1) (Z.of_nat D) = true ->
  run_simulation (Z.of_nat k) (Z.of_nat n) true rp vt vts
  = Ok (mkSimulationResult (Z.of_nat k) (Z.of_nat n) (Z.of_nat D) true
          ((fun name => (name, Some (Z.of_nat D)))
             <$> (built_repr k vt vts <$> seq 0 k))
          (((fun d => (d, [])) <$> range_from 1 (Z.of_nat D))
           ++ [(Z.of_nat D, built_repr k vt vts <$> seq 0 k)])).
Proof.
  intros Hfr Hdec Hblue Hts HT Hk HD Hquiet Hfire.
  destruct (created_village T k n rp vt vts Hts HT) as (v0 & Hv0 & Hb & Hw).
  unfold run_simulation. rewrite Hv0. unfold bind, Ok. f_equal.
  set (v := make_announcement v0) in *.
  set (p := default PerfectInductionPolicy rp) in *.
  set (r0 := mkSimulationResult (Z.of_nat k) (Z.of_nat n) 0 false [] []).
  (* the days before, on and after the firing day *)
  replace (Z.of_nat k + 5 + 1) with (1 + Z.of_nat (k + 5)) by lia.
  rewrite range_from_seq.
  replace (k + 5)%nat with (pred D + S (k + 5 - D))%nat by lia.
  rewrite seq_app, fmap_app. cbn [seq fmap list_fmap Nat.add].
  replace (1 + Z.of_nat (pred D)) with (Z.of_nat D) by lia.
  assert (forall d, (d < D)%nat -> waiting_for p T k d (simulate_days d v)
                    /\ forall d', (1 <= d' <= d)%nat -> leaving_on d' v = [])
    as Hdays.
  { intros d Hd. apply (quiet_days p T f Hfr Hdec Hblue k v d Hw).
    intros d' Hd' _. apply Hquiet. lia. }
  rewrite run_days_quiet.
  2:{ intros j Hj. destruct (Hdays (S j) ltac:(lia)) as [Hwj Hnone].
      split; [apply Hnone; lia|].
      rewrite (waiting_for_remaining p T k (S j) _ Hwj).
      assert ((Z.of_nat k =? 0) = false) as ->; [|done].
      apply Z.eqb_neq. lia. }
  destruct (Hdays (pred D) ltac:(lia)) as [Hwd _].
  destruct (firing_round p T f Hfr Hdec Hblue k (pred D) _ Hwd)
    as [Hleft Hs].
  { replace (S (pred D)) with D by lia. exact Hfire. }
  replace (S (pred D)) with D in Hs by lia.
  destruct (settled_for_remaining p T k D _ Hs) as (Hrem & Hgone & Hstamp).
  rewrite run_days_stop.
  2:{ rewrite Hrem. cbn. apply Z.ltb_lt. lia. }
  cbn [snd]. rewrite Hleft, Hgone.
  (* the names are those of the villagers as built *)
  assert (Villager_repr <$> villagers (simulate_day (simulate_days (pred D) v)).2
          = built_repr k vt vts <$> seq 0 (k + n)) as Hnames.
  { change (simulate_day (simulate_days (pred D) v)).2
      with (simulate_days (S (pred D)) v).
    destruct Hw as (Hp & _ & _ & _ & _ & HTv).
    destruct (simulate_days_reprs p T v (S (pred D)) Hfr Hp HTv) as (-> & _).
    subst v v0. cbn [villagers make_announcement].
    by rewrite <- list_fmap_compose. }
  assert (length (villagers (simulate_day (simulate_days (pred D) v)).2)
          = (k + n)%nat) as Hlen.
  { rewrite <- (length_fmap Villager_repr), Hnames.
    by rewrite length_fmap, length_seq. }
  assert (Villager_repr
            <$> take k (villagers (simulate_day (simulate_days (pred D) v)).2)
          = built_repr k vt vts <$> seq 0 k) as Hreds.
  { rewrite fmap_take, Hnames, <- fmap_take, take_seq.
    by replace (k `min` (k + n))%nat with k by lia. }
  rewrite deref_seq by lia. rewrite Hreds.
  unfold r0. cbn [results_num_red results_num_blue daily_events add_events app].
  f_equal.
  - rewrite <- Hreds, <- list_fmap_compose. apply Forall_fmap_ext.
    eapply Forall_impl; [exact Hstamp|]. intros x Hx. cbn [compose].
    by rewrite Hx.
  - f_equal. rewrite quiet_events_range.
    by replace (1 + Z.of_nat (pred D)) with (Z.of_nat D) by lia.
Qed.

Lemma run_days_quiet_all num_red m c v r :
  (forall j, (j < m)%nat ->
     leaving_on (S j) v = []
     /\ (remaining_red (simulate_days (S j) v) =? 0) && (0 <? num_red)
        = false) ->
  run_days num_red (range_from c (c + Z.of_nat m)) v r
  = (simulate_days m v,
     add_events ((fun d => (d, [])) <$> range_from c (c + Z.of_nat m)) r).
Proof.
  intros Hquiet. rewrite <- quiet_events_range, range_from_seq.
  rewrite <- (app_nil_r (_ <$> seq 0 m)).
  by rewrite run_days_quiet.
Qed.

Lemma run_simulation_quiet T f (k n : nat) rp vt vts :
  frames_on T (default PerfectInductionPolicy rp) ->
  decides_by T (default PerfectInductionPolicy rp) f ->
  (forall observed day, f BLUE observed day = false) ->
  (forall ts, vts = Some ts -> length ts = (k + n)%nat) ->
  (forall i, (i < k + n)%nat -> T (tag_at vt vts i)) ->
  (forall d, (1 <= d <= k + 5)%nat -> (1 <= k)%nat ->
     f RED (Z.of_nat k - 1) (Z.of_nat d) = false) ->
  run_simulation (Z.of_nat k) (Z.of_nat n) true rp vt vts
  = Ok (mkSimulationResult (Z.of_nat k) (Z.of_nat n) 0 false []
          ((fun d => (d, [])) <$> range_from 1 (Z.of_nat k + 6))).
Proof.
  intros Hfr Hdec Hblue Hts HT Hquiet.
  destruct (created_village T k n rp vt vts Hts HT) as (v0 & Hv0 & Hb & Hw).
  unfold run_simulation. rewrite Hv0. unfold bind, Ok. f_equal.
  set (v := make_announcement v0) in *.
  set (p := default PerfectInductionPolicy rp) in *.
  replace (Z.of_nat k + 5 + 1) with (1 + Z.of_nat (k + 5)) by lia.
  replace (Z.of_nat k + 6) with (1 + Z.of_nat (k + 5)) by lia.
  rewrite run_days_quiet_all; [done|].
  intros j Hj.
  destruct (quiet_days p T f Hfr Hdec Hblue k v (S j) Hw) as [Hwj Hnone].
  { intros d' Hd'. apply Hquiet. lia. }
  split; [apply Hnone; lia|].
  rewrite (waiting_for_remaining p T k (S j) _ Hwj).
  destruct k as [|k]; [done|].
  assert ((Z.of_nat (S k) =? 0) = false) as ->; [|done].
  apply Z.eqb_neq. lia.
Qed.

(** X21. [run_simulation] with the announcement, under a policy that only
    logs and decides by a rule [f] that is false on blue-eyed villagers:
    if the first day on which [f] is true for a red-eyed villager
    observing [k - 1] is [D], within the [k + 5] days played, the
    dictionary returned has [days_to_leave = D] and [all_red_left = True],
    lists the [k] red-eyed villagers with departure round [D], and holds
    one event per day up to [D], empty before [D]: the loop stops on day
    [D]. *)
Theorem run_simulation_first_firing_day T f (k n D : nat) rp vt vts :
  frames_on T (default PerfectInductionPolicy rp) ->
  decides_by T (default PerfectInductionPolicy rp) f ->
  (forall observed day, f BLUE observed day = false) ->
  (forall ts, vts = Some ts -> length ts = (k + n)%nat) ->
  (forall i, (i < k + n)%nat -> T (tag_at vt vts i)) ->
  (1 <= k)%nat ->
  (1 <= D <= k + 5)%nat ->
  (forall d, (1 <= d < D)%nat -> f RED (Z.of_nat k - 1) (Z.of_nat d) = false) ->
  f RED (Z.of_nat k - 1) (Z.of_nat D) = true ->
  run_simulation (Z.of_nat k) (Z.of_nat n) true rp vt vts
  = Ok (mkSimulationResult (Z.of_nat k) (Z.of_nat n) (Z.of_nat D) true
          ((fun name => (name, Some (Z.of_nat D)))
             <$> (built_repr k vt vts <$> seq 0 k))
          (((fun d => (d, [])) <$> range_from 1 (Z.of_nat D))
           ++ [(Z.of_nat D, built_repr k vt vts <$> seq 0 k)])).
Proof. apply run_simulation_fires. Qed.

Lemma run_simulation_first_firing_day_witness :
  run_simulation (Z.of_nat 2) (Z.of_nat 2) true
    (Some (BoundedInductionPolicy 1)) (u "dummy") None
  = Ok (mkSimulationResult (Z.of_nat 2) (Z.of_nat 2) (Z.of_nat 2) true
          ((fun name => (name, Some (Z.of_nat 2)))
             <$> (built_repr 2 (u "dummy") None <$> seq 0 2))
          (((fun d => (d, [])) <$> range_from 1 (Z.of_nat 2))
           ++ [(Z.of_nat 2, built_repr 2 (u "dummy") None <$> seq 0 2)])).
Proof.
  apply (run_simulation_first_firing_day (fun _ => True)
           (fun c o d => perfect_rule c o d && (o <=? 1)) 2 2 2
           (Some (BoundedInductionPolicy 1)) (u "dummy") None).
  - apply frames_frames_on, BoundedInductionPolicy_frames.
  - apply bounded_decides.
  - reflexivity.
  - intros ts Hts. discriminate Hts.
  - intros i Hi. exact I.
  - lia.
  - lia.
  - intros d Hd. replace d with 1%nat by lia. reflexivity.
  - reflexivity.
Defined.

(** X22. Under the same conditions, if [f] is false for a red-eyed
    villager observing [k - 1] on each of the [k + 5] days played (or
    there is no red-eyed villager), [run_simulation] plays all [k + 5]
    days and returns [days_to_leave = 0], [all_red_left = False], no
    departed villager and [k + 5] empty events. *)
Theorem run_simulation_no_firing T f (k n : nat) rp vt vts :
  frames_on T (default PerfectInductionPolicy rp) ->
  decides_by T (default PerfectInductionPolicy rp) f ->
  (forall observed day, f BLUE observed day = false) ->
  (forall ts, vts = Some ts -> length ts = (k + n)%nat) ->
  (forall i, (i < k + n)%nat -> T (tag_at vt vts i)) ->
  (forall d, (1 <= d <= k + 5)%nat -> (1 <= k)%nat ->
     f RED (Z.of_nat k - 1) (Z.of_nat d) = false) ->
  run_simulation (Z.of_nat k) (Z.of_nat n) true rp vt vts
  = Ok (mkSimulationResult (Z.of_nat k) (Z.of_nat n) 0 false []
          ((fun d => (d, [])) <$> range_from 1 (Z.of_nat k + 6))).
Proof. apply run_simulation_quiet. Qed.

Lemma run_simulation_no_firing_witness :
  run_simulation (Z.of_nat 3) (Z.of_nat 2) true (Some NoReasoningPolicy)
    (u "dummy") None
  = Ok (mkSimulationResult (Z.of_nat 3) (Z.of_nat 2) 0 false []
          ((fun d => (d, [])) <$> range_from 1 (Z.of_nat 3 + 6))).
Proof.
  apply (run_simulation_no_firing (fun _ => True) (fun _ _ _ => false) 3 2
           (Some NoReasoningPolicy) (u "dummy") None).
  - apply frames_frames_on, NoReasoningPolicy_frames.
  - intros x day Hl _. change ((NoReasoningPolicy x day true).1 = false).
    unfold NoReasoningPolicy. by rewrite Hl.
  - reflexivity.
  - intros ts Hts. discriminate Hts.
  - intros i Hi. exact I.
  - reflexivity.
Defined.

(** X23. [run_simulation(k, n)] with its defaults (the announcement,
    perfect induction, no list of type tags): for [k >= 1] it returns
    [days_to_leave = k] and [all_red_left = True], lists exactly the [k]
    red-eyed villagers, all with departure round [k], and stops after [k]
    days; for [k = 0] it plays 5 days and returns [days_to_leave = 0] and
    [all_red_left = False]. *)
Theorem run_simulation_perfect_induction (k n : nat) vt :
  run_simulation (Z.of_nat k) (Z.of_nat n) true None vt None
  = Ok (if decide (k = 0)%nat then
          mkSimulationResult 0 (Z.of_nat n) 0 false []
            ((fun d => (d, [])) <$> range_from 1 6)
        else
          mkSimulationResult (Z.of_nat k) (Z.of_nat n) (Z.of_nat k) true
            ((fun name => (name, Some (Z.of_nat k)))
               <$> (built_repr k vt None <$> seq 0 k))
            (((fun d => (d, [])) <$> range_from 1 (Z.of_nat k))
             ++ [(Z.of_nat k, built_repr k vt None <$> seq 0 k)])).
Proof.
  destruct (decide (k = 0)%nat) as [->|Hk].
  - apply (run_simulation_quiet (fun _ => True) perfect_rule 0 n None vt None);
      try done.
    + apply frames_frames_on, PerfectInductionPolicy_frames.
    + apply perfect_decides.
    + intros d _ Hk. lia.
  - apply (run_simulation_fires (fun _ => True) perfect_rule k n k None vt
             None); try done; try lia.
    + apply frames_frames_on, PerfectInductionPolicy_frames.
    + apply perfect_decides.
    + intros d Hd. rewrite perfect_rule_red by lia. apply Z.eqb_neq. lia.
    + rewrite perfect_rule_red by lia. apply Z.eqb_refl.
Qed.

(** X24. [run_simulation] without the announcement, under any policy
    that only logs and never decides to leave while no announcement was
    made: it plays all [max(10, k + 10)] days and returns
    [days_to_leave = 0], [all_red_left = False], no departed villager and
    only empty events, however many red-eyed villagers there are. *)
Theorem run_simulation_without_announcement (k n : nat) rp vt vts :
  frames (default PerfectInductionPolicy rp) ->
  (forall x day, has_left x = false ->
     (default PerfectInductionPolicy rp x day false).1 = false) ->
  (forall ts, vts = Some ts -> length ts = (k + n)%nat) ->
  run_simulation (Z.of_nat k) (Z.of_nat n) false rp vt vts
  = Ok (mkSimulationResult (Z.of_nat k) (Z.of_nat n) 0 false []
          ((fun d => (d, [])) <$> range_from 1 (Z.of_nat k + 11))).
Proof.
  intros Hfr Hsilent Hts.
  destruct (create_village_built k n rp vt vts Hts) as (v0 & Hv0 & Hb & _).
  unfold run_simulation. rewrite Hv0. unfold bind, Ok. f_equal.
  set (p := default PerfectInductionPolicy rp) in *.
  replace (Z.max 10 (Z.of_nat k + 10) + 1) with (1 + Z.of_nat (k + 10))
    by lia.
  replace (Z.of_nat k + 11) with (1 + Z.of_nat (k + 10)) by lia.
  assert (reasoning_policy v0 = p /\ announcement_made v0 = false)
    as [Hp Ha] by by rewrite Hb.
  rewrite run_days_quiet_all; [done|].
  intros j Hj.
  assert (forall m,
            leaving_on (S m) v0 = []
            /\ has_left <$> villagers (simulate_days m v0)
               = has_left <$> villagers v0) as Hrounds.
  { intros m. apply silent_rounds. intros m' x _ Hx. rewrite Hp, Ha.
    split; [by apply Hsilent|].
    destruct (Hfr x (current_day v0 + Z.of_nat m' + 1) false)
      as (_ & _ & _ & _ & _ & -> & _). exact Hx. }
  split; [apply Hrounds|].
  assert (remaining_red (simulate_days (S j) v0) = Z.of_nat k) as ->.
  { unfold remaining_red.
    rewrite (count_ext red_present _ (villagers v0)).
    - rewrite (standard_red_present k).
      + done.
      + rewrite Hb. apply built_standard.
      + rewrite Hb. cbn [villagers]. rewrite length_fmap, length_seq. lia.
    - destruct (Hrounds (S j)) as [_ Hleft].
      destruct (simulate_days_reprs p (fun _ => True) v0 (S j))
        as (_ & Hcol & _).
      { by apply frames_frames_on. }
      { done. }
      { apply Forall_forall. done. }
      apply list_eq. intros i.
      apply (f_equal (fun l => l !! i)) in Hleft, Hcol.
      rewrite !list_lookup_fmap in *.
      destruct (villagers (simulate_days (S j) v0) !! i) as [y|],
        (villagers v0 !! i) as [x|]; try done.
      cbn [fmap option_fmap option_map] in Hleft, Hcol |- *.
      injection Hleft as Hleft. injection Hcol as Hcol.
      unfold red_present. by rewrite Hleft, Hcol. }
  destruct k as [|k]; [done|].
  assert ((Z.of_nat (S k) =? 0) = false) as ->; [|done].
  apply Z.eqb_neq. lia.
Qed.


Lemma run_simulation_without_announcement_witness :
  run_simulation (Z.of_nat 3) (Z.of_nat 2) false None (u "dummy") None
  = Ok (mkSimulationResult (Z.of_nat 3) (Z.of_nat 2) 0 false []
          ((fun d => (d, [])) <$> range_from 1 (Z.of_nat 3 + 11))).
Proof.
  apply (run_simulation_without_announcement 3 2 None (u "dummy") None).
  - apply PerfectInductionPolicy_frames.
  - intros x day Hl.
    change ((PerfectInductionPolicy x day false).1 = false).
    unfold PerfectInductionPolicy. by rewrite Hl.
  - intros ts Hts. discriminate Hts.
Defined.

(** ** The hosting service *)

Lemma build_villager_types_length num_red num_blue mode :
  length (_build_villager_types num_red num_blue mode)
  = Z.to_nat (num_red + num_blue).
Proof.
  unfold _build_villager_types. cbv zeta.
  destruct (Z.leb_spec (num_red + num_blue) 0); [cbn; lia|].
  repeat case_bool_decide; rewrite ?length_replicate; try done.
  destruct (1 <? num_red + num_blue);
    by rewrite ?length_insert, length_replicate.
Qed.

Lemma build_villager_types_lookup num_red num_blue mode i :
  (i < Z.to_nat (num_red + num_blue))%nat ->
  _build_villager_types num_red num_blue mode !! i
  = Some (mode_tag mode (Z.to_nat (num_red + num_blue)) i).
Proof.
  intros Hi. unfold _build_villager_types, mode_tag. cbv zeta.
  destruct (Z.leb_spec (num_red + num_blue) 0); [lia|].
  set (total := Z.to_nat (num_red + num_blue)) in *.
  case_bool_decide; [by apply lookup_replicate_2|].
  case_bool_decide; [by apply lookup_replicate_2|].
  destruct (Z.ltb_spec 1 (num_red + num_blue)).
  - rewrite length_insert, length_replicate, !list_lookup_insert.
    rewrite length_insert, length_replicate.
    rewrite lookup_replicate_2 by done.
    destruct (decide (pred total = i /\ (pred total < total)%nat))
      as [[<- _]|Hlast].
    + rewrite bool_decide_eq_true_2; [done|by right].
    + destruct (decide (0%nat = i /\ (0 < total)%nat)) as [[<- _]|Hfirst].
      * rewrite bool_decide_eq_true_2; [done|by left].
      * rewrite bool_decide_eq_false_2; [done|]. lia.
  - rewrite list_lookup_insert, length_replicate.
    assert (i = 0%nat) as -> by lia.
    rewrite decide_True by (split; [done|lia]).
    rewrite bool_decide_eq_true_2; [done|by left].
Qed.

Lemma api_init_state openai (k n : nat) mode style app :
  (k + n <= 200)%nat ->
  _api_init openai (Z.of_nat k) (Z.of_nat n) mode style app
  = Ok (mkAppState
          (Some (mkVillage
                   (built_villager k (u "dummy")
                      (Some (_build_villager_types (Z.of_nat k) (Z.of_nat n)
                               mode))
                    <$> seq 0 (k + n))
                   (_build_reasoning_policy openai style) false 0 0
                   [Backend.init_line (Z.of_nat k) (Z.of_nat n) mode style]
                   0))
          (Z.of_nat k) (Z.of_nat n)
          (Some (_build_reasoning_policy openai style))).
Proof.
  intros Hsize. unfold _api_init.
  assert ((Z.of_nat k <? 0) || (Z.of_nat n <? 0)
          || (200 <? Z.of_nat k + Z.of_nat n) = false) as ->.
  { rewrite !orb_false_iff, !Z.ltb_ge. lia. }
  cbv zeta.
  destruct (create_village_built k n
              (Some (_build_reasoning_policy openai style)) (u "dummy")
              (Some (_build_villager_types (Z.of_nat k) (Z.of_nat n) mode)))
    as (v0 & -> & -> & _).
  { intros ts [= <-]. rewrite build_villager_types_length. lia. }
  done.
Qed.

Lemma api_init_tags (k n : nat) mode i :
  (i < k + n)%nat ->
  tag_at (u "dummy")
    (Some (_build_villager_types (Z.of_nat k) (Z.of_nat n) mode)) i
  = mode_tag mode (k + n) i.
Proof.
  intros Hi. unfold tag_at.
  rewrite build_villager_types_lookup by lia.
  by replace (Z.to_nat (Z.of_nat k + Z.of_nat n)) with (k + n)%nat by lia.
Qed.

(** X25. [_api_init] accepts every pair of counts with a total of at
    most 200, in every mode: the type list of [_build_villager_types]
    always has the length [create_village] asks for. The new state holds
    the counts, the routing policy, and a village that is not announced,
    at round 0, whose log holds the initialisation line alone and whose
    villagers are those of [create_village] with the type tags of the
    mode: all remote, all local, or remote for the first and the last
    villager only. *)
Theorem api_init_accepts openai (k n : nat) mode style app :
  (k + n <= 200)%nat ->
  _api_init openai (Z.of_nat k) (Z.of_nat n) mode style app
  = Ok (mkAppState
          (Some (mkVillage
                   (built_villager k (u "dummy")
                      (Some (_build_villager_types (Z.of_nat k) (Z.of_nat n)
                               mode))
                    <$> seq 0 (k + n))
                   (_build_reasoning_policy openai style) false 0 0
                   [Backend.init_line (Z.of_nat k) (Z.of_nat n) mode style]
                   0))
          (Z.of_nat k) (Z.of_nat n)
          (Some (_build_reasoning_policy openai style)))
  /\ length (_build_villager_types (Z.of_nat k) (Z.of_nat n) mode)
     = (k + n)%nat
  /\ forall i, (i < k + n)%nat ->
       villager_type
         (built_villager k (u "dummy")
            (Some (_build_villager_types (Z.of_nat k) (Z.of_nat n) mode)) i)
       = mode_tag mode (k + n) i.
Proof.
  intros Hsize. split_and!.
  - by apply api_init_state.
  - rewrite build_villager_types_length. lia.
  - intros i Hi. rewrite <- (api_init_tags k n mode i Hi).
    unfold built_villager. by destruct (decide (i < k)%nat).
Qed.

Lemma api_init_accepts_witness :
  let openai := fun (_ : pystr) (_ : bool) => NoReasoningPolicy in
  _api_init openai (Z.of_nat 2) (Z.of_nat 3) (u "mixed_ends") (u "social")
    (mkAppState None 0 0 None)
  = Ok (mkAppState
          (Some (mkVillage
                   (built_villager 2 (u "dummy")
                      (Some (_build_villager_types (Z.of_nat 2) (Z.of_nat 3)
                               (u "mixed_ends")))
                    <$> seq 0 (2 + 3))
                   (_build_reasoning_policy openai (u "social")) false 0 0
                   [Backend.init_line (Z.of_nat 2) (Z.of_nat 3)
                      (u "mixed_ends") (u "social")]
                   0))
          (Z.of_nat 2) (Z.of_nat 3)
          (Some (_build_reasoning_policy openai (u "social"))))
  /\ length (_build_villager_types (Z.of_nat 2) (Z.of_nat 3) (u "mixed_ends"))
     = (2 + 3)%nat
  /\ forall i, (i < 2 + 3)%nat ->
       villager_type
         (built_villager 2 (u "dummy")
            (Some (_build_villager_types (Z.of_nat 2) (Z.of_nat 3)
                     (u "mixed_ends"))) i)
       = mode_tag (u "mixed_ends") (2 + 3) i.
Proof.
  apply (api_init_accepts (fun _ _ => NoReasoningPolicy) 2 3 (u "mixed_ends")
           (u "social") (mkAppState None 0 0 None)).
  lia.
Defined.

(** The routing policy of the hosting service sends every villager whose
    type tag is not the remote one to perfect induction. *)
Lemma routed_local openai style x day announced :
  villager_type x <> u "openai" ->
  _build_reasoning_policy openai style x day announced
  = PerfectInductionPolicy x day announced.
Proof.
  intros Hx. unfold _build_reasoning_policy, PolicyByVillagerType.
  cbv zeta. cbn [dict_get].
  case_bool_decide; [done|].
  by rewrite bool_decide_eq_false_2 by (intros Heq; by apply Hx).
Qed.

Lemma routed_frames_on openai style :
  frames_on (fun t => t <> u "openai") (_build_reasoning_policy openai style).
Proof.
  intros x day a Hx. rewrite routed_local by done.
  apply PerfectInductionPolicy_frames.
Qed.

Lemma routed_decides openai style :
  decides_by (fun t => t <> u "openai") (_build_reasoning_policy openai style)
    perfect_rule.
Proof.
  intros x day Hl Hx. rewrite routed_local by done.
  by apply PerfectInductionPolicy_rule.
Qed.

Lemma is_finished_remaining num_red v :
  is_finished num_red v = (num_red =? 0) || (remaining_red v =? 0).
Proof.
  unfold is_finished, remaining_red.
  destruct (num_red =? 0); [done|]. cbn [orb].
  induction (villagers v) as [|x vs IH]; [done|].
  destruct (decide (eye_color x = RED)) as [Hc|Hc].
  - rewrite (filter_cons_True (fun v => eye_color v = RED)) by done.
    cbn [forallb]. destruct (has_left x) eqn:Hl; cbn [andb].
    + rewrite filter_cons_False; [exact IH|].
      unfold red_present. rewrite Hl, andb_false_r. done.
    + rewrite filter_cons_True.
      * cbn [length]. symmetry. apply Z.eqb_neq. lia.
      * unfold red_present. rewrite Hl, bool_decide_eq_true_2 by done. done.
  - rewrite (filter_cons_False (fun v => eye_color v = RED)) by done.
    rewrite filter_cons_False; [exact IH|].
    unfold red_present. rewrite bool_decide_eq_false_2 by done. done.
Qed.

Lemma run_all_loop_spec num_red fuel : forall v,
  exists j,
    (j <= fuel)%nat
    /\ run_all_loop num_red fuel v = simulate_days j v
    /\ (forall i, (i < j)%nat ->
          is_finished num_red (simulate_days i v) = false)
    /\ (is_finished num_red (simulate_days j v) = true \/ j = fuel).
Proof.
  induction fuel as [|fuel IH]; intros v.
  - exists O. split_and!; try done; [intros i Hi; lia|by right].
  - cbn [run_all_loop]. destruct (is_finished num_red v) eqn:Hfin.
    + exists O. split_and!; try done; [lia|intros i Hi; lia|by left].
    + destruct (IH (simulate_day v).2) as (j & Hj & Hrun & Hbefore & Hend).
      exists (S j). rewrite <- simulate_days_unshift. split_and!.
      * lia.
      * done.
      * intros [|i] Hi; [done|].
        rewrite <- simulate_days_unshift. apply Hbefore. lia.
      * destruct Hend as [Hend| ->]; [by left|by right].
Qed.

Lemma local_tag_not_remote : u "dummy" <> u "openai".
Proof. intros Heq. vm_compute in Heq. discriminate Heq. Qed.

Lemma all_dummy_tags total i : mode_tag (u "all_dummy") total i = u "dummy".
Proof.
  unfold mode_tag.
  case_bool_decide as Hremote.
  { vm_compute in Hremote. discriminate Hremote. }
  case_bool_decide as Hlocal; [done|]. by destruct Hlocal.
Qed.

(** The village of [_api_init] in the mode in which every villager is
    local. *)
Lemma hosted_local_village openai (k n : nat) style app :
  (k + n <= 200)%nat ->
  exists v1,
    _api_init openai (Z.of_nat k) (Z.of_nat n) (u "all_dummy") style app
    = Ok (mkAppState (Some v1) (Z.of_nat k) (Z.of_nat n)
            (Some (_build_reasoning_policy openai style)))
    /\ reasoning_policy v1 = _build_reasoning_policy openai style
    /\ announcement_made v1 = false
    /\ current_day v1 = 0
    /\ length (villagers v1) = (k + n)%nat
    /\ standard k (villagers v1)
    /\ Forall (fun x => villager_type x <> u "openai") (villagers v1).
Proof.
  intros Hsize. eexists. split; [by apply api_init_state|].
  cbn [reasoning_policy announcement_made current_day villagers].
  rewrite length_fmap, length_seq. split_and!; try done.
  - apply built_standard.
  - apply Forall_fmap, Forall_seq. intros i Hi. cbn [compose].
    assert (villager_type (built_villager k (u "dummy")
              (Some (_build_villager_types (Z.of_nat k) (Z.of_nat n)
                       (u "all_dummy"))) i)
            = mode_tag (u "all_dummy") (k + n) i) as ->.
    { rewrite <- api_init_tags by lia.
      unfold built_villager. by destruct (decide (i < k)%nat). }
    rewrite all_dummy_tags. apply local_tag_not_remote.
Qed.

(** X26. The hosting service with every villager local, for [k >= 1]
    red-eyed villagers and a total of at most 200: whatever the remote
    policy and the style, the village of [_api_init], once announced,
    runs as under perfect induction (the red-eyed villagers leave on
    round [k], nobody else ever does), and [_api_announce] followed by
    [_api_run_all] plays exactly [k] rounds and stops there. *)
Theorem hosted_local_run openai (k n : nat) style app :
  (1 <= k)%nat ->
  (k + n <= 200)%nat ->
  exists v1,
    let policy := _build_reasoning_policy openai style in
    let app1 := mkAppState (Some v1) (Z.of_nat k) (Z.of_nat n) (Some policy) in
    _api_init openai (Z.of_nat k) (Z.of_nat n) (u "all_dummy") style app
    = Ok app1
    /\ leaves_on_round k n k (make_announcement v1)
    /\ (try app2 <- _api_announce app1 in _api_run_all app2)
       = Ok (mkAppState (Some (simulate_days k (make_announcement v1)))
               (Z.of_nat k) (Z.of_nat n) (Some policy)).
Proof.
  intros Hk Hsize.
  destruct (hosted_local_village openai k n style app Hsize)
    as (v1 & Hinit & Hp & Ha & Hd & Hlen & Hstd & HT).
  exists v1. cbv zeta. split; [done|].
  set (p := _build_reasoning_policy openai style) in *.
  set (T := fun t : pystr => t <> u "openai") in *.
  set (v := make_announcement v1).
  pose proof (routed_frames_on openai style) as Hfr.
  pose proof (routed_decides openai style) as Hdec.
  assert (waiting_for p T k 0 v) as Hw.
  { unfold waiting_for, v, make_announcement.
    cbn [reasoning_policy announcement_made current_day villagers].
    split_and!; try done. lia. }
  assert (length (villagers v) = (k + n)%nat) as Hlen' by done.
  assert (forall d, (1 <= d < k)%nat ->
            perfect_rule RED (Z.of_nat k - 1) (Z.of_nat d) = false) as Hquiet.
  { intros d Hd'. rewrite perfect_rule_red by done. apply Z.eqb_neq. lia. }
  assert (perfect_rule RED (Z.of_nat k - 1) (Z.of_nat k) = true) as Hfire.
  { rewrite perfect_rule_red by done. apply Z.eqb_refl. }
  split.
  { by apply (closed_form_for p T perfect_rule k n k v Hfr Hdec). }
  unfold _api_announce. cbn [app_village bind Ok]. unfold bind, Ok.
  unfold _api_run_all.
  cbn [app_village app_num_red app_num_blue app_reasoning_policy].
  fold v. cbv zeta.
  assert (announcement_made v = true) as Hav by done. rewrite Hav.
  (* the loop stops after exactly [k] rounds *)
  assert (forall d, (d < k)%nat -> waiting_for p T k d (simulate_days d v))
    as Hdays.
  { intros d Hd'.
    apply (quiet_days p T perfect_rule Hfr Hdec perfect_rule_blue k v d Hw).
    intros d' Hd'' _. apply Hquiet. lia. }
  assert (settled_for p T k k (simulate_days k v)) as Hs.
  { destruct (firing_round p T perfect_rule Hfr Hdec perfect_rule_blue k
                (pred k) _ (Hdays (pred k) ltac:(lia))) as [_ Hs].
    { by replace (S (pred k)) with k by lia. }
    replace (S (pred k)) with k in Hs by lia.
    replace k with (S (pred k)) at 3 by lia. exact Hs. }
  destruct (run_all_loop_spec (Z.of_nat k)
              (Z.to_nat (Z.max 5 (Z.of_nat k + 10))) v)
    as (j & Hj & -> & Hbefore & Hend).
  assert (j = k) as ->.
  { destruct (Nat.lt_trichotomy j k) as [Hlt|[->|Hgt]]; [|done|].
    - destruct Hend as [Hend|Hend]; [|lia].
      rewrite is_finished_remaining in Hend.
      rewrite (waiting_for_remaining p T k j _ (Hdays j Hlt)) in Hend.
      apply orb_true_iff in Hend as [Hend|Hend];
        apply Z.eqb_eq in Hend; lia.
    - specialize (Hbefore k Hgt). rewrite is_finished_remaining in Hbefore.
      destruct (settled_for_remaining p T k k _ Hs) as (Hrem & _).
      rewrite Hrem, orb_true_r in Hbefore. done. }
  destruct (simulate_days_fields k v) as (_ & -> & _). by rewrite Hav.
Qed.

Lemma hosted_local_run_witness :
  exists v1,
    let openai := fun (_ : pystr) (_ : bool) => NoReasoningPolicy in
    let policy := _build_reasoning_policy openai (u "social") in
    let app1 := mkAppState (Some v1) (Z.of_nat 3) (Z.of_nat 2) (Some policy) in
    _api_init openai (Z.of_nat 3) (Z.of_nat 2) (u "all_dummy") (u "social")
      (mkAppState None 0 0 None)
    = Ok app1
    /\ leaves_on_round 3 2 3 (make_announcement v1)
    /\ (try app2 <- _api_announce app1 in _api_run_all app2)
       = Ok (mkAppState (Some (simulate_days 3 (make_announcement v1)))
               (Z.of_nat 3) (Z.of_nat 2) (Some policy)).
Proof.
  apply (hosted_local_run (fun _ _ => NoReasoningPolicy) 3 2 (u "social")
           (mkAppState None 0 0 None)).
  - lia.
  - lia.
Defined.

Lemma run_all_cap_pos num_red v : 5 <= run_all_cap num_red v.
Proof. unfold run_all_cap. destruct (announcement_made v); lia. Qed.

Lemma api_run_all_state app v :
  app_village app = Some v ->
  exists j,
    let num_red := app_num_red app in
    let cap := run_all_cap num_red v in
    let w := simulate_days j v in
    Z.of_nat j <= cap
    /\ (forall i, (i < j)%nat ->
          is_finished num_red (simulate_days i v) = false)
    /\ (is_finished num_red w = true \/ Z.of_nat j = cap)
    /\ _api_run_all app
       = Ok (mkAppState
               (Some (if negb (announcement_made v)
                         && negb (is_finished num_red w)
                      then
                        mkVillage (villagers w) (reasoning_policy w)
                          (announcement_made w) (current_day w)
                          (knowledge_level w)
                          (daily_log w ++ [stopped_line cap])
                          (left_yesterday_count w)
                      else w))
               (app_num_red app) (app_num_blue app)
               (app_reasoning_policy app)).
Proof.
  intros Hv. unfold _api_run_all. rewrite Hv. cbv zeta.
  fold (run_all_cap (app_num_red app) v).
  pose proof (run_all_cap_pos (app_num_red app) v) as Hcap.
  destruct (run_all_loop_spec (app_num_red app)
              (Z.to_nat (run_all_cap (app_num_red app) v)) v)
    as (j & Hj & -> & Hbefore & Hend).
  exists j. split_and!; try done.
  - lia.
  - destruct Hend as [Hend|Hend]; [by left|right; lia].
  - by destruct (simulate_days_fields j v) as (_ & -> & _).
Qed.












(** Rounds in which the policy stays silent on the type tags in [T]. *)
Lemma silent_round_on (T : pystr -> Prop) v :
  frames_on T (reasoning_policy v) ->
  Forall (fun x => T (villager_type x)) (villagers v) ->
  (forall x, T (villager_type x) -> has_left x = false ->
     (reasoning_policy v x (current_day v + 1) (announcement_made v)).1
     = false) ->
  (simulate_day v).1 = []
  /\ has_left <$> villagers (simulate_day v).2 = has_left <$> villagers v.
Proof.
  intros Hfr HT Hsilent. rewrite Forall_lookup in HT. split.
  - rewrite simulate_day_leaving. apply filter_none, Forall_forall.
    intros i _. unfold departs_at.
    destruct (villagers v !! i) as [x|] eqn:Hx; [|done].
    unfold departs. destruct (has_left x) eqn:Hl; [done|]. cbn [negb andb].
    destruct (refresh_only_changes_context v x)
      as (_ & _ & _ & Ht & Hh & _).
    rewrite Hsilent; [done| |congruence].
    rewrite Ht. by apply (HT i).
  - rewrite simulate_day_villagers, <- list_fmap_compose.
    apply Forall_fmap_ext, Forall_lookup. intros i x Hx. cbn [compose].
    unfold round_fn. destruct (has_left x) eqn:Hl; [done|]. cbv zeta.
    destruct (refresh_only_changes_context v x)
      as (_ & _ & _ & Ht & Hh & _).
    rewrite Hsilent; [| |congruence].
    + destruct (Hfr (refresh v x) (current_day v + 1) (announcement_made v))
        as (_ & _ & _ & _ & _ & -> & _); [|congruence].
      rewrite Ht. by apply (HT i).
    + rewrite Ht. by apply (HT i).
Qed.

Lemma silent_rounds_on (T : pystr -> Prop) v :
  frames_on T (reasoning_policy v) ->
  Forall (fun x => T (villager_type x)) (villagers v) ->
  (forall x day, T (villager_type x) -> has_left x = false ->
     (reasoning_policy v x day (announcement_made v)).1 = false) ->
  forall d,
    leaving_on (S d) v = []
    /\ has_left <$> villagers (simulate_days d v) = has_left <$> villagers v
    /\ remaining_red (simulate_days d v) = remaining_red v.
Proof.
  intros Hfr HT Hsilent.
  assert (forall d,
            (simulate_day (simulate_days d v)).1 = []
            /\ has_left <$> villagers (simulate_day (simulate_days d v)).2
               = has_left <$> villagers (simulate_days d v)) as Hround.
  { intros d.
    destruct (simulate_days_fields d v) as (Hp & Ha & _).
    destruct (simulate_days_reprs _ T v d Hfr eq_refl HT) as (_ & _ & HTd).
    apply (silent_round_on T); rewrite ?Hp, ?Ha; try done.
    intros x Hx Hl. by apply Hsilent. }
  assert (forall d, has_left <$> villagers (simulate_days d v)
                    = has_left <$> villagers v) as Hflags.
  { induction d as [|d IH]; [done|].
    rewrite simulate_days_S. by destruct (Hround d) as [_ ->]. }
  intros d. split_and!; [apply Hround|apply Hflags|].
  unfold remaining_red. f_equal. apply count_ext.
  destruct (simulate_days_reprs _ T v d Hfr eq_refl HT) as (_ & Hcol & _).
  pose proof (Hflags d) as Hleft.
  apply list_eq. intros i.
  apply (f_equal (fun l => l !! i)) in Hleft, Hcol.
  rewrite !list_lookup_fmap in *.
  destruct (villagers (simulate_days d v) !! i) as [y|],
    (villagers v !! i) as [x|]; try done.
  cbn [fmap option_fmap option_map] in Hleft, Hcol |- *.
  injection Hleft as Hleft. injection Hcol as Hcol.
  unfold red_present. by rewrite Hleft, Hcol.
Qed.

(** X29. The hosting service with every villager local and no
    announcement, for [k >= 1] red-eyed villagers: no round ever returns
    anybody and everybody stays present, whatever the remote policy; one
    call of [_api_run_all] plays exactly 20 rounds and appends its closing
    line to the daily log. *)
Theorem hosted_unannounced_run openai (k n : nat) style app :
  (1 <= k)%nat ->
  (k + n <= 200)%nat ->
  exists v1,
    let policy := _build_reasoning_policy openai style in
    let app1 := mkAppState (Some v1) (Z.of_nat k) (Z.of_nat n) (Some policy) in
    let w := simulate_days 20 v1 in
    _api_init openai (Z.of_nat k) (Z.of_nat n) (u "all_dummy") style app
    = Ok app1
    /\ (forall d,
          leaving_on (S d) v1 = []
          /\ Forall (fun x => has_left x = false)
               (villagers (simulate_days d v1)))
    /\ _api_run_all app1
       = Ok (mkAppState
               (Some (mkVillage (villagers w) (reasoning_policy w)
                        (announcement_made w) (current_day w)
                        (knowledge_level w)
                        (daily_log w ++ [stopped_line 20])
                        (left_yesterday_count w)))
               (Z.of_nat k) (Z.of_nat n) (Some policy)).
Proof.
  intros Hk Hsize.
  destruct (hosted_local_village openai k n style app Hsize)
    as (v1 & Hinit & Hp & Ha & Hd & Hlen & Hstd & HT).
  exists v1. cbv zeta. split; [done|].
  set (T := fun t : pystr => t <> u "openai") in *.
  assert (forall d,
            leaving_on (S d) v1 = []
            /\ has_left <$> villagers (simulate_days d v1)
               = has_left <$> villagers v1
            /\ remaining_red (simulate_days d v1) = Z.of_nat k) as Hsilent.
  { intros d.
    destruct (silent_rounds_on T v1) with (d := d) as (Hl & Hf & Hr);
      try done.
    - rewrite Hp. apply routed_frames_on.
    - intros x day Hx Hl. rewrite Hp, Ha, routed_local by done.
      unfold PerfectInductionPolicy. by rewrite Hl.
    - split_and!; try done. rewrite Hr.
      apply (waiting_for_remaining (reasoning_policy v1) T k 0
               (mkVillage (villagers v1) (reasoning_policy v1) true 0 0 [] 0)).
      unfold waiting_for. cbn. split_and!; try done. lia. }
  split.
  - intros d. destruct (Hsilent d) as (Hnone & Hflags & _).
    split; [done|].
    apply (Forall_fmap has_left (fun b => b = false)). rewrite Hflags.
    apply Forall_fmap, Forall_lookup. intros i x Hx. cbn [compose].
    by destruct (Hstd i x Hx) as (_ & _ & ->).
  - destruct (api_run_all_state
                (mkAppState (Some v1) (Z.of_nat k) (Z.of_nat n)
                   (Some (_build_reasoning_policy openai style))) v1 eq_refl)
      as (j & Hj & Hbefore & Hend & ->).
    cbn [app_num_red app_num_blue app_reasoning_policy] in *.
    assert (forall d, is_finished (Z.of_nat k) (simulate_days d v1) = false)
      as Hopen.
    { intros d. rewrite is_finished_remaining.
      destruct (Hsilent d) as (_ & _ & ->).
      assert ((Z.of_nat k =? 0) = false) as ->; [|done].
      apply Z.eqb_neq. lia. }
    unfold run_all_cap in *. rewrite Ha in *. rewrite Hopen in *.
    destruct Hend as [Hend|Hend]; [done|].
    assert (j = 20%nat) as -> by lia. done.
Qed.

Lemma hosted_unannounced_run_witness :
  exists v1,
    let openai := fun (_ : pystr) (_ : bool) => NoReasoningPolicy in
    let policy := _build_reasoning_policy openai (u "social") in
    let app1 := mkAppState (Some v1) (Z.of_nat 3) (Z.of_nat 2) (Some policy) in
    let w := simulate_days 20 v1 in
    _api_init openai (Z.of_nat 3) (Z.of_nat 2) (u "all_dummy") (u "social")
      (mkAppState None 0 0 None)
    = Ok app1
    /\ (forall d,
          leaving_on (S d) v1 = []
          /\ Forall (fun x => has_left x = false)
               (villagers (simulate_days d v1)))
    /\ _api_run_all app1
       = Ok (mkAppState
               (Some (mkVillage (villagers w) (reasoning_policy w)
                        (announcement_made w) (current_day w)
                        (knowledge_level w)
                        (daily_log w ++ [stopped_line 20])
                        (left_yesterday_count w)))
               (Z.of_nat 3) (Z.of_nat 2) (Some policy)).
Proof.
  apply (hosted_unannounced_run (fun _ _ => NoReasoningPolicy) 3 2
           (u "social") (mkAppState None 0 0 None)).
  - lia.
  - lia.
Defined.

(** ** The [.env] loader *)

Lemma contains_find_char c s : forall i,
  0 <= i -> contains [c] s = negb (find_from [c] s i =? -1).
Proof.
  induction s as [|d s IH]; intros i Hi.
  - done.
  - cbn [contains find_from].
    destruct (startswith [c] (d :: s)).
    + cbn [orb]. symmetry. apply negb_true_iff, Z.eqb_neq. lia.
    + cbn [orb]. apply IH. lia.
Qed.

(** [load_line] assigns what [parse_line] reads from the line; the
    unpacking of the split never fails. *)
Lemma load_line_parse override raw_line env :
  load_line override raw_line env
  = match parse_line raw_line with
    | Some (key, value) =>
        if negb override && environ_contains key env then Ok env
        else environ_setitem key value env
    | None => Ok env
    end.
Proof.
  unfold load_line, parse_line. cbv zeta.
  destruct (bool_decide (strip raw_line = []) || startswith (u "#") _);
    [done|].
  set (line := if startswith (u "export ") (strip raw_line) then _ else _).
  change (u "=") with [61%N]. unfold split_once, str_find.
  rewrite (contains_find_char 61%N line 0) by done.
  destruct (find_from [61%N] line 0 =? -1); [done|].
  cbn [negb length]. rewrite Nat.add_1_r, <- Nat.add_1_r.
  by destruct (bool_decide (strip (slice line 0 (find_from [61%N] line 0))
                            = [])).
Qed.

Lemma dict_get_environ_set key value env k :
  dict_get (environ_set key value env) k
  = if bool_decide (k = key) then Some value else dict_get env k.
Proof.
  destruct (decide (k = key)) as [->|Hk].
  - rewrite (bool_decide_eq_true_2 (key = key)) by done.
    induction env as [|[k0 v0] env IH].
    + cbn. by rewrite bool_decide_eq_true_2.
    + cbn [environ_set]. destruct (decide (k0 = key)) as [->|Hk0].
      * rewrite (bool_decide_eq_true_2 (key = key)) by done.
        cbn [dict_get]. by rewrite bool_decide_eq_true_2.
      * rewrite (bool_decide_eq_false_2 (k0 = key)) by done.
        cbn [dict_get]. by rewrite bool_decide_eq_false_2.
  - rewrite (bool_decide_eq_false_2 (k = key)) by done.
    induction env as [|[k0 v0] env IH].
    + cbn. rewrite bool_decide_eq_false_2; [done|congruence].
    + cbn [environ_set]. destruct (decide (k0 = key)) as [->|Hk0].
      * rewrite (bool_decide_eq_true_2 (key = key)) by done.
        cbn [dict_get]. rewrite !bool_decide_eq_false_2; [done|congruence].
      * rewrite (bool_decide_eq_false_2 (k0 = key)) by done.
        cbn [dict_get]. by rewrite IH.
Qed.

Lemma load_line_keeps raw_line env env' key value :
  load_line false raw_line env = Ok env' ->
  dict_get env key = Some value -> dict_get env' key = Some value.
Proof.
  rewrite load_line_parse. intros Hload Hget.
  destruct (parse_line raw_line) as [[k v]|]; [|by injection Hload as <-].
  cbn [negb andb] in Hload. unfold environ_contains in Hload.
  destruct (dict_get env k) as [v0|] eqn:Hk; [by injection Hload as <-|].
  unfold environ_setitem in Hload.
  destruct (existsb _ k || existsb _ v); [done|]. injection Hload as <-.
  rewrite dict_get_environ_set, bool_decide_eq_false_2; [done|].
  intros ->. congruence.
Qed.

Lemma load_lines_keeps lines : forall env key value,
  dict_get env key = Some value ->
  dict_get (load_lines false lines env).1 key = Some value.
Proof.
  induction lines as [|raw_line lines IH]; intros env key value Hget;
    [done|].
  cbn [load_lines].
  destruct (load_line false raw_line env) as [e|env'] eqn:Hload; [done|].
  apply IH. by apply (load_line_keeps raw_line env).
Qed.

Lemma load_line_outcome override raw_line env :
  (exists env', load_line override raw_line env = Ok env')
  \/ load_line override raw_line env = Raise embedded_null.
Proof.
  rewrite load_line_parse.
  destruct (parse_line raw_line) as [[k v]|]; [|by left; eexists].
  destruct (negb override && environ_contains k env); [by left; eexists|].
  unfold environ_setitem.
  destruct (existsb _ k || existsb _ v); [by right|by left; eexists].
Qed.

Lemma load_lines_outcome override lines : forall env,
  (load_lines override lines env).2 = Ok tt
  \/ (load_lines override lines env).2 = Raise embedded_null.
Proof.
  induction lines as [|raw_line lines IH]; intros env; [by left|].
  cbn [load_lines].
  destruct (load_line_outcome override raw_line env) as [[env' ->]| ->];
    [apply IH|by right].
Qed.

Section NoNull.
Variable P : N -> Prop.

Lemma Forall_lstrip s : Forall P s -> Forall P (lstrip s).
Proof.
  destruct (lstrip_suffix s) as [w Hw]. rewrite Hw at 1.
  by intros [_ ?]%Forall_app.
Qed.

Lemma Forall_strip s : Forall P s -> Forall P (strip s).
Proof.
  destruct (strip_occurs s) as (a & b & Hs). rewrite Hs at 1.
  by intros [_ [? _]%Forall_app]%Forall_app.
Qed.

Lemma Forall_slice s start stop : Forall P s -> Forall P (slice s start stop).
Proof. intros Hs. unfold slice. by apply Forall_take, Forall_drop. Qed.

Lemma Forall_unquote value : Forall P value -> Forall P (unquote value).
Proof.
  intros Hv. unfold unquote. destruct value as [|c r]; [done|].
  destruct (last (c :: r)); [|done].
  destruct (_ && _); [by apply Forall_slice|done].
Qed.

Lemma parse_line_Forall raw_line key value :
  Forall P raw_line -> parse_line raw_line = Some (key, value) ->
  Forall P key /\ Forall P value.
Proof.
  intros Hraw. unfold parse_line. cbv zeta.
  destruct (bool_decide (strip raw_line = []) || startswith (u "#") _);
    [done|].
  set (line := if startswith (u "export ") (strip raw_line) then _ else _).
  assert (Forall P line) as Hline.
  { unfold line. destruct (startswith _ _).
    - by apply Forall_lstrip, Forall_drop, Forall_strip.
    - by apply Forall_strip. }
  destruct (str_find line (u "=") =? -1); [done|].
  case_bool_decide; [done|]. intros [= <- <-]. split.
  - by apply Forall_strip, Forall_slice.
  - by apply Forall_unquote, Forall_strip, Forall_drop.
Qed.

Lemma splitlines_from_Forall s : forall cur,
  Forall P cur -> Forall P s -> Forall (Forall P) (splitlines_from cur s).
Proof.
  induction s as [s IH] using (induction_ltof1 _ (@length N)).
  unfold ltof in IH. intros cur Hcur Hs.
  destruct s as [|c r]; cbn [splitlines_from].
  - destruct cur; [done|]. by apply Forall_singleton.
  - apply Forall_cons in Hs as [Hc Hr].
    destruct (is_linebreak c).
    + apply Forall_cons. split; [done|].
      destruct (c =? 13)%N; [|apply IH; cbn; [lia|done|done]].
      destruct r as [|c' r']; [done|].
      apply Forall_cons in Hr as [Hc' Hr'].
      destruct (c' =? 10)%N; apply IH; cbn; try done; try lia.
      by apply Forall_cons.
    + apply IH; cbn; [lia| |done].
      apply Forall_app. split; [done|by apply Forall_singleton].
Qed.

End NoNull.

Lemma no_null_existsb s :
  Forall (fun c => c <> 0%N) s -> existsb (N.eqb 0) s = false.
Proof.
  induction 1 as [|c s Hc _ IH]; [done|]. cbn [existsb]. rewrite IH.
  by destruct (N.eqb_spec 0 c).
Qed.

Lemma load_lines_no_null override lines : forall env,
  Forall (Forall (fun c => c <> 0%N)) lines ->
  (load_lines override lines env).2 = Ok tt.
Proof.
  induction lines as [|raw_line lines IH]; intros env Hlines; [done|].
  apply Forall_cons in Hlines as [Hraw Hlines].
  cbn [load_lines]. rewrite load_line_parse.
  destruct (parse_line raw_line) as [[k v]|] eqn:Hparse; [|by apply IH].
  destruct (negb override && environ_contains k env); [by apply IH|].
  destruct (parse_line_Forall _ raw_line k v Hraw Hparse) as [Hk Hv].
  unfold environ_setitem. rewrite !no_null_existsb by done.
  by apply IH.
Qed.

(** X30. [load_dotenv] without [override] never changes a variable
    that is already set, whatever the file holds and even when it ends in
    an error. A missing file leaves the environment as it is and gives
    [False]. On a file that is there the call either returns [True] or
    fails on a null character that [putenv] refuses; it returns [True]
    whenever the text holds no null character: no line, however
    malformed, makes the parsing fail. *)
Theorem load_dotenv_keeps_existing file env :
  (forall key value,
      dict_get env key = Some value ->
      dict_get (load_dotenv file false env).1 key = Some value)
  /\ (forall override, load_dotenv None override env = (env, Ok false))
  /\ (forall text override,
        (load_dotenv (Some text) override env).2 = Ok true
        \/ (load_dotenv (Some text) override env).2 = Raise embedded_null)
  /\ (forall text override,
        Forall (fun c => c <> 0%N) text ->
        (load_dotenv (Some text) override env).2 = Ok true).
Proof.
  split_and!.
  - intros key value Hget. destruct file as [text|]; [|done].
    cbn [load_dotenv].
    pose proof (load_lines_keeps (splitlines text) env key value Hget) as Hk.
    by destruct (load_lines false (splitlines text) env).
  - done.
  - intros text override. cbn [load_dotenv].
    pose proof (load_lines_outcome override (splitlines text) env) as Ho.
    destruct (load_lines override (splitlines text) env) as [env' r].
    cbn [snd] in *. destruct Ho as [-> | ->]; [by left|by right].
  - intros text override Htext. cbn [load_dotenv].
    pose proof (load_lines_no_null override (splitlines text) env) as Ho.
    destruct (load_lines override (splitlines text) env) as [env' r].
    cbn [snd] in *. rewrite Ho; [done|].
    by apply splitlines_from_Forall.
Qed.
